(** * Piribot: conversational session and prompt orchestration

    A shallow embedding of the Python sources [config/settings.py],
    [bot/language.py], [bot/prompts.py], [bot/gemini_client.py] and
    [bot/telegram_bot.py], followed by the properties of the
    specification that concern them.

    Python [str] values are modelled as [string]: sequences of bytes
    holding the UTF-8 encoding of the text.  Substring search on valid
    UTF-8 agrees with substring search on code points.  [str.strip]
    removes the white space of [str.isspace], the ASCII characters and the
    code points of Unicode alike, read off their UTF-8 encodings;
    [textwrap.dedent] is modelled after its definition with regular
    expressions in CPython, and [str.lower], which follows the Unicode
    tables, is a parameter of everything that uses it.

    Dictionaries loaded from JSON files are finite maps; the objects in
    them are records of the optional keys the code reads, and a question
    or an answer of the FAQ file is a string or some other JSON value, on
    which [.strip()] raises.  The handlers run in a small state and trace
    monad: the state is the per-user store [context.user_data], the trace
    lists the calls of [reply_text] and the calls of the generative
    backend, whose answers are given by a function from the prompt.  A
    call of [reply_text] returns or raises, as the update decides call by
    call; a handler ends normally or with an exception, and the
    application logs the exception and goes on with the next update. *)

From Stdlib Require Import String Ascii List Bool Arith Lia.
From stdpp Require Import base option list gmap strings.
Import ListNotations.

(** ** The [str] methods and [textwrap.dedent] *)

Module PyStr.

(** The line feed and the double quote. *)
Definition nl : string := String "010" "".
Definition dq : string := String "034" "".

(** Truthiness of a [str]: the empty string is falsy. *)
Definition truthy (s : string) : bool :=
  match s with
  | EmptyString => false
  | String _ _ => true
  end.

(** [c.isspace()] for a code point below 128: HT, LF, VT, FF, CR, FS,
    GS, RS, US and the space. *)
Definition isspace (c : ascii) : bool :=
  let n := nat_of_ascii c in
  (Nat.leb 9 n && Nat.leb n 13) || (Nat.leb 28 n && Nat.leb n 32).

(** [c.isspace()] for the code points above: the two bytes that encode
    U+0085 and U+00A0, and the three bytes that encode U+1680,
    U+2000 to U+200A, U+2028, U+2029, U+202F, U+205F and U+3000. *)
Definition isspace2 (a b : ascii) : bool :=
  let x := nat_of_ascii a in
  let y := nat_of_ascii b in
  Nat.eqb x 194 && (Nat.eqb y 133 || Nat.eqb y 160).

Definition isspace3 (a b c : ascii) : bool :=
  let x := nat_of_ascii a in
  let y := nat_of_ascii b in
  let z := nat_of_ascii c in
  (Nat.eqb x 225 && Nat.eqb y 154 && Nat.eqb z 128) ||
  (Nat.eqb x 226 && Nat.eqb y 128 &&
   ((Nat.leb 128 z && Nat.leb z 138) || Nat.eqb z 168 || Nat.eqb z 169 || Nat.eqb z 175)) ||
  (Nat.eqb x 226 && Nat.eqb y 129 && Nat.eqb z 159) ||
  (Nat.eqb x 227 && Nat.eqb y 128 && Nat.eqb z 128).

(** [s.lstrip()]: the leading white space is dropped, one code point
    of one, two or three bytes at a time. *)
Fixpoint lstrip (s : string) : string :=
  match s with
  | EmptyString => EmptyString
  | String a s1 =>
      if isspace a then lstrip s1
      else
        match s1 with
        | EmptyString => s
        | String b s2 =>
            if isspace2 a b then lstrip s2
            else
              match s2 with
              | EmptyString => s
              | String c s3 => if isspace3 a b c then lstrip s3 else s
              end
        end
  end.

(** [s.rstrip()]: the text is cut where nothing but white space
    follows. *)
Fixpoint rstrip (s : string) : string :=
  match s with
  | EmptyString => EmptyString
  | String c s' => if truthy (lstrip s) then String c (rstrip s') else EmptyString
  end.

(** [s.strip()] *)
Definition strip (s : string) : string := lstrip (rstrip s).

(** [s.startswith(p)] *)
Fixpoint startswith (p s : string) : bool :=
  match p, s with
  | EmptyString, _ => true
  | String a p', String b s' => if Ascii.eqb a b then startswith p' s' else false
  | String _ _, EmptyString => false
  end.

(** [needle in hay] *)
Fixpoint contains (needle hay : string) : bool :=
  startswith needle hay ||
  match hay with
  | EmptyString => false
  | String _ hay' => contains needle hay'
  end.

(** [s.endswith(p)] *)
Fixpoint endswith (p s : string) : bool :=
  String.eqb p s ||
  match s with
  | EmptyString => false
  | String _ s' => endswith p s'
  end.

(** [sep.join(parts)] *)
Fixpoint join (sep : string) (parts : list string) : string :=
  match parts with
  | [] => EmptyString
  | [x] => x
  | x :: rest => x +:+ sep +:+ join sep rest
  end.

(** [s.split("\n")]: never empty, the last element is what follows the
    last line feed. *)
Fixpoint split_lines (s : string) : list string :=
  match s with
  | EmptyString => [EmptyString]
  | String c s' =>
      if Ascii.eqb c "010" then EmptyString :: split_lines s'
      else match split_lines s' with
           | [] => [String c EmptyString]
           | l :: ls => String c l :: ls
           end
  end.

(** *** [textwrap.dedent] *)

(** The characters [dedent] counts as indentation: space and tab. *)
Definition is_blank (c : ascii) : bool :=
  Ascii.eqb c " " || Ascii.eqb c "009".

Fixpoint all_blank (s : string) : bool :=
  match s with
  | EmptyString => true
  | String c s' => is_blank c && all_blank s'
  end.

(** Lines made of spaces and tabs only are normalised to the empty line. *)
Definition blank_line (l : string) : string :=
  if all_blank l then EmptyString else l.

(** The leading run of spaces and tabs of a line. *)
Fixpoint indent_of (l : string) : string :=
  match l with
  | EmptyString => EmptyString
  | String c l' => if is_blank c then String c (indent_of l') else EmptyString
  end.

(** Longest common prefix of two indentations. *)
Fixpoint common_prefix (a b : string) : string :=
  match a, b with
  | String x a', String y b' =>
      if Ascii.eqb x y then String x (common_prefix a' b') else EmptyString
  | _, _ => EmptyString
  end.

(** The margin: the longest indentation shared by all lines that are
    not empty after normalisation; empty when there is no such line. *)
Definition margin_of (ls : list string) : string :=
  match map indent_of (List.filter truthy ls) with
  | [] => EmptyString
  | i :: rest => fold_left common_prefix rest i
  end.

Fixpoint drop_chars (n : nat) (s : string) : string :=
  match n, s with
  | O, _ => s
  | S n', String _ s' => drop_chars n' s'
  | S _, EmptyString => EmptyString
  end.

Definition remove_margin (margin l : string) : string :=
  if truthy margin && startswith margin l
  then drop_chars (String.length margin) l else l.

Definition dedent (text : string) : string :=
  let ls := map blank_line (split_lines text) in
  join nl (map (remove_margin (margin_of ls)) ls).

(** [s.lower()] restricted to ASCII letters; used where a concrete
    lower-casing function is needed to evaluate the model. *)
Definition ascii_lower_char (c : ascii) : ascii :=
  let n := nat_of_ascii c in
  if Nat.leb 65 n && Nat.leb n 90 then ascii_of_nat (n + 32) else c.

Fixpoint ascii_lower (s : string) : string :=
  match s with
  | EmptyString => EmptyString
  | String c s' => String (ascii_lower_char c) (ascii_lower s')
  end.

End PyStr.

(** ** [config/settings.py] *)

Module Settings.

(** The closed set [LanguageCode = Literal["es", "qu", "shp"]]. *)
Definition is_language_code (s : string) : bool :=
  String.eqb s "es" || String.eqb s "qu" || String.eqb s "shp".

Record Settings := { default_language : string }.

(** The part of [load_settings] that decides [default_language];
    [env] is the value of [PIRIBOT_DEFAULT_LANGUAGE], if set. *)
Definition load_settings (lower : string -> string) (env : option string) : Settings :=
  let default_language := lower (default "es" env) in
  {| default_language :=
      if is_language_code default_language then default_language else "es" |}.

End Settings.

(** ** [config/settings.py]: start-up from the environment *)

Module Environment.
Import PyStr.

(** The dataclass [Settings] with its three attributes. *)
Record Settings := {
  telegram_bot_token : string;
  gemini_api_key : string;
  default_language : string
}.

(** What start-up comes to: a value, or the [RuntimeError] raised with
    its message. *)
Inductive startup (A : Type) :=
| Ready (value : A)
| RuntimeError (message : string).
Arguments Ready {A} value.
Arguments RuntimeError {A} message.

(** [_read_env_var]: [os.getenv(name)] on the environment [environ]; a
    variable that is not set and one set to the empty string both
    raise. *)
Definition _read_env_var (environ : gmap string string) (name : string) : startup string :=
  match environ !! name with
  | Some value =>
      if negb (truthy value)
      then RuntimeError ("La variable de entorno " +:+ name +:+
                         " es obligatoria pero no está definida.")
      else Ready value
  | None =>
      RuntimeError ("La variable de entorno " +:+ name +:+
                    " es obligatoria pero no está definida.")
  end.

(** [load_settings]: the two required variables in the order in which
    they are read, then the default language. *)
Definition load_settings (lower : string -> string) (environ : gmap string string)
  : startup Settings :=
  match _read_env_var environ "TELEGRAM_BOT_TOKEN" with
  | RuntimeError message => RuntimeError message
  | Ready telegram_bot_token =>
      match _read_env_var environ "GEMINI_API_KEY" with
      | RuntimeError message => RuntimeError message
      | Ready gemini_api_key =>
          let default_language :=
            lower (default "es" (environ !! "PIRIBOT_DEFAULT_LANGUAGE")) in
          let default_language :=
            if Settings.is_language_code default_language then default_language else "es" in
          Ready {| telegram_bot_token := telegram_bot_token;
                   gemini_api_key := gemini_api_key;
                   default_language := default_language |}
      end
  end.

(** The part of the settings the handlers read. *)
Definition handler_settings (s : Settings) : Settings.Settings :=
  {| Settings.default_language := default_language s |}.

End Environment.

(** ** [bot/language.py] *)

Module Language.

(** The dictionary [LANG_LABELS] and its inverse, as lookups. *)
Definition LANG_LABELS (code : string) : option string :=
  if String.eqb code "es" then Some "Español"
  else if String.eqb code "qu" then Some "Quechua"
  else if String.eqb code "shp" then Some "Shipibo-Konibo"
  else None.

Definition LANG_CODES_BY_LABEL (label : string) : option string :=
  if String.eqb label "Español" then Some "es"
  else if String.eqb label "Quechua" then Some "qu"
  else if String.eqb label "Shipibo-Konibo" then Some "shp"
  else None.

Inductive MessageKey :=
| welcome
| choose_language
| language_set
| help
| disclaimer
| short_disclaimer
| urgent_alert_prefix
| urgent_alert_suffix
| fallback_error.

Definition MESSAGES_es (key : MessageKey) : string :=
  match key with
  | welcome =>
"👋 Hola, soy *Piribot*.
Estoy aquí para acompañarte durante tu embarazo con información general y apoyo emocional."
  | choose_language =>
"Por favor, elige el idioma en el que prefieres conversar:"
  | language_set =>
"Perfecto, conversaremos en Español 🇵🇪."
  | help =>
"Puedes escribirme tus dudas o cómo te sientes durante el embarazo y te responderé con información sencilla y acompañamiento emocional.

Ejemplos de preguntas:
- ¿Es normal sentir náuseas en el primer trimestre?
- ¿Qué puedo hacer para dormir mejor?
- Me siento preocupada, ¿puedo contarte cómo me siento?"
  | disclaimer =>
"⚠️ *Importante*
Piribot no reemplaza a una profesional ni a un profesional de salud. Solo brinda información general y acompañamiento emocional. Si tienes una urgencia, dolor muy fuerte, sangrado, fiebre o te sientes muy mal, acude de inmediato al centro de salud u hospital más cercano."
  | short_disclaimer =>
"Piribot no reemplaza a una profesional ni a un profesional de salud; solo brinda información general y acompañamiento emocional."
  | urgent_alert_prefix =>
"Lo que cuentas podría ser una *señal de alarma* durante el embarazo."
  | urgent_alert_suffix =>
"Te recomiendo que acudas *lo antes posible* a un centro de salud u hospital y, si es necesario, llames a los servicios de emergencia de tu zona.

Mientras tanto, trata de no quedarte sola y busca apoyo de alguna persona de confianza."
  | fallback_error =>
"Lo siento, en este momento no puedo responder con normalidad.
Por favor, intenta nuevamente más tarde. Si tienes una urgencia, acude al centro de salud u hospital más cercano."
  end.

Definition MESSAGES_qu (key : MessageKey) : string :=
  match key with
  | welcome =>
"👋 Ñuqaqa *Piribot* kani.
Wawawan wañusqa kachkan hampiyta qhawayta munaykichu, ñuqaqa willayta generalmanta ruwani, mana hamuq doctor nisqaqa kanichu."
  | choose_language =>
"Ama hina, ima simipi rimakuyta munankichu, akllay:"
  | language_set =>
"Allinmi, Quechua simipi rimarisunchis 🇵🇪."
  | help =>
"Embrazomanta tapukuyta atinki, ima hina kasqaykita willakuyta atinki, ñuqaqa kichkakunata y willakuyta aswan simple simipi niyki.

Tapuykunapaq ñawpaq:
- Qallariyniykapi ashnayki normalchu?
- Ima ruwaspa allin puñunayta atini?
- Manam allinwan kachkani, ¿qa riqsichiyta atinki?"
  | disclaimer =>
"⚠️ *Sumaq yuyay*
Piribot mana doctor ni enfermera hina kanchu. General willakuyta sapallan churin, manam diagnósticota churichu. Sut'iykita, sinchilla nanayta, yawarnillayta, q'omer nanayta utaq aswan mana allin kasqaykita tiyanqa, chayqa utaqmi aswan utqaylla hampikamayuq wasiman risqayki."
  | short_disclaimer =>
"Piribot mana doctor ni enfermera hina kanchu; willakuy general sapallan churin."
  | urgent_alert_prefix =>
"Rimakuykita uyarispa, embrazopi *peligro* kayta rikuchikuchkan hina."
  | urgent_alert_suffix =>
"Ama qhipaman churaychu, utqaylla hampikamayuq wasiman rinayki kallpachakuy.

Sichus atinki, familia masiykita utaq muyuq runata maqllay, sapa sapallan kachkuyta ama saqiychu."
  | fallback_error =>
"Pampachaway, kunan pacha manam allin kutichiyta atini.
Aswanta qhipaman wakmanta q'epiyta yachay. Sichus aswan sinchi nanay utaq peligro tiyan, utqaylla hampikamayuq wasiman rinayki."
  end.

Definition MESSAGES_shp (key : MessageKey) : string :=
  match key with
  | welcome =>
"👋 Nete bake, *Piribot* jashiñ.
Jakon jaskaraon betea iki shinanti bake yoson jakon maiti, jaskaraon oraonbo shinanti jaskaraon iikin."
  | choose_language =>
"Jenki, jaskaraon iki non iki jain shinanbo, akën:"
  | language_set =>
"Jakon, Shipibo-Konibo jaisra ikinbo jaskaraon iki 🇵🇪."
  | help =>
"Embarazo shinanbo jaskaraon iki, shinanti maiti ikin, jaskaraon ninkibo non jaskaraon jato jaskatima.

Jaskaraon tapuesba ainban:
- ¿Rari jaskaraon bake embarazobo jawen maiti normal jatonma?
- ¿Ja ainban jaton bake wesna bërëman jaskatima?
- Jaskaraon pena iki, ¿ja ainbobo ninkibo iki?"
  | disclaimer =>
"⚠️ *Jakon jaskaraon*
Piribot mana meraya ni doctor jai, ira jaskaraon willaibo jakon oraonbo ani.
Non jakon shinanti, jatibi jaskaraon wesna, yawar íbo, jaskaraon jato wesnati shinanti, jawen nete centro de salud rabi o hospital rabi jakanai."
  | short_disclaimer =>
"Piribot mana doctor ni meraya jai; jakon información ja ikinbo jai onanya jaskaraon."
  | urgent_alert_prefix =>
"Jaskaraon ninkibo iki bake embarazobo *peligro* shinanti jakon."
  | urgent_alert_suffix =>
"Jawen ja, nete centro de salud rabi o hospital rabi jawe *jaskaraon* jakanai.

Jaskaraon bake saiyanai ikinma, ja atibobo non familia o amigo shinanti jawe jaskatima."
  | fallback_error =>
"Pampachamai, jaskaraon jato nete oraonbo non jaskaraon iki bain.
Jatonra iki jaskaraon wesna, nete centro de salud rabi o hospital rabi jakanai."
  end.

(** [MESSAGES.get(lang)] *)
Definition MESSAGES (lang : string) : option (MessageKey -> string) :=
  if String.eqb lang "es" then Some MESSAGES_es
  else if String.eqb lang "qu" then Some MESSAGES_qu
  else if String.eqb lang "shp" then Some MESSAGES_shp
  else None.

(** [MESSAGES.get(lang) or MESSAGES["es"]], then the key. *)
Definition get_message (lang : string) (key : MessageKey) : string :=
  let data := default MESSAGES_es (MESSAGES lang) in
  data key.

Definition get_disclaimer (lang : string) : string :=
  get_message lang disclaimer.

Definition get_short_disclaimer (lang : string) : string :=
  let data := default MESSAGES_es (MESSAGES lang) in
  data short_disclaimer.

End Language.

(** ** [bot/prompts.py] *)

Module Prompts.
Import PyStr Language.

(** The f-string of [build_system_prompt], before [dedent]. *)
Definition base_template (lang_label : string) : string :=
"
        Eres Piribot, un chatbot de acompañamiento para mujeres embarazadas en Perú.
        Tu tarea es brindar:
        - Información general sobre el embarazo.
        - Acompañamiento emocional y contención.
        - Orientaciones generales sobre autocuidado y cuándo acudir a un servicio de salud.

        Reglas éticas y de seguridad (OBLIGATORIAS):
        1. NUNCA des diagnósticos médicos.
        2. NUNCA indiques tratamientos médicos concretos, dosis de medicamentos ni esquemas de medicación.
        3. NUNCA pidas ni almacenes datos personales (nombre completo, DNI, dirección, teléfono, etc.).
        4. Si la pregunta es muy específica sobre una enfermedad, resultado de examen, medicamento o tratamiento,
           responde de forma general y aclara que la persona debe consultar con una profesional o profesional de salud.
        5. Si la situación podría ser urgente (sangrado, dolor muy fuerte, fiebre, pérdida de líquido, convulsiones,
           no sentir los movimientos del bebé, dificultad para respirar, desmayo, etc.),
           recomienda con claridad acudir de inmediato a un centro de salud u hospital.
        6. Si la persona comparte resultados de exámenes (por texto o imagen), puedes:
           - Explicar de forma general qué tipo de examen es y qué suele medir.
           - Usar los rangos de referencia que aparezcan en el propio resultado para decir si el valor
             está dentro o fuera de ese rango (por ejemplo: “este valor está dentro del rango de referencia
             que muestra tu examen”).
           - NO debes decir que la persona está sana o enferma, ni dar diagnósticos.
           - Siempre aclara que los resultados deben ser revisados por una profesional o un profesional de salud.
        7. Usa siempre un tono respetuoso, cálido, empático, intercultural y no técnico.
        8. Evita tecnicismos. Explica con palabras sencillas, frases cortas y párrafos breves.
        9. Nunca prometas curación ni des garantías de resultados.
        10. Siempre incluye, al final de la respuesta, un recordatorio de que Piribot no reemplaza
           a una profesional ni a un profesional de salud.
        11. Si la pregunta o el contenido de la conversación se alejan del embarazo, la salud materna,
            el bebé o el bienestar emocional relacionado, explica amablemente que tu función es solo
            acompañar en temas de embarazo y que no puedes responder sobre otros temas.

        Reglas de idioma:
        - Responde SIEMPRE en el idioma elegido por la persona: " +:+ lang_label +:+ ".
        - Si el mensaje contiene mezcla de idiomas, prioriza " +:+ lang_label +:+ ", pero puedes incluir
          palabras de apoyo en otro idioma solo si ayudan a la comprensión.

        Uso del historial:
        - Ten en cuenta los mensajes anteriores de la conversación para mantener la coherencia
          (por ejemplo, cómo se siente, qué ya se explicó).
        - No repitas toda la historia en cada respuesta; solo usa lo necesario.

        Formato de respuesta:
        - Usa párrafos cortos.
        - Lenguaje sencillo, cercano y empático.
        - Puedes usar viñetas simples cuando ayuden a organizar la información.
        - No uses respuestas extremadamente largas; prioriza la claridad.
        - Intenta responder en no más de 3 párrafos cortos o su equivalente en viñetas
          (alrededor de 150–200 palabras como máximo).
        - No comiences cada respuesta con saludos como " +:+ dq +:+ "Hola" +:+ dq +:+ " o " +:+ dq +:+ "Buenas tardes" +:+ dq +:+ ".
          Solo es apropiado saludar brevemente al inicio de la conversación si la persona
          también saluda.
        ".

(** The literal of the additional block for a detected warning sign. *)
Definition alert_template : string :=
"

            Contexto adicional:
            - Se ha detectado que el mensaje de la persona puede contener una posible señal de alarma
              durante el embarazo (por ejemplo, sangrado, dolor muy fuerte, fiebre, convulsiones,
              no sentir al bebé, etc.).
            - Refuerza con claridad la recomendación de acudir inmediatamente a un centro de salud u hospital,
              sin generar pánico pero sin minimizar el riesgo.
            ".

Definition build_system_prompt
    (language : string) (alert_hint : bool) (faq_examples : option string) : string :=
  let lang_label := default "Español" (LANG_LABELS language) in
  let base := strip (dedent (base_template lang_label)) in
  let base :=
    match faq_examples with
    | Some faq =>
        if truthy faq
        then base +:+ nl +:+ nl +:+ "Ejemplos de respuestas apropiadas:" +:+ nl +:+ strip faq
        else base
    | None => base
    end in
  let base := if alert_hint then base +:+ strip (dedent alert_template) else base in
  base.

End Prompts.

(** ** Effects of the handlers

    What a handler does besides computing: it calls [reply_text] to send
    a text to the chat, and it calls the generative backend.  Both calls
    are recorded, in order, in a trace; the per-user store is threaded as
    state.  A call of [reply_text] may raise, and so may the composition
    of the prompt: a handler ends normally or with an exception, and what
    it did to the store before the exception stays done. *)

Module Effects.

Inductive markup := no_markup | language_keyboard | keyboard_remove.

(** [SendText] is a call of [reply_text], whether it returns or raises;
    [InvokeBackend] is a call of [generate_content]. *)
Inductive event :=
| SendText (text : string) (reply_markup : markup)
| InvokeBackend (contents : string).

Definition Eff (S A : Type) : Type := S -> A * S * list event.

Definition ret {S A} (a : A) : Eff S A := fun s => (a, s, []).

Definition bind {S A B} (m : Eff S A) (k : A -> Eff S B) : Eff S B :=
  fun s =>
    let '(a, s1, t1) := m s in
    let '(b, s2, t2) := k a s1 in
    (b, s2, t1 ++ t2).

Definition get {S} : Eff S S := fun s => (s, s, []).
Definition put {S} (s' : S) : Eff S unit := fun _ => (tt, s', []).
Definition emit {S} (e : event) : Eff S unit := fun s => (tt, s, [e]).

Definition result_of {S A} (r : A * S * list event) : A := fst (fst r).
Definition state_of {S A} (r : A * S * list event) : S := snd (fst r).
Definition trace_of {S A} (r : A * S * list event) : list event := snd r.

(** The texts sent to the chat and the prompts sent to the backend. *)
Definition sent_texts (t : list event) : list string :=
  flat_map (fun e => match e with SendText x _ => [x] | InvokeBackend _ => [] end) t.
Definition backend_calls (t : list event) : list string :=
  flat_map (fun e => match e with SendText _ _ => [] | InvokeBackend c => [c] end) t.

(** How a computation that may raise ends. *)
Inductive outcome (A : Type) :=
| Normal (value : A)
| Exception.
Arguments Normal {A} value.
Arguments Exception {A}.

(** A handler: it ends normally or with an exception, in a new state,
    having made the calls of the trace. *)
Definition Handler (S A : Type) : Type := S -> outcome A * S * list event.

(** A computation that cannot raise, and one that only raises. *)
Definition normally {S A} (m : Eff S A) : Handler S A :=
  fun s => let '(a, s1, t1) := m s in (Normal a, s1, t1).
Definition raise {S A} : Handler S A := fun s => (Exception, s, []).

(** A part of a handler.  Its first argument is the number of calls of
    [reply_text] the handler has made before it: the call that comes
    next is the one the message is asked about. *)
Definition Exc (S A : Type) : Type := nat -> Handler S A.

Definition exc_ret {S A} (a : A) : Exc S A := fun _ s => (Normal a, s, []).

(** An exception ends the computation: what follows is not run. *)
Definition exc_bind {S A B} (m : Exc S A) (k : A -> Exc S B) : Exc S B :=
  fun n s =>
    let '(a, s1, t1) := m n s in
    match a with
    | Normal a =>
        let '(b, s2, t2) := k a (n + length (sent_texts t1)) s1 in
        (b, s2, t1 ++ t2)
    | Exception => (Exception, s1, t1)
    end.

(** A computation that cannot raise, as a part of a handler. *)
Definition total {S A} (m : Eff S A) : Exc S A := fun _ => normally m.

(** A computation that makes no call of [reply_text]. *)
Definition silent {S A} (m : Handler S A) : Exc S A := fun _ => m.

(** [try: body except Exception: handler] *)
Definition try_except {S A} (body handler : Exc S A) : Exc S A :=
  fun n s =>
    let '(a, s1, t1) := body n s in
    match a with
    | Normal a => (Normal a, s1, t1)
    | Exception =>
        let '(b, s2, t2) := handler (n + length (sent_texts t1)) s1 in
        (b, s2, t1 ++ t2)
    end.

(** A handler starts with no call made. *)
Definition run_handler {S A} (m : Exc S A) : Handler S A := m 0.

(** What reading one of the JSON files of [data/] at import comes to:
    the path does not exist, opening or parsing it raises, or the parsed
    table is there. *)
Inductive file_read (A : Type) :=
| Missing
| Unreadable
| Parsed (data : A).
Arguments Missing {A}.
Arguments Unreadable {A}.
Arguments Parsed {A} data.

Declare Scope eff_scope.
Delimit Scope eff_scope with eff.
Notation "x <- c1 ;; c2" := (bind c1 (fun x => c2))
  (at level 20, c1 at level 99, c2 at level 200, right associativity) : eff_scope.
Notation "c1 ;; c2" := (bind c1 (fun _ => c2))
  (at level 100, c2 at level 200, right associativity) : eff_scope.

Declare Scope exc_scope.
Delimit Scope exc_scope with exc.
Notation "x <- c1 ;; c2" := (exc_bind c1 (fun x => c2))
  (at level 20, c1 at level 99, c2 at level 200, right associativity) : exc_scope.
Notation "c1 ;; c2" := (exc_bind c1 (fun _ => c2))
  (at level 100, c2 at level 200, right associativity) : exc_scope.

End Effects.

(** ** [bot/gemini_client.py] *)

Module GeminiClient.
Import PyStr Language Prompts Effects.
Local Open Scope eff_scope.

(** A value of a JSON file where the code expects a string: a string,
    or anything else ([null], a number, a list, an object). *)
Inductive json_text :=
| Text (s : string)
| NotText.

(** [v.strip()]: only a string has the method; on any other value the
    call raises [AttributeError]. *)
Definition strip_of (v : json_text) : outcome string :=
  match v with
  | Text s => Normal (strip s)
  | NotText => Exception
  end.

(** An entry of [faq.json]: the keys read with [item.get(_, "")];
    [None] is a key that is absent. *)
Record faq_item := {
  item_question : option json_text;
  item_answer : option json_text
}.

(** A turn of the history: the keys [role] and [text]. *)
Record turn := { turn_role : option string; turn_text : option string }.

(** What [_client.models.generate_content] does: it raises, or returns
    a response whose [text] attribute may be missing or [None]. *)
Inductive backend_result :=
| Raised
| Returned (response_text : option string).

(** The preamble of the answer given when the call fails. *)
Definition fallback : string :=
"En este momento tengo dificultades técnicas para responder con normalidad. Aun así, quiero recordarte que tu salud es muy importante.

".

(** Truthiness of a [list]: the empty list is falsy. *)
Definition list_truthy {A} (l : list A) : bool :=
  match l with
  | [] => false
  | _ :: _ => true
  end.

(** [history[-n:]] *)
Definition last_n {A} (n : nat) (l : list A) : list A := drop (length l - n) l.

(** The loop over [history[-6:]]: turns without text are skipped. *)
Fixpoint history_lines_of (turns : list turn) : list string :=
  match turns with
  | [] => []
  | turn :: rest =>
      let role := default "user" (turn_role turn) in
      let text := strip (default "" (turn_text turn)) in
      if truthy text
      then
        let speaker := if String.eqb role "user" then "Person" else "Piribot" in
        (speaker +:+ ": " +:+ text) :: history_lines_of rest
      else history_lines_of rest
  end.

(** The two f-strings of [generate_response], before [dedent]. *)
Definition contents_template_history
    (system_prompt history_block language user_message : string) : string :=
"
            " +:+ system_prompt +:+ "

            Historial breve de la conversación:
            " +:+ history_block +:+ "

            Mensaje actual de la persona embarazada (idioma: " +:+ language +:+ "):

            " +:+ user_message +:+ "
            ".

Definition contents_template_plain
    (system_prompt language user_message : string) : string :=
"
            " +:+ system_prompt +:+ "

            Mensaje de la persona embarazada (idioma: " +:+ language +:+ "):

            " +:+ user_message +:+ "
            ".

(** The body of the [try] block after the call; [None] stands for the
    exception raised on an empty answer. *)
Definition post_process (language : string) (response_text : option string) : option string :=
  let text := strip (default "" response_text) in
  if negb (truthy text) then None
  else
    let short_disclaimer := get_short_disclaimer language in
    if negb (contains short_disclaimer text)
    then Some (text +:+ nl +:+ nl +:+ short_disclaimer)
    else Some text.

(** The part of [generate_response] between the system prompt and the
    call: the history block and the final text. *)
Definition contents_of
    (system_prompt user_message language : string) (history : list turn) : string :=
  let history_lines := history_lines_of (last_n 6 history) in
  let history_block := join nl history_lines in
  if truthy history_block
  then strip (dedent (contents_template_history system_prompt history_block language user_message))
  else strip (dedent (contents_template_plain system_prompt language user_message)).

(** [_load_faq_examples]: without a readable [faq.json] the table is
    empty. *)
Definition _load_faq_examples (file : file_read (gmap string (list faq_item)))
  : gmap string (list faq_item) :=
  match file with
  | Missing => ∅
  | Unreadable => ∅
  | Parsed data => data
  end.

Section WithFaq.
Variable _FAQ_DATA : gmap string (list faq_item).

(** The loop over [lang_data[:3]]: it raises at the first entry whose
    question or answer is not a string. *)
Fixpoint faq_examples_of (items : list faq_item) : outcome (list string) :=
  match items with
  | [] => Normal []
  | item :: rest =>
      match strip_of (default (Text "") (item_question item)) with
      | Exception => Exception
      | Normal q =>
          match strip_of (default (Text "") (item_answer item)) with
          | Exception => Exception
          | Normal a =>
              match faq_examples_of rest with
              | Exception => Exception
              | Normal examples =>
                  if negb (truthy q) || negb (truthy a) then Normal examples
                  else Normal (("- Pregunta: " +:+ q +:+ nl +:+ "  Respuesta: " +:+ a)
                               :: examples)
              end
          end
      end
  end.

(** [_FAQ_DATA.get(language) or _FAQ_DATA.get("es")] *)
Definition faq_lang_data (language : string) : option (list faq_item) :=
  match _FAQ_DATA !! language with
  | Some l => if list_truthy l then Some l else _FAQ_DATA !! "es"
  | None => _FAQ_DATA !! "es"
  end.

(** [_build_faq_text]: no data, or no example left, gives [None]. *)
Definition _build_faq_text (language : string) : outcome (option string) :=
  match faq_lang_data language with
  | None => Normal None
  | Some lang_data =>
      if negb (list_truthy lang_data) then Normal None
      else
        match faq_examples_of (take 3 lang_data) with
        | Exception => Exception
        | Normal examples =>
            if negb (list_truthy examples) then Normal None
            else Normal (Some (join nl examples))
        end
  end.

(** The text handed to the backend: what [generate_response] does
    before its [try]. *)
Definition compose_contents
    (user_message language : string) (alert_hint : bool) (history : list turn)
  : outcome string :=
  match _build_faq_text language with
  | Exception => Exception
  | Normal faq_text =>
      let system_prompt := build_system_prompt language alert_hint faq_text in
      Normal (contents_of system_prompt user_message language history)
  end.

(** [generate_response].  What is raised while the prompt is composed
    is raised to the caller.  After that the call is recorded, then comes
    the [try] block: what the call raises and the exception raised on an
    empty answer both end in the [except] branch, which returns the
    fallback text; the call is not repeated. *)
Definition generate_response {S}
    (backend : string -> backend_result)
    (user_message language : string) (alert_hint : bool) (history : list turn)
  : Handler S string :=
  match compose_contents user_message language alert_hint history with
  | Exception => raise
  | Normal contents =>
      normally
        (emit (InvokeBackend contents) ;;
         match backend contents with
         | Returned response_text =>
             match post_process language response_text with
             | Some text => ret text
             | None => ret (fallback +:+ get_disclaimer language)
             end
         | Raised => ret (fallback +:+ get_disclaimer language)
         end)
  end.

End WithFaq.

End GeminiClient.

(** ** [bot/telegram_bot.py] *)

Module TelegramBot.
Import PyStr Settings Language Effects GeminiClient.
Local Open Scope eff_scope.

(** An entry of [alerts.json].  The code reads the keys [keywords] and
    [message]; [cfg_other_keys] tells whether the object has further
    keys, which only matters for its truthiness. *)
Record alert_entry := {
  cfg_keywords : option (list string);
  cfg_message : option string;
  cfg_other_keys : bool
}.

(** [key in d] for an optional key. *)
Definition has_key {A} (o : option A) : bool :=
  match o with
  | Some _ => true
  | None => false
  end.

(** Truthiness of a [dict]: it has at least one key. *)
Definition entry_truthy (e : alert_entry) : bool :=
  has_key (cfg_keywords e) || has_key (cfg_message e) || cfg_other_keys e.

(** [context.user_data]: the three keys the handlers use. *)
Record user_data := {
  ud_language : option string;
  ud_history : option (list turn);
  ud_alert_shown : option bool
}.

(** The store of a user the bot has not met yet. *)
Definition fresh_user_data : user_data :=
  {| ud_language := None; ud_history := None; ud_alert_shown := None |}.

(** [context.user_data.get("alert_shown", False)] *)
Definition alert_already_shown (ud : user_data) : bool :=
  default false (ud_alert_shown ud).

(** [context.user_data.get("history") or []] *)
Definition stored_history (ud : user_data) : list turn :=
  default [] (ud_history ud).

(** [update.message]: the attributes [handle_text_message] reads, and
    its method [reply_text]: [msg_replies n] tells whether the call
    number [n] of [reply_text] on this message, counted from 0, returns
    ([true]) or raises ([false]). *)
Record Message := {
  msg_text : option string;
  msg_caption : option string;
  msg_photo : bool;
  msg_replies : nat -> bool
}.

(** An update: [update.message] may be [None]. *)
Record Update := { upd_message : option Message }.

(** [a or b] where [a] is an optional [str]. *)
Definition or_str (a : option string) (b : string) : string :=
  match a with
  | Some s => if truthy s then s else b
  | None => b
  end.

(** The text that stands for a photo without caption. *)
Definition photo_text : string :=
"He enviado una imagen relacionada con un examen o evaluación médica durante el embarazo. Quisiera una orientación general, sin diagnóstico.".

(** [update.message.reply_text(text, reply_markup=...)]: the call is
    recorded, and it returns or raises as the message says; on an
    update without message the attribute access raises. *)
Definition reply_text (update : Update) (text : string) (reply_markup : markup)
  : Exc user_data unit :=
  fun n ud =>
    (match upd_message update with
     | Some message => if msg_replies message n then Normal tt else Exception
     | None => Exception
     end,
     ud, [SendText text reply_markup]).

(** [ReplyKeyboardMarkup]: rows of buttons and the two options set. *)
Record ReplyKeyboardMarkup := {
  keyboard : list (list string);
  resize_keyboard : bool;
  one_time_keyboard : bool
}.

(** [_build_language_keyboard], the markup [language_keyboard] stands
    for: one button per row; [None] stands for the [KeyError] of a
    subscript of [LANG_LABELS]. *)
Definition _build_language_keyboard : option ReplyKeyboardMarkup :=
  match LANG_LABELS "es", LANG_LABELS "qu", LANG_LABELS "shp" with
  | Some es, Some qu, Some shp =>
      let labels := [es; qu; shp] in
      Some {| keyboard := map (fun label => [label]) labels;
              resize_keyboard := true;
              one_time_keyboard := true |}
  | _, _, _ => None
  end.

(** [_load_alerts_config]: without a readable [alerts.json] the table
    is empty. *)
Definition _load_alerts_config (file : file_read (gmap string alert_entry))
  : gmap string alert_entry :=
  match file with
  | Missing => ∅
  | Unreadable => ∅
  | Parsed data => data
  end.

(** What the application routes to the handlers: the three commands,
    and texts and photos, which come with what the backend would answer
    to the prompt of that update. *)
Inductive incoming :=
| Command_start (update : Update)
| Command_help (update : Update)
| Command_language (update : Update)
| Text_or_photo (update : Update) (backend : string -> backend_result).

Section WithConfig.
Variable lower : string -> string.
Variable settings : Settings.
Variable _ALERTS_CONFIG : gmap string alert_entry.
Variable _FAQ_DATA : gmap string (list faq_item).

(** The loop over [keywords]: it returns at the first match. *)
Fixpoint first_match (text_lower : string) (keywords : list string) : bool :=
  match keywords with
  | [] => false
  | kw :: rest =>
      if contains (lower kw) text_lower then true
      else first_match text_lower rest
  end.

(** [_ALERTS_CONFIG.get(language) or _ALERTS_CONFIG.get("es")] *)
Definition alerts_lang_cfg (language : string) : option alert_entry :=
  match _ALERTS_CONFIG !! language with
  | Some e => if entry_truthy e then Some e else _ALERTS_CONFIG !! "es"
  | None => _ALERTS_CONFIG !! "es"
  end.

(** [_detect_alert_message] *)
Definition _detect_alert_message (text language : string) : option string :=
  if bool_decide (_ALERTS_CONFIG = ∅) then None
  else
    match alerts_lang_cfg language with
    | None => None
    | Some lang_cfg =>
        if negb (entry_truthy lang_cfg) then None
        else
          let keywords := default [] (cfg_keywords lang_cfg) in
          let alert_message := default "" (cfg_message lang_cfg) in
          let text_lower := lower text in
          if first_match text_lower keywords then Some alert_message else None
    end.

(** [_get_user_language] and [_set_user_language] *)
Definition _get_user_language : Eff user_data string :=
  ud <- get ;;
  match ud_language ud with
  | Some lang => if is_language_code lang then ret lang else ret (default_language settings)
  | None => ret (default_language settings)
  end.

Definition _set_user_language (lang : string) : Eff user_data unit :=
  ud <- get ;;
  put {| ud_language := Some lang;
         ud_history := ud_history ud;
         ud_alert_shown := ud_alert_shown ud |}.

(** [context.user_data["alert_shown"] = True] *)
Definition set_alert_shown : Eff user_data unit :=
  ud <- get ;;
  put {| ud_language := ud_language ud;
         ud_history := ud_history ud;
         ud_alert_shown := Some true |}.

(** [context.user_data["history"] = history] *)
Definition set_history (history : list turn) : Eff user_data unit :=
  ud <- get ;;
  put {| ud_language := ud_language ud;
         ud_history := Some history;
         ud_alert_shown := ud_alert_shown ud |}.

(** The command handlers [start], [help_command] and
    [language_command]. *)
Definition start (update : Update) : Handler user_data unit :=
  run_handler
    (total (_set_user_language (default_language settings)) ;;
     lang <- total _get_user_language ;;
     let welcome := get_message lang welcome in
     let choose_lang := get_message lang choose_language in
     let disclaimer := get_disclaimer lang in
     match upd_message update with
     | Some _ =>
         reply_text update welcome language_keyboard ;;
         reply_text update choose_lang language_keyboard ;;
         reply_text update disclaimer language_keyboard
     | None => exc_ret tt
     end)%exc.

Definition help_command (update : Update) : Handler user_data unit :=
  run_handler
    (lang <- total _get_user_language ;;
     let text := get_message lang help in
     match upd_message update with
     | Some _ => reply_text update text no_markup
     | None => exc_ret tt
     end)%exc.

Definition language_command (update : Update) : Handler user_data unit :=
  run_handler
    (lang <- total _get_user_language ;;
     let choose_lang := get_message lang choose_language in
     match upd_message update with
     | Some _ => reply_text update choose_lang language_keyboard
     | None => exc_ret tt
     end)%exc.

(** The text the handler works on: [None] when the update is dropped. *)
Definition user_text_of (update : Update) : option string :=
  match upd_message update with
  | None => None
  | Some message =>
      let user_text := strip (or_str (msg_text message) (or_str (msg_caption message) "")) in
      let user_text :=
        if negb (truthy user_text) && msg_photo message then photo_text else user_text in
      if negb (truthy user_text) then None else Some user_text
  end.

(** [handle_text_message].  The warning is sent, and the flag set,
    before the [try]; the [try] block holds the call of
    [generate_response], the update of the history and the sending of
    the reply, in this order; its [except] branch sends the
    [fallback_error] text of the language. *)
Definition handle_text_message
    (backend : string -> backend_result) (update : Update) : Handler user_data unit :=
  run_handler
    match user_text_of update with
    | None => exc_ret tt
    | Some user_text =>
        match LANG_CODES_BY_LABEL user_text with
        | Some lang =>
            (total (_set_user_language lang) ;;
             let confirm := get_message lang language_set in
             reply_text update confirm keyboard_remove)%exc
        | None =>
            (lang <- total _get_user_language ;;
             ud <- total get ;;
             let history := stored_history ud in
             let alert_message := _detect_alert_message user_text lang in
             let alert_already_shown := alert_already_shown ud in
             alert_hint <-
               match alert_message with
               | Some alert_text =>
                   if truthy alert_text && negb alert_already_shown
                   then
                     reply_text update alert_text no_markup ;;
                     total set_alert_shown ;;
                     exc_ret true
                   else exc_ret false
               | None => exc_ret false
               end ;;
             try_except
               (reply <- silent (generate_response _FAQ_DATA backend user_text lang
                                   alert_hint history) ;;
                let history :=
                  history ++ [ {| turn_role := Some "user"; turn_text := Some user_text |};
                               {| turn_role := Some "assistant"; turn_text := Some reply |} ] in
                total (set_history (last_n 10 history)) ;;
                reply_text update reply no_markup)
               (let fallback := get_message lang fallback_error in
                reply_text update fallback no_markup))%exc
        end
    end.

(** The routing of [create_application]. *)
Definition dispatch (i : incoming) : Handler user_data unit :=
  match i with
  | Command_start u => start u
  | Command_help u => help_command u
  | Command_language u => language_command u
  | Text_or_photo u backend => handle_text_message backend u
  end.

(** What the application does with a handler that raises: the
    exception is logged and the next update is processed. *)
Definition logged (m : Handler user_data unit) : Eff user_data unit :=
  fun ud => let '(_, ud1, t1) := m ud in (tt, ud1, t1).

(** Updates are processed one at a time ([concurrent_updates(False)]). *)
Fixpoint run (updates : list incoming) : Eff user_data unit :=
  match updates with
  | [] => ret tt
  | i :: rest => logged (dispatch i) ;; run rest
  end.

End WithConfig.

End TelegramBot.

(** ** Notions used to state the properties *)

Module Observations.
Import PyStr Settings Language Prompts Effects GeminiClient TelegramBot.

(** The language [_get_user_language] resolves for a store. *)
Definition session_language (settings : Settings) (ud : user_data) : string :=
  result_of (_get_user_language settings ud).

(** The one-turn risk flag of a chat message: a warning was detected,
    it is not empty, and none was shown before. *)
Definition risk_flag (lower : string -> string) (settings : Settings)
    (alerts : gmap string alert_entry) (user_text : string) (ud : user_data) : bool :=
  match _detect_alert_message lower alerts user_text (session_language settings ud) with
  | Some alert_text => truthy alert_text && negb (alert_already_shown ud)
  | None => false
  end.

(** The answer of [generate_response] to a backend result. *)
Definition reply_of (language : string) (r : backend_result) : string :=
  match r with
  | Returned response_text =>
      match post_process language response_text with
      | Some text => text
      | None => fallback +:+ get_disclaimer language
      end
  | Raised => fallback +:+ get_disclaimer language
  end.

(** The call failed: it raised, or its text is missing or empty once
    stripped. *)
Definition backend_failed (r : backend_result) : bool :=
  match r with
  | Raised => true
  | Returned response_text => negb (truthy (strip (default "" response_text)))
  end.

Definition user_turn (user_text : string) : turn :=
  {| turn_role := Some "user"; turn_text := Some user_text |}.

Definition assistant_turn (reply : string) : turn :=
  {| turn_role := Some "assistant"; turn_text := Some reply |}.

(** A plain text update on which every call of [reply_text] returns. *)
Definition text_update (s : string) : Update :=
  {| upd_message := Some {| msg_text := Some s; msg_caption := None; msg_photo := false;
                            msg_replies := fun _ => true |} |}.

(** Whether call number [n] of [reply_text] on the update returns. *)
Definition replies_ok (update : Update) (n : nat) : bool :=
  match upd_message update with
  | Some message => msg_replies message n
  | None => false
  end.

(** The calls of [reply_text] a handler makes when it means to send
    the given texts in turn: the first call that raises is its last. *)
Fixpoint until_raise (update : Update) (n : nat) (calls : list event) : list event :=
  match calls with
  | [] => []
  | call :: rest =>
      call :: (if replies_ok update n then until_raise update (S n) rest else [])
  end.

(** Whether [count] calls of [reply_text] in a row, from call number
    [n] on, all return. *)
Fixpoint all_return (update : Update) (n count : nat) : bool :=
  match count with
  | O => true
  | S k => replies_ok update n && all_return update (S n) k
  end.

(** The texts that reached the chat: those of the calls of
    [reply_text] that returned, the first call of the handler being call
    number [n]. *)
Fixpoint delivered_from (update : Update) (n : nat) (trace : list event) : list string :=
  match trace with
  | [] => []
  | SendText text _ :: rest =>
      (if replies_ok update n then [text] else []) ++ delivered_from update (S n) rest
  | InvokeBackend _ :: rest => delivered_from update n rest
  end.

Definition delivered (update : Update) (trace : list event) : list string :=
  delivered_from update 0 trace.

(** The text a step sent right after it called the backend: the reply
    it got from [generate_response]. *)
Fixpoint answer_of (trace : list event) : option string :=
  match trace with
  | InvokeBackend _ :: SendText reply _ :: _ => Some reply
  | _ :: rest => answer_of rest
  | [] => None
  end.

(** The turns a step adds to the conversation, read off what it did: a
    step that called the backend adds the user text and the text it
    sent right after the call. *)
Definition appended_turns (i : incoming) (trace : list event) : list turn :=
  match i with
  | Text_or_photo update _ =>
      match user_text_of update, answer_of trace with
      | Some user_text, Some reply => [user_turn user_text; assistant_turn reply]
      | _, _ => []
      end
  | _ => []
  end.

(** Every turn added while a list of updates is processed, oldest first. *)
Fixpoint conversation (lower : string -> string) (settings : Settings)
    (alerts : gmap string alert_entry) (faq : gmap string (list faq_item))
    (updates : list incoming) (ud : user_data) : list turn :=
  match updates with
  | [] => []
  | i :: rest =>
      let r := dispatch lower settings alerts faq i ud in
      appended_turns i (trace_of r) ++ conversation lower settings alerts faq rest (state_of r)
  end.

(** The keyword list and the warning message of an entry. *)
Definition keywords_of (e : alert_entry) : list string := default [] (cfg_keywords e).
Definition message_of (e : alert_entry) : string := default "" (cfg_message e).

(** An entry that is the empty object: it has no key at all. *)
Definition empty_entry (e : alert_entry) : Prop :=
  cfg_keywords e = None /\ cfg_message e = None /\ cfg_other_keys e = false.

(** The entry that speaks for a language: its own entry when the table
    has one that is not the empty object, otherwise the entry of
    Spanish, if that is not the empty object. *)
Definition speaks_for (alerts : gmap string alert_entry)
    (language : string) (e : alert_entry) : Prop :=
  ~ empty_entry e /\
  (alerts !! language = Some e \/
   (alerts !! "es" = Some e /\
    forall e', alerts !! language = Some e' -> empty_entry e')).

(** [kw] occurs in [text] when case is ignored. *)
Definition case_insensitive_substring (lower : string -> string) (kw text : string) : Prop :=
  exists a b, lower text = a +:+ lower kw +:+ b.

(** The number of positions of [hay] at which [needle] occurs. *)
Fixpoint occurrences (needle hay : string) : nat :=
  (if startswith needle hay then 1 else 0) +
  match hay with
  | EmptyString => 0
  | String _ hay' => occurrences needle hay'
  end.

(** [c in s] for a character. *)
Fixpoint has_char (c : ascii) (s : string) : bool :=
  match s with
  | EmptyString => false
  | String x s' => Ascii.eqb x c || has_char c s'
  end.

(** The text of a field of an entry, stripped: empty when the key is
    absent or its value is not a string. *)
Definition field_text (v : option json_text) : string :=
  match v with
  | Some (Text s) => strip s
  | _ => ""
  end.

(** The fields of an entry are strings where they are present. *)
Definition string_fields (item : faq_item) : bool :=
  match item_question item, item_answer item with
  | Some NotText, _ => false
  | _, Some NotText => false
  | _, _ => true
  end.

(** A question and answer pair is well formed when neither is empty
    once stripped. *)
Definition well_formed (item : faq_item) : bool :=
  truthy (field_text (item_question item)) && truthy (field_text (item_answer item)).

Definition render_example (item : faq_item) : string :=
  "- Pregunta: " +:+ field_text (item_question item) +:+ nl +:+
  "  Respuesta: " +:+ field_text (item_answer item).

(** The table of a language: its own list when it has entries, else the
    list of Spanish. *)
Definition faq_table (faq : gmap string (list faq_item)) (language : string) : list faq_item :=
  match faq !! language with
  | Some l => if list_truthy l then l else default [] (faq !! "es")
  | None => default [] (faq !! "es")
  end.

(** The example block made of a list of pairs; none for the empty list. *)
Definition example_block (items : list faq_item) : option string :=
  match items with
  | [] => None
  | _ => Some (join nl (map render_example items))
  end.

(** The pairs the code uses: the well-formed ones among the first three
    entries. *)
Definition examples_used (items : list faq_item) : list faq_item :=
  List.filter well_formed (take 3 items).

(** The pairs in the words of the specification: the first three
    well-formed entries. *)
Definition first_three_well_formed (items : list faq_item) : list faq_item :=
  take 3 (List.filter well_formed items).

(** What [dedent] does to a text whose margin is empty: lines of spaces
    and tabs are emptied, nothing else changes. *)
Definition blank_ws_lines (s : string) : string :=
  join nl (map blank_line (split_lines s)).

(** A text the normalisation of [dedent] leaves alone when it follows an
    indentation on its line: its first line has a character that is not a
    space or a tab, and no later line is made of spaces and tabs only. *)
Definition tidy (s : string) : bool :=
  match split_lines s with
  | [] => false
  | first :: others =>
      negb (all_blank first) &&
      forallb (fun l => negb (truthy l) || negb (all_blank l)) others
  end.

(** A turn with text, and the line it is rendered as. *)
Definition has_text (t : turn) : bool :=
  truthy (strip (default "" (turn_text t))).

Definition render_turn (t : turn) : string :=
  (if String.eqb (default "user" (turn_role t)) "user" then "Person" else "Piribot")
  +:+ ": " +:+ strip (default "" (turn_text t)).

(** The end of the prompt when there are history lines: the header, the
    lines, and the labelled message. *)
Definition history_and_message (language : string) (lines : list string) (user_message : string)
  : string :=
"            Historial breve de la conversación:
            " +:+ join nl lines +:+ "

            Mensaje actual de la persona embarazada (idioma: " +:+ language +:+ "):

            " +:+ user_message.

(** The end of the prompt when there are none. *)
Definition message_only (language user_message : string) : string :=
"            Mensaje de la persona embarazada (idioma: " +:+ language +:+ "):

            " +:+ user_message.

(** The start of the prompt: the system prompt as the final [dedent] and
    [strip] leave it. *)
Definition prompt_start (system_prompt : string) : string :=
  lstrip (blank_ws_lines ("
            " +:+ system_prompt)).

(** The first two lines of every system prompt. *)
Definition prompt_first_line : string :=
  "Eres Piribot, un chatbot de acompañamiento para mujeres embarazadas en Perú.".
Definition prompt_second_line : string := "Tu tarea es brindar:".

(** The end of the prompt for a list of history lines and a message. *)
Definition prompt_end (language : string) (lines : list string) (user_message : string)
  : string :=
  if list_truthy lines
  then history_and_message language lines user_message
  else message_only language user_message.

(** The number of bytes of the white space code point a text starts
    with: none when it starts with something else. *)
Definition space_width (s : string) : nat :=
  match s with
  | EmptyString => 0
  | String a s1 =>
      if isspace a then 1
      else
        match s1 with
        | EmptyString => 0
        | String b s2 =>
            if isspace2 a b then 2
            else
              match s2 with
              | EmptyString => 0
              | String c _ => if isspace3 a b c then 3 else 0
              end
        end
  end.

(** A byte that continues a code point in UTF-8. *)
Definition continuation (c : ascii) : bool :=
  Nat.leb 128 (nat_of_ascii c) && Nat.leb (nat_of_ascii c) 191.

(** The text is empty or starts at a code point, not inside one. *)
Definition starts_code_point (s : string) : bool :=
  match s with
  | EmptyString => true
  | String c _ => negb (continuation c)
  end.

(** The text is empty or ends with a code point of one byte. *)
Fixpoint ends_ascii (s : string) : bool :=
  match s with
  | EmptyString => true
  | String c EmptyString => Nat.ltb (nat_of_ascii c) 128
  | String _ s' => ends_ascii s'
  end.

(** A history made of exchanges: a user turn followed by an assistant
    turn, again and again. *)
Fixpoint in_pairs (turns : list turn) : bool :=
  match turns with
  | [] => true
  | u :: a :: rest =>
      bool_decide (turn_role u = Some "user") &&
      bool_decide (turn_role a = Some "assistant") &&
      in_pairs rest
  | [_] => false
  end.

(** A step warned when it sent a text of its own before calling the
    backend. *)
Definition warned (trace : list event) : bool :=
  match trace with
  | SendText _ _ :: InvokeBackend _ :: _ => true
  | _ => false
  end.

(** The number of steps of a run that warned. *)
Fixpoint warnings (lower : string -> string) (settings : Settings)
    (alerts : gmap string alert_entry) (faq : gmap string (list faq_item))
    (updates : list incoming) (ud : user_data) : nat :=
  match updates with
  | [] => 0
  | i :: rest =>
      let r := dispatch lower settings alerts faq i ud in
      (if warned (trace_of r) then 1 else 0) +
      warnings lower settings alerts faq rest (state_of r)
  end.

(** The rule of the system prompt that fixes the answer language. *)
Definition language_rule (lang_label : string) : string :=
  "- Responde SIEMPRE en el idioma elegido por la persona: " +:+ lang_label +:+ ".".

End Observations.

(** ** Sample configurations and inputs *)

Module Samples.
Import PyStr Settings Language Effects GeminiClient TelegramBot Observations.

Definition spanish_default : Settings := {| default_language := "es" |}.

(** An alert table with Spanish keywords and a warning message. *)
Definition fever_alerts : gmap string alert_entry :=
  {[ "es" := {| cfg_keywords := Some ["fiebre"; "sangrado"];
                cfg_message := Some "Acude a un centro de salud.";
                cfg_other_keys := false |} ]}.

(** The same keywords with an empty warning message. *)
Definition silent_alerts : gmap string alert_entry :=
  {[ "es" := {| cfg_keywords := Some ["fiebre"; "sangrado"];
                cfg_message := Some "";
                cfg_other_keys := false |} ]}.

Definition pair (q a : string) : faq_item :=
  {| item_question := Some (Text q); item_answer := Some (Text a) |}.

(** A table whose first entry has no question, followed by three
    well-formed pairs. *)
Definition faq_with_gap : gmap string (list faq_item) :=
  {[ "es" := [pair "" "sin pregunta"; pair "q1" "a1"; pair "q2" "a2"; pair "q3" "a3"] ]}.

Definition faq_one : gmap string (list faq_item) :=
  {[ "es" := [pair "q1" "a1"] ]}.

Definition faq_one_and_empty : gmap string (list faq_item) :=
  {[ "es" := [pair "q1" "a1"]; "qu" := [] ]}.

(** Backends: one that answers, one that raises, one that answers with
    white space only. *)
Definition answering (answer : string) : string -> backend_result :=
  fun _ => Returned (Some answer).
Definition raising : string -> backend_result := fun _ => Raised.
Definition blank_answer : string -> backend_result := fun _ => Returned (Some "  ").

(** Six chat messages. *)
Definition six_messages : list incoming :=
  map (fun s => Text_or_photo (text_update s) (answering "Bien."))
    ["uno"; "dos"; "tres"; "cuatro"; "cinco"; "seis"].

(** An environment with both credentials and an upper-case language. *)
Definition sample_environ : gmap string string :=
  {[ "TELEGRAM_BOT_TOKEN" := "123:abc";
     "GEMINI_API_KEY" := "key";
     "PIRIBOT_DEFAULT_LANGUAGE" := "QU" ]}.

(** The Spanish keywords, and an entry for Quechua that has a message
    but no keywords. *)
Definition no_keyword_alerts : gmap string alert_entry :=
  {[ "es" := {| cfg_keywords := Some ["fiebre"; "sangrado"];
                cfg_message := Some "Acude a un centro de salud.";
                cfg_other_keys := false |};
     "qu" := {| cfg_keywords := None;
                cfg_message := Some "Hampina wasiman riy.";
                cfg_other_keys := false |} ]}.

(** An entry with an empty keyword. *)
Definition catch_all_alerts : gmap string alert_entry :=
  {[ "es" := {| cfg_keywords := Some ["sangrado"; ""];
                cfg_message := Some "Acude a un centro de salud.";
                cfg_other_keys := false |} ]}.

(** The keywords of [fever_alerts] in another order, one of them twice. *)
Definition fever_alerts_reordered : gmap string alert_entry :=
  {[ "es" := {| cfg_keywords := Some ["sangrado"; "fiebre"; "sangrado"];
                cfg_message := Some "Acude a un centro de salud.";
                cfg_other_keys := true |} ]}.

(** A photo without text or caption. *)
Definition photo_update : Update :=
  {| upd_message := Some {| msg_text := None; msg_caption := None; msg_photo := true;
                            msg_replies := fun _ => true |} |}.

(** Three exchanges, and an older one. *)
Definition three_exchanges : list turn :=
  [user_turn "a"; assistant_turn "b"; user_turn "c"; assistant_turn "d";
   user_turn "e"; assistant_turn "f"].
Definition older_exchange : list turn := [user_turn "x"; assistant_turn "y"].

(** Settings whose default language is Quechua. *)
Definition quechua_default : Settings := {| default_language := "qu" |}.

(** A no-break space, U+00A0, and an em space, U+2003, in UTF-8. *)
Definition no_break_space : string :=
  String (ascii_of_nat 194) (String (ascii_of_nat 160) EmptyString).
Definition em_space : string :=
  String (ascii_of_nat 226) (String (ascii_of_nat 128) (String (ascii_of_nat 131) EmptyString)).

(** A backend that answers with a no-break space only. *)
Definition unicode_blank_answer : string -> backend_result :=
  fun _ => Returned (Some no_break_space).

(** A text update on which call number [k] of [reply_text] raises and
    every other call returns. *)
Definition text_update_failing (k : nat) (s : string) : Update :=
  {| upd_message := Some {| msg_text := Some s; msg_caption := None; msg_photo := false;
                            msg_replies := fun n => negb (Nat.eqb n k) |} |}.

(** A photo whose caption is a no-break space. *)
Definition photo_blank_caption : Update :=
  {| upd_message := Some {| msg_text := None; msg_caption := Some no_break_space;
                            msg_photo := true; msg_replies := fun _ => true |} |}.

(** A table whose first entry has an answer that is not a string. *)
Definition faq_not_text : gmap string (list faq_item) :=
  {[ "es" := [ {| item_question := Some (Text "q1"); item_answer := Some NotText |};
               pair "q2" "a2" ] ]}.

(** A table with entries for Spanish and for Quechua. *)
Definition faq_es_qu : gmap string (list faq_item) :=
  {[ "es" := [pair "q1" "a1"]; "qu" := [pair "tapuy" "kutichiy"] ]}.

(** An alert table with an entry for Quechua only. *)
Definition quechua_alerts : gmap string alert_entry :=
  {[ "qu" := {| cfg_keywords := Some ["rupha"];
                cfg_message := Some "Hampina wasiman riy.";
                cfg_other_keys := false |} ]}.

(** A message of three lines, the second a single space. *)
Definition message_with_blank_line : string := "a" +:+ nl +:+ " " +:+ nl +:+ "b".

End Samples.

(** * Properties *)

(** ** Facts about the [str] methods *)

Section StrFacts.
Import PyStr Observations.

Lemma str_app_nil_l (s : string) : "" +:+ s = s.
Proof. reflexivity. Qed.

Lemma str_app_cons (c : ascii) (a b : string) :
  String c a +:+ b = String c (a +:+ b).
Proof. reflexivity. Qed.

Lemma str_app_nil_r (s : string) : s +:+ "" = s.
Proof.
  induction s as [|c s IH]; [reflexivity |].
  rewrite str_app_cons. f_equal. exact IH.
Qed.

Lemma str_app_assoc (a b c : string) : (a +:+ b) +:+ c = a +:+ b +:+ c.
Proof.
  induction a as [|x a IH]; [reflexivity |].
  rewrite !str_app_cons. f_equal. exact IH.
Qed.

Lemma str_length_app (a b : string) :
  String.length (a +:+ b) = String.length a + String.length b.
Proof.
  induction a as [|x a IH]; [reflexivity |].
  rewrite str_app_cons. simpl. now rewrite IH.
Qed.

Lemma truthy_false (s : string) : truthy s = false <-> s = "".
Proof. destruct s; simpl; split; congruence. Qed.

Lemma truthy_app_l (a b : string) : truthy a = true -> truthy (a +:+ b) = true.
Proof. destruct a; [discriminate | reflexivity]. Qed.

Lemma truthy_app_r (a b : string) : truthy b = true -> truthy (a +:+ b) = true.
Proof. destruct a; [trivial | reflexivity]. Qed.

(** *** [startswith], [in] and [endswith] *)

Lemma startswith_spec (p s : string) :
  startswith p s = true <-> exists r, s = p +:+ r.
Proof.
  revert s; induction p as [|a p IH]; intros s; simpl.
  - split; [intros _; now exists s | reflexivity].
  - destruct s as [|b s].
    + split; [discriminate | intros [r Hr]; discriminate].
    + destruct (Ascii.eqb_spec a b) as [->|Hab].
      * rewrite IH. split; intros [r Hr]; exists r.
        -- rewrite str_app_cons. congruence.
        -- rewrite str_app_cons in Hr. congruence.
      * split; [discriminate | intros [r Hr]].
        rewrite str_app_cons in Hr. congruence.
Qed.

Lemma contains_spec (needle hay : string) :
  contains needle hay = true <-> exists a b, hay = a +:+ needle +:+ b.
Proof.
  induction hay as [|c hay IH].
  - simpl. rewrite orb_false_r, startswith_spec. split.
    + intros [r Hr]. now exists "", r.
    + intros [a [b Hab]]. destruct a; [now exists b | discriminate].
  - cbn [contains]. rewrite orb_true_iff, startswith_spec, IH. split.
    + intros [[r Hr] | [a [b Hab]]].
      * now exists "", r.
      * exists (String c a), b. rewrite str_app_cons. congruence.
    + intros [a [b Hab]]. destruct a as [|x a].
      * left. now exists b.
      * right. exists a, b. rewrite str_app_cons in Hab. congruence.
Qed.

Lemma endswith_spec (p s : string) :
  endswith p s = true <-> exists a, s = a +:+ p.
Proof.
  induction s as [|c s IH].
  - simpl. rewrite orb_false_r, String.eqb_eq. split.
    + intros ->. now exists "".
    + intros [a Ha]. destruct a; [symmetry; assumption | discriminate].
  - cbn [endswith]. rewrite orb_true_iff, String.eqb_eq, IH. split.
    + intros [-> | [a Ha]].
      * now exists "".
      * exists (String c a). rewrite str_app_cons. congruence.
    + intros [a Ha]. destruct a as [|x a].
      * left. symmetry. assumption.
      * right. exists a. rewrite str_app_cons in Ha. congruence.
Qed.

Lemma contains_app_suffix (needle a : string) : contains needle (a +:+ needle) = true.
Proof. apply contains_spec. exists a, "". now rewrite str_app_nil_r. Qed.

Lemma endswith_app (p a : string) : endswith p (a +:+ p) = true.
Proof. apply endswith_spec. now exists a. Qed.

(** *** [strip] *)

(** The bytes of a white space code point of two or three bytes. *)
Lemma isspace_low (a : ascii) : isspace a = true -> nat_of_ascii a < 128.
Proof.
  unfold isspace. cbv zeta.
  intros [[_ H]%andb_true_iff | [_ H]%andb_true_iff]%orb_true_iff;
    apply Nat.leb_le in H; lia.
Qed.

Lemma isspace2_bytes (a b : ascii) :
  isspace2 a b = true -> nat_of_ascii a = 194 /\ continuation b = true.
Proof.
  unfold isspace2, continuation. cbv zeta.
  intros [Ha Hb]%andb_true_iff. apply Nat.eqb_eq in Ha. split; [exact Ha |].
  apply orb_true_iff in Hb as [Hb | Hb]; apply Nat.eqb_eq in Hb; rewrite Hb; reflexivity.
Qed.

Lemma isspace3_bytes (a b c : ascii) :
  isspace3 a b c = true ->
  192 <= nat_of_ascii a /\ continuation b = true /\ continuation c = true.
Proof.
  unfold isspace3, continuation. cbv zeta.
  rewrite !orb_true_iff, !andb_true_iff, !orb_true_iff, !andb_true_iff,
    !Nat.eqb_eq, !Nat.leb_le.
  intros H. repeat split; try apply andb_true_iff; rewrite ?Nat.leb_le; lia.
Qed.

Lemma lstrip_space1 (a : ascii) (s : string) :
  isspace a = true -> lstrip (String a s) = lstrip s.
Proof. intros H. cbn [lstrip]. now rewrite H. Qed.

Lemma lstrip_space2 (a b : ascii) (s : string) :
  isspace a = false -> isspace2 a b = true ->
  lstrip (String a (String b s)) = lstrip s.
Proof. intros H1 H2. cbn [lstrip]. now rewrite H1, H2. Qed.

Lemma lstrip_space3 (a b c : ascii) (s : string) :
  isspace a = false -> isspace2 a b = false -> isspace3 a b c = true ->
  lstrip (String a (String b (String c s))) = lstrip s.
Proof. intros H1 H2 H3. cbn [lstrip]. now rewrite H1, H2, H3. Qed.

(** A text that does not start with white space is left alone. *)
Lemma lstrip_stuck (s : string) : space_width s = 0 -> lstrip s = s.
Proof.
  destruct s as [|a [|b [|c s]]]; cbn [space_width lstrip]; try reflexivity.
  - destruct (isspace a); [discriminate | reflexivity].
  - destruct (isspace a); [discriminate |].
    destruct (isspace2 a b); [discriminate | reflexivity].
  - destruct (isspace a); [discriminate |].
    destruct (isspace2 a b); [discriminate |].
    destruct (isspace3 a b c); [discriminate | reflexivity].
Qed.

(** Induction along the steps of [lstrip]. *)
Lemma lstrip_ind (P : string -> string -> Prop) :
  (forall a s, isspace a = true -> P s (lstrip s) -> P (String a s) (lstrip s)) ->
  (forall a b s, isspace a = false -> isspace2 a b = true ->
                 P s (lstrip s) -> P (String a (String b s)) (lstrip s)) ->
  (forall a b c s, isspace a = false -> isspace2 a b = false -> isspace3 a b c = true ->
                   P s (lstrip s) -> P (String a (String b (String c s))) (lstrip s)) ->
  (forall s, space_width s = 0 -> P s s) ->
  forall s, P s (lstrip s).
Proof.
  intros H1 H2 H3 H0 s.
  assert (H : forall n s, String.length s <= n -> P s (lstrip s));
    [| exact (H (String.length s) s (le_n _))].
  clear s. induction n as [|n IH]; intros s Hn.
  - destruct s; [| cbn in Hn; lia]. apply (H0 ""). reflexivity.
  - destruct (space_width s) eqn:Hw.
    + rewrite (lstrip_stuck s Hw). now apply H0.
    + destruct s as [|a s1]; [discriminate |]. cbn [space_width] in Hw.
      destruct (isspace a) eqn:Ha.
      { rewrite (lstrip_space1 a s1 Ha). apply H1; [exact Ha |]. apply IH. cbn in Hn. lia. }
      destruct s1 as [|b s2]; [discriminate |].
      destruct (isspace2 a b) eqn:Hb.
      { rewrite (lstrip_space2 a b s2 Ha Hb). apply H2; [exact Ha | exact Hb |].
        apply IH. cbn in Hn. lia. }
      destruct s2 as [|c s3]; [discriminate |].
      destruct (isspace3 a b c) eqn:Hc; [| discriminate].
      rewrite (lstrip_space3 a b c s3 Ha Hb Hc). apply H3; [exact Ha | exact Hb | exact Hc |].
      apply IH. cbn in Hn. lia.
Qed.

Lemma lstrip_width (s : string) : space_width (lstrip s) = 0.
Proof.
  apply (lstrip_ind (fun _ r => space_width r = 0)); auto.
Qed.

Lemma lstrip_idem (s : string) : lstrip (lstrip s) = lstrip s.
Proof. apply lstrip_stuck, lstrip_width. Qed.

(** What precedes the start of a code point does not change whether a
    text starts with white space, unless it is empty. *)
Lemma space_width_app (x y : string) :
  truthy x = true -> space_width x = 0 -> starts_code_point y = true ->
  space_width (x +:+ y) = 0.
Proof.
  intros Hx Hw Hy.
  destruct x as [|a [|b [|c x]]]; [discriminate | | |];
    rewrite ?str_app_cons, ?str_app_nil_l; cbn [space_width] in *.
  - destruct (isspace a); [discriminate |].
    destruct y as [|b [|c y]]; [reflexivity | |]; cbn [starts_code_point] in Hy.
    + destruct (isspace2 a b) eqn:Hb; [| reflexivity].
      apply isspace2_bytes in Hb as [_ Hb]. rewrite Hb in Hy. discriminate.
    + destruct (isspace2 a b) eqn:Hb.
      { apply isspace2_bytes in Hb as [_ Hb]. rewrite Hb in Hy. discriminate. }
      destruct (isspace3 a b c) eqn:Hc; [| reflexivity].
      apply isspace3_bytes in Hc as (_ & Hc & _). rewrite Hc in Hy. discriminate.
  - destruct (isspace a); [discriminate |].
    destruct (isspace2 a b); [discriminate |].
    destruct y as [|c y]; [reflexivity |]. cbn [starts_code_point] in Hy.
    destruct (isspace3 a b c) eqn:Hc; [| reflexivity].
    apply isspace3_bytes in Hc as (_ & _ & Hc). rewrite Hc in Hy. discriminate.
  - exact Hw.
Qed.

(** The same for a text that ends with a code point of one byte. *)
Lemma space_width_app_ascii (x y : string) :
  truthy x = true -> space_width x = 0 -> ends_ascii x = true ->
  space_width (x +:+ y) = 0.
Proof.
  intros Hx Hw He.
  destruct x as [|a [|b [|c x]]]; [discriminate | | |];
    rewrite ?str_app_cons, ?str_app_nil_l; cbn [space_width ends_ascii] in *.
  - apply Nat.ltb_lt in He. destruct (isspace a); [discriminate |].
    destruct y as [|b [|c y]]; [reflexivity | |].
    + destruct (isspace2 a b) eqn:Hb; [| reflexivity].
      apply isspace2_bytes in Hb as [Hb _]. lia.
    + destruct (isspace2 a b) eqn:Hb.
      { apply isspace2_bytes in Hb as [Hb _]. lia. }
      destruct (isspace3 a b c) eqn:Hc; [| reflexivity].
      apply isspace3_bytes in Hc as (Hc & _ & _). lia.
  - apply Nat.ltb_lt in He. destruct (isspace a); [discriminate |].
    destruct (isspace2 a b) eqn:Hb; [discriminate |].
    destruct y as [|c y]; [reflexivity |].
    destruct (isspace3 a b c) eqn:Hc; [| reflexivity].
    apply isspace3_bytes in Hc as (_ & Hc & _). unfold continuation in Hc.
    apply andb_true_iff in Hc as [Hc _]. apply Nat.leb_le in Hc. lia.
  - exact Hw.
Qed.

Lemma ends_ascii_tail (c : ascii) (s : string) :
  truthy s = true -> ends_ascii (String c s) = ends_ascii s.
Proof. destruct s; [discriminate | reflexivity]. Qed.

Lemma ends_ascii_last (c : ascii) :
  ends_ascii (String c "") = true -> continuation c = false.
Proof.
  cbn [ends_ascii]. intros H%Nat.ltb_lt. unfold continuation.
  apply andb_false_iff. left. apply Nat.leb_gt. exact H.
Qed.

(** [lstrip] before the start of a code point. *)
Lemma lstrip_app (x y : string) :
  truthy (lstrip x) = true -> starts_code_point y = true ->
  lstrip (x +:+ y) = lstrip x +:+ y.
Proof.
  intros Hx Hy. revert Hx.
  apply (lstrip_ind (fun x r => truthy r = true -> lstrip (x +:+ y) = r +:+ y)).
  - intros a s Ha IH Hr. rewrite str_app_cons, lstrip_space1 by exact Ha. auto.
  - intros a b s Ha Hb IH Hr. rewrite !str_app_cons, lstrip_space2 by assumption. auto.
  - intros a b c s Ha Hb Hc IH Hr.
    rewrite !str_app_cons, lstrip_space3 by assumption. auto.
  - intros s Hw Hs. apply lstrip_stuck. now apply space_width_app.
Qed.

(** [lstrip] of a text whose stripped form ends with a code point of
    one byte, before any text. *)
Lemma lstrip_app_ascii (x y : string) :
  truthy (lstrip x) = true -> ends_ascii x = true ->
  lstrip (x +:+ y) = lstrip x +:+ y.
Proof.
  intros Hx. revert Hx.
  apply (lstrip_ind (fun x r => truthy r = true -> ends_ascii x = true ->
                                lstrip (x +:+ y) = r +:+ y)).
  - intros a s Ha IH Hr He. rewrite str_app_cons, lstrip_space1 by exact Ha.
    apply IH; [exact Hr |]. destruct s; [reflexivity |]. exact He.
  - intros a b s Ha Hb IH Hr He. rewrite !str_app_cons, lstrip_space2 by assumption.
    apply IH; [exact Hr |]. destruct s; [reflexivity |]. exact He.
  - intros a b c s Ha Hb Hc IH Hr He.
    rewrite !str_app_cons, lstrip_space3 by assumption.
    apply IH; [exact Hr |]. destruct s; [reflexivity |]. exact He.
  - intros s Hw Hs He. apply lstrip_stuck. now apply space_width_app_ascii.
Qed.

(** A text made of white space only, before any text. *)
Lemma lstrip_app_space (x y : string) :
  lstrip x = "" -> lstrip (x +:+ y) = lstrip y.
Proof.
  apply (lstrip_ind (fun x r => r = "" -> lstrip (x +:+ y) = lstrip y)).
  - intros a s Ha IH Hr. rewrite str_app_cons, lstrip_space1 by exact Ha. auto.
  - intros a b s Ha Hb IH Hr. rewrite !str_app_cons, lstrip_space2 by assumption. auto.
  - intros a b c s Ha Hb Hc IH Hr.
    rewrite !str_app_cons, lstrip_space3 by assumption. auto.
  - intros s _ ->. reflexivity.
Qed.

(** White space only, cut at the start of a code point: both parts
    are white space only. *)
Lemma lstrip_app_nil (x y : string) :
  lstrip (x +:+ y) = "" -> starts_code_point y = true ->
  lstrip x = "" /\ lstrip y = "".
Proof.
  intros H Hy. revert H.
  apply (lstrip_ind (fun x r => lstrip (x +:+ y) = "" -> r = "" /\ lstrip y = "")).
  - intros a s Ha IH. rewrite str_app_cons, lstrip_space1 by exact Ha. auto.
  - intros a b s Ha Hb IH. rewrite !str_app_cons, lstrip_space2 by assumption. auto.
  - intros a b c s Ha Hb Hc IH. rewrite !str_app_cons, lstrip_space3 by assumption. auto.
  - intros s Hw H. destruct s as [|a s]; [now rewrite str_app_nil_l in H |].
    rewrite lstrip_stuck in H by (now apply space_width_app). discriminate.
Qed.

(** The same, cut after a code point of one byte. *)
Lemma lstrip_app_nil_ascii (x y : string) :
  lstrip (x +:+ y) = "" -> ends_ascii x = true -> lstrip x = "".
Proof.
  apply (lstrip_ind (fun x r => lstrip (x +:+ y) = "" -> ends_ascii x = true -> r = "")).
  - intros a s Ha IH. rewrite str_app_cons, lstrip_space1 by exact Ha.
    intros H He. apply IH; [exact H |]. destruct s; [reflexivity | exact He].
  - intros a b s Ha Hb IH. rewrite !str_app_cons, lstrip_space2 by assumption.
    intros H He. apply IH; [exact H |]. destruct s; [reflexivity | exact He].
  - intros a b c s Ha Hb Hc IH. rewrite !str_app_cons, lstrip_space3 by assumption.
    intros H He. apply IH; [exact H |]. destruct s; [reflexivity | exact He].
  - intros s Hw H He. destruct s as [|a s]; [reflexivity |].
    rewrite lstrip_stuck in H by (now apply space_width_app_ascii). discriminate.
Qed.

(** A text made of white space only starts at a code point. *)
Lemma lstrip_nil_starts (y : string) : lstrip y = "" -> starts_code_point y = true.
Proof.
  destruct y as [|a y]; [reflexivity |]. intros H.
  cbn [starts_code_point]. unfold continuation.
  destruct (space_width (String a y)) eqn:Hw.
  - rewrite lstrip_stuck in H by exact Hw. discriminate.
  - clear H. cbn [space_width] in Hw.
    destruct (isspace a) eqn:Ha.
    { apply isspace_low in Ha. apply negb_true_iff, andb_false_iff. left.
      apply Nat.leb_gt. exact Ha. }
    destruct y as [|b y]; [discriminate |].
    destruct (isspace2 a b) eqn:Hb.
    { apply isspace2_bytes in Hb as [Hb _]. rewrite Hb. reflexivity. }
    destruct y as [|c y]; [discriminate |].
    destruct (isspace3 a b c) eqn:Hc; [| discriminate].
    apply isspace3_bytes in Hc as (Hc & _ & _).
    apply negb_true_iff, andb_false_iff. right. apply Nat.leb_gt. lia.
Qed.

(** [rstrip] cuts off white space and nothing else. *)
Lemma rstrip_split (s : string) : exists t, s = rstrip s +:+ t /\ lstrip t = "".
Proof.
  induction s as [|c s (t & Hs & Ht)]; [now exists "" |].
  cbn [rstrip]. destruct (truthy (lstrip (String c s))) eqn:Hc.
  - exists t. split; [| exact Ht]. rewrite str_app_cons. now f_equal.
  - exists (String c s). split; [reflexivity |]. now apply truthy_false.
Qed.

Lemma rstrip_nil (s : string) : rstrip s = "" <-> lstrip s = "".
Proof.
  destruct s as [|c s]; [split; reflexivity |]. cbn [rstrip].
  destruct (truthy (lstrip (String c s))) eqn:Hc.
  - split; [discriminate |]. intros H. rewrite H in Hc. discriminate.
  - split; [| reflexivity]. intros _. now apply truthy_false.
Qed.

Lemma rstrip_cons (c : ascii) (s : string) :
  truthy (lstrip (String c s)) = true -> rstrip (String c s) = String c (rstrip s).
Proof. intros H. cbn [rstrip]. now rewrite H. Qed.

Lemma rstrip_idem (s : string) : rstrip (rstrip s) = rstrip s.
Proof.
  induction s as [|c s IH]; [reflexivity |].
  cbn [rstrip]. destruct (truthy (lstrip (String c s))) eqn:Hc; [| reflexivity].
  rewrite rstrip_cons; [now rewrite IH |].
  destruct (truthy (lstrip (String c (rstrip s)))) eqn:Hr; [reflexivity |].
  apply truthy_false in Hr. destruct (rstrip_split s) as (t & Hs & Ht).
  rewrite Hs, <- str_app_cons, lstrip_app_space, Ht in Hc by exact Hr. discriminate.
Qed.

Lemma rstrip_tail (c : ascii) (s : string) :
  rstrip (String c s) = String c s -> rstrip s = s.
Proof.
  cbn [rstrip]. destruct (truthy (lstrip (String c s))); [| discriminate].
  now intros [= H].
Qed.

(** Stripping on the left keeps a string stripped on the right. *)
Lemma rstrip_lstrip (s : string) : rstrip s = s -> rstrip (lstrip s) = lstrip s.
Proof.
  apply (lstrip_ind (fun s r => rstrip s = s -> rstrip r = r)).
  - intros a x _ IH H. apply IH. eapply rstrip_tail, H.
  - intros a b x _ _ IH H. apply IH. eapply rstrip_tail, rstrip_tail, H.
  - intros a b c x _ _ _ IH H. apply IH. eapply rstrip_tail, rstrip_tail, rstrip_tail, H.
  - auto.
Qed.

Lemma strip_idem (s : string) : strip (strip s) = strip s.
Proof.
  unfold strip. rewrite (rstrip_lstrip (rstrip s)) by apply rstrip_idem.
  apply lstrip_idem.
Qed.

(** [rstrip] before the start of a code point. *)
Lemma rstrip_app (x y : string) :
  truthy (rstrip y) = true -> starts_code_point y = true ->
  rstrip (x +:+ y) = x +:+ rstrip y.
Proof.
  intros Hy Hs. induction x as [|c x IH]; [reflexivity |].
  rewrite !str_app_cons. rewrite rstrip_cons; [now rewrite IH |].
  destruct (truthy (lstrip (String c (x +:+ y)))) eqn:Hc; [reflexivity |].
  apply truthy_false in Hc. rewrite <- str_app_cons in Hc.
  apply lstrip_app_nil in Hc as [_ Hc]; [| exact Hs].
  apply rstrip_nil in Hc. rewrite Hc in Hy. discriminate.
Qed.

(** [rstrip] after a text that ends with a code point of one byte. *)
Lemma rstrip_app_ascii (x y : string) :
  truthy (rstrip y) = true -> ends_ascii x = true ->
  rstrip (x +:+ y) = x +:+ rstrip y.
Proof.
  intros Hy. induction x as [|c x IH]; [reflexivity |]. intros He.
  rewrite !str_app_cons. rewrite rstrip_cons.
  - f_equal. apply IH. destruct x; [reflexivity | exact He].
  - destruct (truthy (lstrip (String c (x +:+ y)))) eqn:Hc; [reflexivity |].
    apply truthy_false in Hc. rewrite <- str_app_cons in Hc.
    pose proof (lstrip_app_nil_ascii _ _ Hc He) as Hx.
    rewrite lstrip_app_space in Hc by exact Hx.
    apply rstrip_nil in Hc. rewrite Hc in Hy. discriminate.
Qed.

Lemma strip_app (x y : string) :
  truthy (lstrip x) = true -> truthy (rstrip y) = true -> starts_code_point y = true ->
  strip (x +:+ y) = lstrip x +:+ rstrip y.
Proof.
  intros Hx Hy Hs. unfold strip. rewrite rstrip_app by assumption.
  apply lstrip_app; [exact Hx |].
  destruct y as [|c y]; [discriminate |]. cbn [rstrip] in *.
  destruct (truthy (lstrip (String c y))); [exact Hs | discriminate].
Qed.

(** White space at the end is cut off with what it follows. *)
Lemma rstrip_app_ws (x y : string) : rstrip y = "" -> rstrip (x +:+ y) = rstrip x.
Proof.
  intros Hy. apply rstrip_nil in Hy.
  induction x as [|c x IH]; [now apply rstrip_nil |].
  rewrite str_app_cons. cbn [rstrip]. rewrite IH. rewrite <- str_app_cons.
  destruct (truthy (lstrip (String c x))) eqn:Hc.
  - destruct (truthy (lstrip (String c x +:+ y))) eqn:Hd; [reflexivity |].
    apply truthy_false in Hd.
    apply lstrip_app_nil in Hd as [Hd _]; [| now apply lstrip_nil_starts].
    rewrite Hd in Hc. discriminate.
  - apply truthy_false in Hc. now rewrite lstrip_app_space, Hy.
Qed.

Lemma truthy_rstrip (s : string) : truthy (rstrip s) = truthy (lstrip s).
Proof.
  destruct (truthy (lstrip s)) eqn:H.
  - destruct (truthy (rstrip s)) eqn:Hr; [reflexivity |].
    apply truthy_false, rstrip_nil in Hr. rewrite Hr in H. discriminate.
  - apply truthy_false. apply rstrip_nil. now apply truthy_false.
Qed.

Lemma truthy_rstrip_app_r (x y : string) :
  truthy (rstrip y) = true -> starts_code_point y = true ->
  truthy (rstrip (x +:+ y)) = true.
Proof. intros Hy Hs. rewrite rstrip_app by assumption. now apply truthy_app_r. Qed.

Lemma truthy_rstrip_app_l (x y : string) :
  truthy (rstrip x) = true -> ends_ascii x = true ->
  truthy (rstrip (x +:+ y)) = true.
Proof.
  intros Hx He. rewrite truthy_rstrip in *.
  destruct (truthy (lstrip (x +:+ y))) eqn:H; [reflexivity |].
  apply truthy_false in H. apply lstrip_app_nil_ascii in H; [| exact He].
  rewrite H in Hx. discriminate.
Qed.

(** A text that [rstrip] keeps, after any other text. *)
Lemma rstrip_kept_app (x y : string) :
  rstrip y = y /\ truthy y = true /\ starts_code_point y = true ->
  rstrip (x +:+ y) = x +:+ y /\ truthy (x +:+ y) = true.
Proof.
  intros (Hr & Ht & Hs). split; [| now apply truthy_app_r].
  rewrite rstrip_app by (now rewrite ?Hr). now rewrite Hr.
Qed.

(** *** Counting occurrences *)

Lemma startswith_refl (p : string) : startswith p p = true.
Proof. apply startswith_spec. exists "". now rewrite str_app_nil_r. Qed.

Lemma startswith_length (p s : string) :
  startswith p s = true -> String.length p <= String.length s.
Proof.
  intros H. apply startswith_spec in H as [r ->]. rewrite str_length_app. lia.
Qed.

Lemma occurrences_short (p h : string) :
  String.length h < String.length p -> occurrences p h = 0.
Proof.
  induction h as [|c h IH]; intros Hlt; cbn [occurrences].
  - destruct (startswith p "") eqn:Hs; [| reflexivity].
    apply startswith_length in Hs. lia.
  - destruct (startswith p (String c h)) eqn:Hs.
    + apply startswith_length in Hs. lia.
    + cbn [String.length] in Hlt. rewrite IH by lia. reflexivity.
Qed.

Lemma occurrences_self (p : string) : truthy p = true -> occurrences p p = 1.
Proof.
  destruct p as [|c p]; [discriminate | intros _].
  cbn [occurrences]. rewrite startswith_refl.
  rewrite occurrences_short by (cbn [String.length]; lia). reflexivity.
Qed.

(** A needle without line feed that starts at a position before a line
    feed ends before it. *)
Lemma startswith_before_nl (p a r : string) :
  has_char "010" p = false ->
  startswith p (a +:+ String "010" r) = true -> startswith p a = true.
Proof.
  revert a. induction p as [|x p IH]; intros a Hp Hs; [reflexivity |].
  cbn [has_char] in Hp. apply orb_false_iff in Hp as [Hx Hp].
  destruct a as [|y a].
  - rewrite str_app_nil_l in Hs. cbn [startswith] in Hs. rewrite Hx in Hs. discriminate.
  - rewrite str_app_cons in Hs. cbn [startswith] in Hs |- *.
    destruct (Ascii.eqb x y); [now apply IH | discriminate].
Qed.

Lemma occurrences_after_nl (p t r : string) :
  has_char "010" p = false -> contains p t = false ->
  occurrences p (t +:+ String "010" r) = occurrences p (String "010" r).
Proof.
  intros Hp. induction t as [|c t IH]; intros Hc; [reflexivity |].
  cbn [contains] in Hc. apply orb_false_iff in Hc as [Hs Hc].
  rewrite str_app_cons. cbn [occurrences]. rewrite <- str_app_cons.
  destruct (startswith p (String c t +:+ String "010" r)) eqn:Hs'.
  - apply startswith_before_nl in Hs'; [congruence | assumption].
  - now rewrite IH.
Qed.

Lemma startswith_nl_false (p s : string) :
  truthy p = true -> has_char "010" p = false -> startswith p (String "010" s) = false.
Proof.
  destruct p as [|x p]; [discriminate |]. intros _ Hp.
  cbn [has_char] in Hp. apply orb_false_iff in Hp as [Hx _].
  cbn [startswith]. now rewrite Hx.
Qed.

(** Appended after a blank line to a text that does not contain it, a
    needle without line feed occurs exactly once. *)
Lemma occurrences_appended (p t : string) :
  truthy p = true -> has_char "010" p = false -> contains p t = false ->
  occurrences p (t +:+ nl +:+ nl +:+ p) = 1.
Proof.
  intros Ht Hp Hc. unfold nl. rewrite !str_app_cons, !str_app_nil_l.
  rewrite occurrences_after_nl by assumption.
  cbn [occurrences]. rewrite !startswith_nl_false by assumption.
  now rewrite occurrences_self.
Qed.

(** *** Lines and [dedent] *)

Lemma split_lines_nonempty (s : string) : split_lines s <> [].
Proof.
  induction s as [|c s IH]; cbn [split_lines]; [discriminate |].
  destruct (Ascii.eqb c "010"); [discriminate |].
  destruct (split_lines s); discriminate.
Qed.

Lemma split_lines_app_nl (a b : string) :
  split_lines (a +:+ String "010" b) = split_lines a ++ split_lines b.
Proof.
  induction a as [|c a IH].
  - reflexivity.
  - rewrite str_app_cons. cbn [split_lines]. rewrite IH.
    destruct (Ascii.eqb c "010"); [reflexivity |].
    pose proof (split_lines_nonempty a) as Hne.
    destruct (split_lines a); [congruence | reflexivity].
Qed.

(** A prefix without line feed stays on the first line. *)
Lemma split_lines_app_prefix (p s : string) :
  has_char "010" p = false ->
  split_lines (p +:+ s) =
  match split_lines s with
  | [] => []
  | first :: others => (p +:+ first) :: others
  end.
Proof.
  intros Hp. induction p as [|c p IH].
  - rewrite str_app_nil_l. now destruct (split_lines s).
  - cbn [has_char] in Hp. apply orb_false_iff in Hp as [Hc Hp].
    rewrite str_app_cons. cbn [split_lines]. rewrite Hc, (IH Hp).
    pose proof (split_lines_nonempty s) as Hne.
    destruct (split_lines s); [congruence | reflexivity].
Qed.

Lemma join_cons (sep x : string) (l : list string) :
  l <> [] -> join sep (x :: l) = x +:+ sep +:+ join sep l.
Proof. destruct l; [congruence | reflexivity]. Qed.

Lemma join_app (sep : string) (l1 l2 : list string) :
  l1 <> [] -> l2 <> [] ->
  join sep (l1 ++ l2) = join sep l1 +:+ sep +:+ join sep l2.
Proof.
  intros H1 H2. induction l1 as [|x l1 IH]; [congruence |].
  destruct l1 as [|y l1].
  - cbn [app]. now rewrite join_cons.
  - change ((x :: y :: l1) ++ l2) with (x :: ((y :: l1) ++ l2)).
    rewrite join_cons by discriminate. rewrite IH by discriminate.
    rewrite (join_cons sep x (y :: l1)) by discriminate.
    now rewrite !str_app_assoc.
Qed.

Lemma join_split_lines (s : string) : join nl (split_lines s) = s.
Proof.
  induction s as [|c s IH]; [reflexivity |].
  cbn [split_lines]. pose proof (split_lines_nonempty s) as Hne.
  destruct (Ascii.eqb_spec c "010") as [-> | Hc].
  - rewrite join_cons by assumption. now rewrite IH.
  - destruct (split_lines s) as [|first others]; [congruence |].
    destruct others as [|l others].
    + cbn [join] in *. now rewrite IH.
    + rewrite join_cons in IH by discriminate.
      rewrite join_cons by discriminate. rewrite str_app_cons. now rewrite IH.
Qed.

Lemma blank_ws_lines_app_nl (a b : string) :
  blank_ws_lines (a +:+ nl +:+ b) = blank_ws_lines a +:+ nl +:+ blank_ws_lines b.
Proof.
  unfold blank_ws_lines, nl. rewrite str_app_cons, str_app_nil_l.
  rewrite split_lines_app_nl, map_app.
  apply join_app; intros H; apply map_eq_nil in H; now apply split_lines_nonempty in H.
Qed.

(** The margin is empty as soon as one line starts at the first column. *)
Lemma common_prefix_nil_r (a : string) : common_prefix a "" = "".
Proof. now destruct a. Qed.

Lemma fold_common_prefix_nil (l : list string) : fold_left common_prefix l "" = "".
Proof. induction l as [|x l IH]; [reflexivity | exact IH]. Qed.

Lemma fold_common_prefix_in (l : list string) : forall acc,
  In "" l -> fold_left common_prefix l acc = "".
Proof.
  induction l as [|x l IH]; intros acc Hin; [destruct Hin |].
  destruct Hin as [-> | Hin]; cbn [fold_left].
  - rewrite common_prefix_nil_r. apply fold_common_prefix_nil.
  - now apply IH.
Qed.

Lemma margin_of_empty (ls : list string) (l : string) :
  In l ls -> truthy l = true -> indent_of l = "" -> margin_of ls = "".
Proof.
  intros Hin Ht Hi. unfold margin_of.
  assert (Hin' : In "" (map indent_of (List.filter truthy ls))).
  { rewrite <- Hi. apply in_map. apply filter_In. now split. }
  destruct (map indent_of (List.filter truthy ls)) as [|i rest]; [destruct Hin' |].
  destruct Hin' as [-> | Hin'].
  - apply fold_common_prefix_nil.
  - now apply fold_common_prefix_in.
Qed.

Lemma dedent_no_margin (s : string) :
  margin_of (map blank_line (split_lines s)) = "" -> dedent s = blank_ws_lines s.
Proof.
  intros Hm. unfold dedent, blank_ws_lines. rewrite Hm. f_equal.
  clear Hm. induction (map blank_line (split_lines s)) as [|l ls IH]; [reflexivity |].
  cbn [map]. rewrite IH. reflexivity.
Qed.

(** A text with the line [l], which starts at the first column, between
    two line feeds is only normalised by [dedent]. *)
Lemma dedent_first_column (a l b : string) :
  split_lines l = [l] -> truthy l = true -> all_blank l = false -> indent_of l = "" ->
  dedent (a +:+ nl +:+ l +:+ nl +:+ b) = blank_ws_lines (a +:+ nl +:+ l +:+ nl +:+ b).
Proof.
  intros Hl Ht Hb Hi. apply dedent_no_margin.
  apply (margin_of_empty _ l); [| assumption | assumption].
  unfold nl. rewrite !str_app_cons, !str_app_nil_l.
  rewrite !split_lines_app_nl, Hl, !map_app.
  apply in_or_app. right. apply in_or_app. left.
  cbn [map]. unfold blank_line. rewrite Hb. now left.
Qed.

Lemma all_blank_app (a b : string) : all_blank (a +:+ b) = all_blank a && all_blank b.
Proof.
  induction a as [|c a IH]; [reflexivity |].
  rewrite str_app_cons. cbn [all_blank]. rewrite IH. apply andb_assoc.
Qed.

Lemma has_char_app (c : ascii) (a b : string) :
  has_char c (a +:+ b) = has_char c a || has_char c b.
Proof.
  induction a as [|x a IH]; [reflexivity |].
  rewrite str_app_cons. cbn [has_char]. rewrite IH. apply orb_assoc.
Qed.

Lemma join_cons_app (p x : string) (l : list string) :
  join nl ((p +:+ x) :: l) = p +:+ join nl (x :: l).
Proof.
  destruct l as [|y l]; [reflexivity |].
  rewrite !join_cons by discriminate. apply str_app_assoc.
Qed.

(** What follows a prefix that is not blank and holds no line feed does
    not change the prefix. *)
Lemma blank_ws_lines_prefix (p s : string) :
  has_char "010" p = false -> all_blank p = false ->
  exists w, blank_ws_lines (p +:+ s) = p +:+ w.
Proof.
  intros Hp Hb. unfold blank_ws_lines. rewrite split_lines_app_prefix by assumption.
  pose proof (split_lines_nonempty s) as Hne.
  destruct (split_lines s) as [|first others]; [congruence |].
  cbn [map]. unfold blank_line at 1. rewrite all_blank_app, Hb. cbn [andb].
  rewrite join_cons_app. eauto.
Qed.

Lemma map_blank_line_id (ls : list string) :
  forallb (fun l => negb (truthy l) || negb (all_blank l)) ls = true ->
  map blank_line ls = ls.
Proof.
  induction ls as [|l ls IH]; [reflexivity |].
  cbn [forallb map]. intros H. apply andb_true_iff in H as [Hl Hls].
  rewrite (IH Hls). f_equal. unfold blank_line.
  destruct l as [|c l]; [reflexivity |].
  cbn [truthy negb orb] in Hl. apply negb_true_iff in Hl. now rewrite Hl.
Qed.

(** A tidy text after an indentation is left alone. *)
Lemma blank_ws_lines_indented (p x : string) :
  has_char "010" p = false -> tidy x = true -> blank_ws_lines (p +:+ x) = p +:+ x.
Proof.
  intros Hp Hx. unfold blank_ws_lines. rewrite split_lines_app_prefix by assumption.
  unfold tidy in Hx. pose proof (join_split_lines x) as Hj.
  destruct (split_lines x) as [|first others]; [discriminate |].
  apply andb_true_iff in Hx as [Hf Ho]. apply negb_true_iff in Hf.
  cbn [map]. unfold blank_line at 1. rewrite all_blank_app, Hf, andb_false_r.
  rewrite (map_blank_line_id _ Ho), join_cons_app. now rewrite Hj.
Qed.

Lemma tidy_truthy (x : string) : tidy x = true -> truthy x = true.
Proof. destruct x; [discriminate | reflexivity]. Qed.

(** The same after a text that ends with a code point of one byte. *)
Lemma rstrip_kept_app_ascii (x y : string) :
  rstrip y = y /\ truthy y = true -> ends_ascii x = true ->
  rstrip (x +:+ y) = x +:+ y /\ truthy (x +:+ y) = true.
Proof.
  intros (Hr & Ht) He. split; [| now apply truthy_app_r].
  rewrite rstrip_app_ascii by (now rewrite ?Hr). now rewrite Hr.
Qed.

(** One step of a text that [rstrip] keeps, with either reason. *)
Lemma rstrip_kept_step (x y : string) :
  rstrip y = y /\ truthy y = true ->
  starts_code_point y = true \/ ends_ascii x = true ->
  rstrip (x +:+ y) = x +:+ y /\ truthy (x +:+ y) = true.
Proof.
  intros [Hr Ht] [Hs | He].
  - now apply rstrip_kept_app.
  - now apply rstrip_kept_app_ascii.
Qed.

Lemma starts_code_point_app (x y : string) :
  truthy x = true -> starts_code_point (x +:+ y) = starts_code_point x.
Proof. destruct x; [discriminate | reflexivity]. Qed.

End StrFacts.

(** ** Facts about [history[-n:]] *)

Section LastNFacts.
Import GeminiClient.
Context {A : Type}.
Implicit Types l k : list A.

Lemma last_n_length n l : length (last_n n l) = Nat.min n (length l).
Proof. unfold last_n. rewrite length_drop. lia. Qed.

Lemma last_n_short n l : length l <= n -> last_n n l = l.
Proof.
  intros H. unfold last_n. replace (length l - n) with 0 by lia. reflexivity.
Qed.

Lemma last_n_exact n m l : length l = n + m -> last_n n l = drop m l.
Proof. intros H. unfold last_n. f_equal. lia. Qed.

(** Capping after every append is capping once at the end. *)
Lemma last_n_app_last_n n l k : last_n n (last_n n l ++ k) = last_n n (l ++ k).
Proof.
  destruct (Nat.le_gt_cases (length l) n) as [Hle | Hgt].
  - now rewrite (last_n_short n l Hle).
  - unfold last_n at 1 3.
    rewrite !length_app, last_n_length.
    unfold last_n.
    rewrite <- (drop_app_le l k (length l - n)) by lia.
    rewrite drop_drop. f_equal. lia.
Qed.

End LastNFacts.

(** ** The message handler, step by step *)

Section Orchestrator.
Import PyStr Settings Language Prompts Effects GeminiClient TelegramBot Observations.

Variable lower : string -> string.
Variable settings : Settings.
Variable _ALERTS_CONFIG : gmap string alert_entry.
Variable _FAQ_DATA : gmap string (list faq_item).

Local Abbreviation detect := (_detect_alert_message lower _ALERTS_CONFIG).
Local Abbreviation handle := (handle_text_message lower settings _ALERTS_CONFIG _FAQ_DATA).
Local Abbreviation step := (dispatch lower settings _ALERTS_CONFIG _FAQ_DATA).
Local Abbreviation run_all := (run lower settings _ALERTS_CONFIG _FAQ_DATA).
Local Abbreviation compose := (compose_contents _FAQ_DATA).
Local Abbreviation language_of := (session_language settings).
Local Abbreviation hint_of := (risk_flag lower settings _ALERTS_CONFIG).

Lemma generate_response_eq {S} backend user_message language alert_hint history (s : S) :
  generate_response _FAQ_DATA backend user_message language alert_hint history s =
  match compose user_message language alert_hint history with
  | Normal contents =>
      (Normal (reply_of language (backend contents)), s, [InvokeBackend contents])
  | Exception => (Exception, s, [])
  end.
Proof.
  unfold generate_response.
  destruct (compose user_message language alert_hint history) as [contents|];
    [| reflexivity].
  unfold normally, reply_of, bind, emit, ret.
  destruct (backend contents) as [|response_text]; [reflexivity |].
  destruct (post_process language response_text); reflexivity.
Qed.

Lemma get_user_language_eq (ud : user_data) :
  _get_user_language settings ud = (language_of ud, ud, []).
Proof.
  unfold session_language, _get_user_language, bind, get, ret, result_of.
  destruct (ud_language ud) as [lang|]; [| reflexivity].
  destruct (is_language_code lang); reflexivity.
Qed.

(** How a handler that has only calls of [reply_text] left ends. *)
Lemma reply_text_eq update text reply_markup n (ud : user_data) :
  reply_text update text reply_markup n ud =
  (if replies_ok update n then Normal tt else Exception, ud, [SendText text reply_markup]).
Proof.
  unfold reply_text, replies_ok. destruct (upd_message update); reflexivity.
Qed.

(** A language label: the store gets the language, the confirmation is
    sent, and nothing else happens. *)
Lemma handle_language_label backend update ud label code :
  user_text_of update = Some label ->
  LANG_CODES_BY_LABEL label = Some code ->
  handle backend update ud =
  (if replies_ok update 0 then Normal tt else Exception,
   {| ud_language := Some code;
      ud_history := ud_history ud;
      ud_alert_shown := ud_alert_shown ud |},
   [SendText (get_message code language_set) keyboard_remove]).
Proof.
  intros Ht Hl. unfold handle_text_message. rewrite Ht, Hl.
  unfold run_handler, exc_bind, total, normally, _set_user_language, bind, get, put.
  rewrite reply_text_eq. reflexivity.
Qed.

(** Any other text, when the warning it calls for cannot be sent: the
    handler ends there. *)
Lemma handle_chat_unwarned backend update ud user_text :
  user_text_of update = Some user_text ->
  LANG_CODES_BY_LABEL user_text = None ->
  hint_of user_text ud = true ->
  replies_ok update 0 = false ->
  handle backend update ud =
  (Exception, ud,
   [SendText (default "" (detect user_text (language_of ud))) no_markup]).
Proof.
  intros Ht Hl Hh Hr. unfold handle_text_message. rewrite Ht, Hl.
  unfold run_handler, exc_bind at 1, total at 1, normally at 1.
  rewrite get_user_language_eq.
  unfold exc_bind at 1, total at 1, normally at 1, get at 1.
  unfold risk_flag in Hh.
  destruct (detect user_text (language_of ud)) as [alert_text|]; [| discriminate].
  rewrite Hh.
  cbv beta iota zeta delta [exc_bind app length sent_texts flat_map Nat.add].
  rewrite reply_text_eq, Hr. reflexivity.
Qed.

(** Any other text, when the warning, if there is one, is sent: the
    store after the warning, and what the [try] block and its [except]
    branch do. *)
Lemma handle_chat backend update ud user_text :
  user_text_of update = Some user_text ->
  LANG_CODES_BY_LABEL user_text = None ->
  let lang := language_of ud in
  let hint := hint_of user_text ud in
  (hint = true -> replies_ok update 0 = true) ->
  let warning :=
    if hint then [SendText (default "" (detect user_text lang)) no_markup] else [] in
  let n := length warning in
  let warned :=
    {| ud_language := ud_language ud;
       ud_history := ud_history ud;
       ud_alert_shown := if hint then Some true else ud_alert_shown ud |} in
  let sorry := SendText (get_message lang fallback_error) no_markup in
  handle backend update ud =
  match compose user_text lang hint (stored_history ud) with
  | Normal contents =>
      let reply := reply_of lang (backend contents) in
      (if replies_ok update n then Normal tt
       else if replies_ok update (S n) then Normal tt else Exception,
       {| ud_language := ud_language ud;
          ud_history :=
            Some (last_n 10 (stored_history ud ++ [user_turn user_text; assistant_turn reply]));
          ud_alert_shown := if hint then Some true else ud_alert_shown ud |},
       warning ++ [InvokeBackend contents; SendText reply no_markup] ++
       (if replies_ok update n then [] else [sorry]))
  | Exception =>
      (if replies_ok update n then Normal tt else Exception, warned, warning ++ [sorry])
  end.
Proof.
  intros Ht Hl lang hint Hw warning n warned sorry.
  subst lang hint warning n warned sorry.
  unfold handle_text_message. rewrite Ht, Hl.
  unfold run_handler, exc_bind at 1, total at 1, normally at 1.
  rewrite get_user_language_eq.
  unfold exc_bind at 1, total at 1, normally at 1, get at 1.
  unfold risk_flag in *.
  assert (Htry : forall hint n (ud1 : user_data),
    try_except
      (exc_bind
         (silent (generate_response _FAQ_DATA backend user_text (language_of ud) hint
                    (stored_history ud)))
         (fun reply =>
            exc_bind
              (total (set_history
                        (last_n 10
                           (stored_history ud ++
                            [ {| turn_role := Some "user"; turn_text := Some user_text |};
                              {| turn_role := Some "assistant"; turn_text := Some reply |} ]))))
              (fun _ => reply_text update reply no_markup)))
      (reply_text update (get_message (language_of ud) fallback_error) no_markup) n ud1 =
    match compose user_text (language_of ud) hint (stored_history ud) with
    | Normal contents =>
        let reply := reply_of (language_of ud) (backend contents) in
        (if replies_ok update n then Normal tt
         else if replies_ok update (S n) then Normal tt else Exception,
         {| ud_language := ud_language ud1;
            ud_history :=
              Some (last_n 10 (stored_history ud ++
                               [user_turn user_text; assistant_turn reply]));
            ud_alert_shown := ud_alert_shown ud1 |},
         [InvokeBackend contents; SendText reply no_markup] ++
         (if replies_ok update n then []
          else [SendText (get_message (language_of ud) fallback_error) no_markup]))
    | Exception =>
        (if replies_ok update n then Normal tt else Exception, ud1,
         [SendText (get_message (language_of ud) fallback_error) no_markup])
    end).
  { intros hint n ud1. unfold try_except, exc_bind at 1, silent.
    rewrite generate_response_eq.
    destruct (compose user_text (language_of ud) hint (stored_history ud)) as [contents|].
    - unfold exc_bind, total, normally, set_history, bind, get, put.
      rewrite !reply_text_eq. cbn [app length sent_texts flat_map].
      rewrite !Nat.add_0_r. replace (n + 1) with (S n) by lia.
      destruct (replies_ok update n); reflexivity.
    - rewrite reply_text_eq. cbn [app length sent_texts flat_map].
      rewrite Nat.add_0_r. reflexivity. }
  destruct (detect user_text (language_of ud)) as [alert_text|] eqn:Hd;
    [destruct (truthy alert_text && negb (alert_already_shown ud)) eqn:Hc |].
  - unfold exc_bind at 1. unfold exc_bind at 1. rewrite reply_text_eq.
    cbn [app length sent_texts flat_map Nat.add]. rewrite (Hw eq_refl).
    unfold exc_bind at 1, total at 1, normally at 1, set_alert_shown, bind, get, put,
      exc_ret.
    cbn [app length sent_texts flat_map Nat.add]. rewrite Htry.
    cbn [ud_language ud_alert_shown default from_option id length].
    destruct (compose user_text (language_of ud) true (stored_history ud));
      reflexivity.
  - unfold exc_bind at 1, exc_ret. cbn [app length sent_texts flat_map Nat.add].
    rewrite Htry. cbn [length].
    destruct (compose user_text (language_of ud) false (stored_history ud));
      destruct ud; reflexivity.
  - unfold exc_bind at 1, exc_ret. cbn [app length sent_texts flat_map Nat.add].
    rewrite Htry. cbn [length].
    destruct (compose user_text (language_of ud) false (stored_history ud));
      destruct ud; reflexivity.
Qed.

Lemma handle_chat_cases (update : Update) (ud : user_data) (user_text : string) :
  (hint_of user_text ud = true /\ replies_ok update 0 = false) \/
  (hint_of user_text ud = true -> replies_ok update 0 = true).
Proof.
  destruct (hint_of user_text ud); [| right; discriminate].
  destruct (replies_ok update 0); [right | left]; auto.
Qed.

Local Abbreviation conversation_of := (conversation lower settings _ALERTS_CONFIG _FAQ_DATA).

Lemma run_cons i rest ud :
  run_all (i :: rest) ud =
  (tt, state_of (run_all rest (state_of (step i ud))),
   trace_of (step i ud) ++ trace_of (run_all rest (state_of (step i ud)))).
Proof.
  cbn [run]. unfold bind, logged, state_of, trace_of.
  destruct (step i ud) as [[o s1] t1]. cbn [fst snd].
  destruct (run_all rest s1) as [[[] s2] t2]. reflexivity.
Qed.

(** The three labels are stripped, not empty, and map to language codes. *)
Lemma label_facts label code :
  LANG_CODES_BY_LABEL label = Some code ->
  strip label = label /\ truthy label = true /\ is_language_code code = true.
Proof.
  unfold LANG_CODES_BY_LABEL.
  destruct (String.eqb_spec label "Español") as [->|_];
    [intros [= <-]; vm_compute; auto |].
  destruct (String.eqb_spec label "Quechua") as [->|_];
    [intros [= <-]; vm_compute; auto |].
  destruct (String.eqb_spec label "Shipibo-Konibo") as [->|_];
    [intros [= <-]; vm_compute; auto | discriminate].
Qed.

Lemma user_text_of_label update message label code :
  upd_message update = Some message ->
  msg_text message = Some label ->
  LANG_CODES_BY_LABEL label = Some code ->
  user_text_of update = Some label.
Proof.
  intros Hu Hm Hl. destruct (label_facts _ _ Hl) as (Hs & Ht & _).
  unfold user_text_of. rewrite Hu. cbv zeta. rewrite Hm.
  replace (or_str (Some label) (or_str (msg_caption message) "")) with label
    by (unfold or_str at 1; now rewrite Ht).
  rewrite Hs, Ht. cbn [negb andb]. rewrite Ht. reflexivity.
Qed.

(** C10: an inbound message whose text is exactly one of the language
    selector labels sets the session language to the code of the label,
    sends that language's confirmation and nothing else, does not call
    the backend, and leaves the history and the alert flag as they were. *)
Theorem language_selection_frame backend update message ud label code :
  upd_message update = Some message ->
  msg_text message = Some label ->
  LANG_CODES_BY_LABEL label = Some code ->
  let r := handle backend update ud in
  ud_language (state_of r) = Some code /\
  language_of (state_of r) = code /\
  trace_of r = [SendText (get_message code language_set) keyboard_remove] /\
  backend_calls (trace_of r) = [] /\
  ud_history (state_of r) = ud_history ud /\
  ud_alert_shown (state_of r) = ud_alert_shown ud.
Proof.
  intros Hu Hm Hl r. subst r.
  rewrite (handle_language_label backend update ud label code
             (user_text_of_label _ _ _ _ Hu Hm Hl) Hl).
  destruct (label_facts _ _ Hl) as (_ & _ & Hc).
  unfold state_of, trace_of, session_language, _get_user_language, bind, get, ret,
    result_of; cbn [fst snd ud_language ud_history ud_alert_shown backend_calls flat_map app].
  rewrite Hc. cbn [fst]. auto 10.
Qed.

(** *** What each kind of update does to the store *)

Lemma handle_dropped backend update ud :
  user_text_of update = None -> handle backend update ud = (Normal tt, ud, []).
Proof. intros Ht. unfold handle_text_message. now rewrite Ht. Qed.

Lemma language_of_default (ud : user_data) :
  language_of
    {| ud_language := Some (default_language settings);
       ud_history := ud_history ud;
       ud_alert_shown := ud_alert_shown ud |} = default_language settings.
Proof.
  unfold session_language, _get_user_language, bind, get, ret, result_of.
  cbn [ud_language]. destruct (is_language_code _); reflexivity.
Qed.

Lemma start_eq update ud :
  let lang := default_language settings in
  start settings update ud =
  (match upd_message update with
   | Some _ => if all_return update 0 3 then Normal tt else Exception
   | None => Normal tt
   end,
   {| ud_language := Some lang;
      ud_history := ud_history ud;
      ud_alert_shown := ud_alert_shown ud |},
   match upd_message update with
   | Some _ =>
       until_raise update 0
         [SendText (get_message lang welcome) language_keyboard;
          SendText (get_message lang choose_language) language_keyboard;
          SendText (get_disclaimer lang) language_keyboard]
   | None => []
   end).
Proof.
  cbv zeta. unfold start, run_handler.
  unfold exc_bind at 1, total at 1, normally at 1, _set_user_language, bind, get, put.
  unfold exc_bind at 1, total at 1, normally at 1.
  rewrite get_user_language_eq, language_of_default.
  cbn [app length sent_texts flat_map Nat.add].
  destruct (upd_message update) eqn:Hm; [| reflexivity].
  unfold exc_bind. rewrite !reply_text_eq.
  cbn [app length sent_texts flat_map Nat.add until_raise all_return].
  destruct (replies_ok update 0), (replies_ok update 1), (replies_ok update 2);
    reflexivity.
Qed.

Lemma help_command_eq update ud :
  help_command settings update ud =
  (match upd_message update with
   | Some _ => if replies_ok update 0 then Normal tt else Exception
   | None => Normal tt
   end,
   ud,
   match upd_message update with
   | Some _ => [SendText (get_message (language_of ud) help) no_markup]
   | None => []
   end).
Proof.
  unfold help_command, run_handler, exc_bind, total, normally.
  rewrite get_user_language_eq. cbv beta iota zeta.
  destruct (upd_message update) eqn:Hm; [| reflexivity].
  rewrite reply_text_eq. reflexivity.
Qed.

Lemma language_command_eq update ud :
  language_command settings update ud =
  (match upd_message update with
   | Some _ => if replies_ok update 0 then Normal tt else Exception
   | None => Normal tt
   end,
   ud,
   match upd_message update with
   | Some _ => [SendText (get_message (language_of ud) choose_language) language_keyboard]
   | None => []
   end).
Proof.
  unfold language_command, run_handler, exc_bind, total, normally.
  rewrite get_user_language_eq. cbv beta iota zeta.
  destruct (upd_message update) eqn:Hm; [| reflexivity].
  rewrite reply_text_eq. reflexivity.
Qed.

(** The cases of one step: a command, a language label, a chat message
    whose warning cannot be sent, any other chat message, and a dropped
    update. *)
Ltac step_cases i ud :=
  let u := fresh "u" in
  let backend := fresh "backend" in
  let user_text := fresh "user_text" in
  let code := fresh "code" in
  let Ht := fresh "Ht" in
  let Hl := fresh "Hl" in
  let Hh := fresh "Hh" in
  let Hr := fresh "Hr" in
  let Hw := fresh "Hw" in
  destruct i as [u|u|u|u backend]; cbn [dispatch];
  [ rewrite start_eq
  | rewrite help_command_eq
  | rewrite language_command_eq
  | destruct (user_text_of u) as [user_text|] eqn:Ht;
    [ destruct (LANG_CODES_BY_LABEL user_text) as [code|] eqn:Hl;
      [ rewrite (handle_language_label _ _ _ _ _ Ht Hl)
      | destruct (handle_chat_cases u ud user_text) as [[Hh Hr] | Hw];
        [ rewrite (handle_chat_unwarned _ _ _ _ Ht Hl Hh Hr)
        | rewrite (handle_chat _ _ _ _ Ht Hl Hw) ] ]
    | rewrite handle_dropped by assumption ] ].

(** A step leaves the alert flag alone or sets it. *)
Lemma step_alert_shown i ud :
  ud_alert_shown (state_of (step i ud)) = ud_alert_shown ud \/
  ud_alert_shown (state_of (step i ud)) = Some true.
Proof.
  step_cases i ud; cbv zeta; cbn [state_of fst snd ud_alert_shown]; auto.
  destruct (compose _ _ _ _); cbn [state_of fst snd ud_alert_shown];
    destruct (hint_of user_text ud); auto.
Qed.

Lemma step_keeps_alert_shown i ud :
  alert_already_shown ud = true ->
  alert_already_shown (state_of (step i ud)) = true.
Proof.
  intros H. unfold alert_already_shown in *.
  destruct (step_alert_shown i ud) as [-> | ->]; [assumption | reflexivity].
Qed.

Lemma run_keeps_alert_shown updates : forall ud,
  alert_already_shown ud = true ->
  alert_already_shown (state_of (run_all updates ud)) = true.
Proof.
  induction updates as [|i rest IH]; intros ud H.
  - exact H.
  - rewrite run_cons. cbn [state_of fst snd]. apply IH, step_keeps_alert_shown, H.
Qed.

(** C8: the alert flag of a session starts false; no update, whatever
    handler it is routed to, turns it from true back to false, neither in
    one step nor over a whole run; and setting the flag twice is the same
    as setting it once. *)
Theorem alert_shown_monotonic :
  alert_already_shown fresh_user_data = false /\
  (forall i ud,
      alert_already_shown ud = true ->
      alert_already_shown (state_of (step i ud)) = true) /\
  (forall updates ud,
      alert_already_shown ud = true ->
      alert_already_shown (state_of (run_all updates ud)) = true) /\
  (forall ud, alert_already_shown (state_of (set_alert_shown ud)) = true) /\
  (forall ud,
      state_of (set_alert_shown (state_of (set_alert_shown ud))) =
      state_of (set_alert_shown ud)).
Proof.
  split; [reflexivity |].
  split; [exact step_keeps_alert_shown |].
  split; [exact run_keeps_alert_shown |].
  split; intros ud; reflexivity.
Qed.

(** *** The history *)

Lemma answer_of_calls (warning : list event) contents reply (rest : list event) :
  backend_calls warning = [] ->
  answer_of (warning ++ [InvokeBackend contents; SendText reply no_markup] ++ rest) =
  Some reply.
Proof.
  intros Hw. induction warning as [|e warning IH]; [reflexivity |].
  destruct e as [text m|c]; [| discriminate]. cbn [app answer_of].
  rewrite <- IH by exact Hw.
  destruct warning as [|[text' m'|c'] warning]; reflexivity.
Qed.

Lemma answer_of_no_call (trace : list event) :
  backend_calls trace = [] -> answer_of trace = None.
Proof.
  induction trace as [|e trace IH]; [reflexivity |].
  destruct e as [text m|c]; [| discriminate].
  intros H. cbn [answer_of]. now apply IH.
Qed.

(** A step either adds nothing and keeps the history, or stores the
    last ten entries of the history extended with what it adds. *)
Lemma step_history i ud :
  let r := step i ud in
  stored_history (state_of r) =
  match appended_turns i (trace_of r) with
  | [] => stored_history ud
  | new => last_n 10 (stored_history ud ++ new)
  end.
Proof.
  cbv zeta. step_cases i ud; cbv zeta; cbn [state_of trace_of fst snd appended_turns];
    try reflexivity.
  - now rewrite Ht.
  - now rewrite Ht.
  - rewrite Ht.
    destruct (compose user_text (language_of ud) (hint_of user_text ud) (stored_history ud))
      as [contents|]; cbv zeta; cbn [state_of trace_of fst snd].
    + rewrite answer_of_calls by (destruct (hint_of user_text ud); reflexivity).
      reflexivity.
    + rewrite answer_of_no_call by (destruct (hint_of user_text ud); reflexivity).
      reflexivity.
  - now rewrite Ht.
Qed.

Lemma run_history updates : forall ud,
  length (stored_history ud) <= 10 ->
  stored_history (state_of (run_all updates ud)) =
  last_n 10 (stored_history ud ++ conversation_of updates ud).
Proof.
  induction updates as [|i rest IH]; intros ud Hle.
  - cbn. rewrite app_nil_r. symmetry. now apply last_n_short.
  - rewrite run_cons. cbn [state_of fst snd conversation].
    pose proof (step_history i ud) as Hs. cbv zeta in Hs.
    rewrite IH.
    + rewrite Hs.
      destruct (appended_turns i (trace_of (step i ud))) as [|t new].
      * reflexivity.
      * now rewrite last_n_app_last_n, <- app_assoc.
    + rewrite Hs.
      destruct (appended_turns i (trace_of (step i ud))); [assumption |].
      rewrite last_n_length. lia.
Qed.

(** C4: whatever updates a fresh session processes, its history is the
    last ten of all the turns added so far, in the order in which they
    were added, so it never holds more than ten entries; when twelve turns
    (six pairs) were added, the two oldest are gone and the ten most
    recent are left. *)
Theorem history_capped updates :
  let final := state_of (run_all updates fresh_user_data) in
  let turns := conversation_of updates fresh_user_data in
  stored_history final = last_n 10 turns /\
  length (stored_history final) <= 10 /\
  (length turns = 12 -> stored_history final = drop 2 turns).
Proof.
  cbv zeta.
  assert (H : stored_history (state_of (run_all updates fresh_user_data)) =
              last_n 10 (conversation_of updates fresh_user_data)).
  { rewrite run_history by (cbn; lia). reflexivity. }
  split; [exact H |]. split.
  - rewrite H, last_n_length. lia.
  - intros H12. rewrite H. now apply last_n_exact.
Qed.

(** *** The risk keyword detector *)

Lemma first_match_spec text_lower keywords :
  first_match lower text_lower keywords = true <->
  exists kw, In kw keywords /\ contains (lower kw) text_lower = true.
Proof.
  induction keywords as [|k rest IH]; cbn [first_match].
  - split; [discriminate | intros [kw [[] _]]].
  - destruct (contains (lower k) text_lower) eqn:Hk.
    + split; [intros _; exists k; split; [now left | assumption] | reflexivity].
    + rewrite IH. split; intros [kw [Hin Hc]]; exists kw.
      * split; [now right | assumption].
      * destruct Hin as [<- | Hin]; [congruence | now split].
Qed.

(** The truthiness of an entry: only the empty object is falsy. *)
Lemma entry_truthy_empty (e : alert_entry) : entry_truthy e = false <-> empty_entry e.
Proof.
  unfold entry_truthy, empty_entry, has_key.
  destruct (cfg_keywords e), (cfg_message e), (cfg_other_keys e); cbn;
    split; try discriminate; try (intros (H1 & H2 & H3); discriminate); auto.
Qed.

Lemma entry_truthy_not_empty (e : alert_entry) : entry_truthy e = true <-> ~ empty_entry e.
Proof.
  rewrite <- entry_truthy_empty. destruct (entry_truthy e); split; congruence.
Qed.

Lemma alerts_lang_cfg_speaks language e :
  alerts_lang_cfg _ALERTS_CONFIG language = Some e /\ entry_truthy e = true <->
  speaks_for _ALERTS_CONFIG language e.
Proof.
  unfold alerts_lang_cfg, speaks_for. rewrite entry_truthy_not_empty.
  destruct (_ALERTS_CONFIG !! language) as [e0|] eqn:Hl.
  - destruct (entry_truthy e0) eqn:Ht0.
    + split.
      * intros [[= <-] He]. split; [assumption | now left].
      * intros [He [[= <-] | [_ Hno]]]; [now split |].
        specialize (Hno e0 eq_refl). apply entry_truthy_empty in Hno. congruence.
    + apply entry_truthy_empty in Ht0. split.
      * intros [Hes He]. split; [assumption | right].
        split; [assumption | intros e' [= <-]; assumption].
      * intros [He [[= <-] | [Hes _]]]; [contradiction | now split].
  - split.
    + intros [Hes He]. split; [assumption | right].
      split; [assumption | discriminate].
    + intros [He [Habs | [Hes _]]]; [discriminate | now split].
Qed.

(** C7 (amended): [detect] returns a message exactly when it is the
    warning message of the entry that speaks for the language and some
    keyword of that entry occurs in the text, case ignored, and it returns
    no match exactly when there is no such entry and keyword.  The entry
    that speaks for a language is its own entry when the table has one
    that is not the empty object, and otherwise the entry of Spanish,
    code "es", whatever the default language of the settings: an own
    entry without keyword list is not replaced by the Spanish one, so
    nothing is detected for that language.  With an empty alert table it
    returns no match for every input. *)
Theorem detect_alert_message_spec text language :
  (forall m,
      detect text language = Some m <->
      exists e kw,
        speaks_for _ALERTS_CONFIG language e /\
        In kw (keywords_of e) /\
        case_insensitive_substring lower kw text /\
        m = message_of e) /\
  (detect text language = None <->
   ~ exists e kw,
       speaks_for _ALERTS_CONFIG language e /\
       In kw (keywords_of e) /\
       case_insensitive_substring lower kw text) /\
  (forall e,
      _ALERTS_CONFIG !! language = Some e -> ~ empty_entry e -> cfg_keywords e = None ->
      detect text language = None) /\
  (_ALERTS_CONFIG = ∅ -> detect text language = None).
Proof.
  assert (Hsome : forall m,
      detect text language = Some m <->
      exists e kw,
        speaks_for _ALERTS_CONFIG language e /\
        In kw (keywords_of e) /\
        case_insensitive_substring lower kw text /\
        m = message_of e).
  { intros m. unfold _detect_alert_message. case_bool_decide as Hempty.
    - split; [discriminate |].
      intros (e & kw & [_ [Hl | [Hl _]]] & _); rewrite Hempty in Hl;
        rewrite lookup_empty in Hl; discriminate.
    - destruct (alerts_lang_cfg _ALERTS_CONFIG language) as [e0|] eqn:Hcfg.
      + destruct (entry_truthy e0) eqn:Ht0; cbn [negb].
        * assert (Hsp : speaks_for _ALERTS_CONFIG language e0)
            by (apply alerts_lang_cfg_speaks; now split).
          destruct (first_match lower (lower text) (default [] (cfg_keywords e0))) eqn:Hfm.
          -- apply first_match_spec in Hfm as (kw & Hin & Hc).
             apply contains_spec in Hc. split.
             ++ intros [= <-]. now exists e0, kw.
             ++ intros (e & kw' & Hsp' & _ & _ & ->).
                apply alerts_lang_cfg_speaks in Hsp' as [He _].
                unfold message_of. congruence.
          -- split; [discriminate |].
             intros (e & kw & Hsp' & Hin & Hc & _).
             apply alerts_lang_cfg_speaks in Hsp' as [He _].
             assert (e = e0) as -> by congruence.
             assert (first_match lower (lower text) (default [] (cfg_keywords e0)) = true)
               as Habs; [| congruence].
             apply first_match_spec. exists kw. split; [assumption |].
             now apply contains_spec.
        * split; [discriminate |].
          intros (e & kw & Hsp' & _).
          apply alerts_lang_cfg_speaks in Hsp' as [He Ht]. congruence.
      + split; [discriminate |].
        intros (e & kw & Hsp' & _).
        apply alerts_lang_cfg_speaks in Hsp' as [He _]. congruence. }
  assert (Hnone : detect text language = None <->
                  ~ exists e kw,
                      speaks_for _ALERTS_CONFIG language e /\
                      In kw (keywords_of e) /\
                      case_insensitive_substring lower kw text).
  { split.
    - intros Hn (e & kw & Hsp & Hin & Hc).
      assert (detect text language = Some (message_of e)) as Habs; [| congruence].
      apply Hsome. now exists e, kw.
    - intros Hno. destruct (detect text language) as [m|] eqn:Hd; [| reflexivity].
      exfalso. apply Hno.
      destruct (proj1 (Hsome m) eq_refl) as (e & kw & Hsp & Hin & Hc & _).
      now exists e, kw. }
  split; [exact Hsome |]. split; [exact Hnone |]. split.
  - intros e He Hne Hk. apply Hnone.
    intros (e' & kw & [Hne' [Hown | [_ Hno]]] & Hin & _).
    + assert (e' = e) as -> by congruence.
      unfold keywords_of in Hin. rewrite Hk in Hin. destruct Hin.
    + apply Hne, (Hno e He).
  - intros ->. unfold _detect_alert_message. now rewrite bool_decide_eq_true_2.
Qed.

(** *** The FAQ examples *)

Lemma strip_of_field (v : option json_text) :
  strip_of (default (Text "") v) =
  match v with
  | Some NotText => Exception
  | _ => Normal (field_text v)
  end.
Proof. destruct v as [[s|]|]; reflexivity. Qed.

Lemma well_formed_eq (q a : option json_text) :
  well_formed {| item_question := q; item_answer := a |} =
  truthy (field_text q) && truthy (field_text a).
Proof. reflexivity. Qed.

Lemma faq_examples_of_filter items :
  faq_examples_of items =
  if forallb string_fields items
  then Normal (map render_example (List.filter well_formed items))
  else Exception.
Proof.
  induction items as [|item rest IH]; [reflexivity |].
  cbn [faq_examples_of List.filter forallb]. rewrite !strip_of_field, IH.
  destruct item as [q a]. rewrite well_formed_eq.
  cbn [item_question item_answer].
  destruct q as [[q|]|], a as [[a|]|];
    cbn [string_fields field_text item_question item_answer andb truthy negb orb];
    try reflexivity;
    (destruct (forallb string_fields rest); [| reflexivity]);
    repeat match goal with
           | |- context [truthy ?x] => destruct (truthy x)
           end; reflexivity.
Qed.

Lemma example_block_truthy items block :
  example_block items = Some block -> truthy block = true.
Proof.
  destruct items as [|item rest]; [discriminate |].
  unfold example_block. cbn [map]. intros H. injection H as H. subst block.
  destruct (map render_example rest); reflexivity.
Qed.

Lemma build_faq_text_eq language :
  _build_faq_text _FAQ_DATA language =
  if forallb string_fields (take 3 (faq_table _FAQ_DATA language))
  then Normal (example_block (examples_used (faq_table _FAQ_DATA language)))
  else Exception.
Proof.
  assert (Hdata : forall lang_data : list faq_item,
             (if negb (list_truthy lang_data) then Normal None
              else
                match faq_examples_of (take 3 lang_data) with
                | Normal examples =>
                    if negb (list_truthy examples) then Normal None
                    else Normal (Some (join nl examples))
                | Exception => Exception
                end) =
             if forallb string_fields (take 3 lang_data)
             then Normal (example_block (examples_used lang_data))
             else Exception).
  { intros [|item l]; [reflexivity |]. cbn [list_truthy negb].
    rewrite faq_examples_of_filter. unfold examples_used, example_block.
    destruct (forallb string_fields (take 3 (item :: l))); [| reflexivity].
    destruct (List.filter well_formed (take 3 (item :: l))); reflexivity. }
  unfold _build_faq_text, faq_lang_data, faq_table.
  destruct (_FAQ_DATA !! language) as [lst|].
  - destruct (list_truthy lst) eqn:Hl; [apply Hdata |].
    destruct (_FAQ_DATA !! "es"); [apply Hdata | reflexivity].
  - destruct (_FAQ_DATA !! "es"); [apply Hdata | reflexivity].
Qed.

(** C5 (amended): the example block of a language is made of exactly the
    well-formed pairs among the first three entries of its table, rendered
    in order, and there is no block when no pair is left; the table is
    the list of the language when that list is not empty and otherwise
    the list of Spanish, code "es", whatever the default language of the
    settings; entries beyond the third are never used; when one of the
    first three entries holds a question or an answer that is not a
    string, building the block raises; the block, when there is one, is
    written into the system prompt under the examples header. *)
Theorem build_faq_text_spec language :
  let table := faq_table _FAQ_DATA language in
  table = match _FAQ_DATA !! language with
          | Some (item :: items) => item :: items
          | _ => default [] (_FAQ_DATA !! "es")
          end /\
  (forallb string_fields (take 3 table) = true ->
   _build_faq_text _FAQ_DATA language =
   Normal (example_block (List.filter well_formed (take 3 table)))) /\
  (forallb string_fields (take 3 table) = false ->
   _build_faq_text _FAQ_DATA language = Exception) /\
  (forall faq' : gmap string (list faq_item),
      take 3 (faq_table faq' language) = take 3 table ->
      _build_faq_text faq' language = _build_faq_text _FAQ_DATA language) /\
  (forall block alert_hint,
      _build_faq_text _FAQ_DATA language = Normal (Some block) ->
      exists before after,
        build_system_prompt language alert_hint (Some block) =
        before +:+ nl +:+ nl +:+ "Ejemplos de respuestas apropiadas:" +:+ nl +:+
        strip block +:+ after).
Proof.
  cbv zeta. split; [| split; [| split; [| split]]].
  - unfold faq_table. destruct (_FAQ_DATA !! language) as [[|item items]|]; reflexivity.
  - intros H. now rewrite build_faq_text_eq, H.
  - intros H. now rewrite build_faq_text_eq, H.
  - intros faq' H. unfold _build_faq_text, faq_lang_data.
    unfold faq_table in H.
    assert (Hdata : forall l1 l2 : list faq_item,
               take 3 l1 = take 3 l2 ->
               (if negb (list_truthy l1) then Normal None
                else
                  match faq_examples_of (take 3 l1) with
                  | Normal examples =>
                      if negb (list_truthy examples) then Normal None
                      else Normal (Some (join nl examples))
                  | Exception => Exception
                  end) =
               (if negb (list_truthy l2) then Normal None
                else
                  match faq_examples_of (take 3 l2) with
                  | Normal examples =>
                      if negb (list_truthy examples) then Normal None
                      else Normal (Some (join nl examples))
                  | Exception => Exception
                  end)).
    { intros l1 l2 H12. rewrite H12.
      destruct l1 as [|x1 l1], l2 as [|x2 l2]; try reflexivity; discriminate. }
    assert (Hnone : forall l : list faq_item,
               take 3 l = [] ->
               (if negb (list_truthy l) then Normal None
                else
                  match faq_examples_of (take 3 l) with
                  | Normal examples =>
                      if negb (list_truthy examples) then Normal None
                      else Normal (Some (join nl examples))
                  | Exception => Exception
                  end) = @Normal (option string) None).
    { intros [|x l]; [reflexivity | discriminate]. }
    destruct (faq' !! language) as [l1|];
      [destruct (list_truthy l1) |];
      (destruct (_FAQ_DATA !! language) as [l2|];
       [destruct (list_truthy l2) |]);
      repeat match goal with
             | |- context [faq' !! "es"] => destruct (faq' !! "es")
             | |- context [_FAQ_DATA !! "es"] => destruct (_FAQ_DATA !! "es")
             end;
      cbn [default from_option id] in H;
      try (apply Hdata; exact H);
      try reflexivity;
      try (apply Hnone; exact H);
      try (symmetry; apply Hnone; symmetry; exact H).
  - intros block alert_hint Hsome. rewrite build_faq_text_eq in Hsome.
    destruct (forallb string_fields _); [| discriminate].
    injection Hsome as Hsome. apply example_block_truthy in Hsome.
    unfold build_system_prompt. rewrite Hsome. cbv zeta.
    generalize (strip (dedent (base_template (default "Español" (LANG_LABELS language))))).
    generalize (strip (dedent alert_template)).
    intros alert_block base. destruct alert_hint.
    + exists base, alert_block. now rewrite !str_app_assoc.
    + exists base, "". now rewrite !str_app_nil_r.
Qed.

(** *** Post-processing of the backend answer *)

(** The short disclaimers are not empty and hold no line feed. *)
Lemma short_disclaimer_facts language :
  truthy (get_short_disclaimer language) = true /\
  has_char "010" (get_short_disclaimer language) = false.
Proof.
  unfold get_short_disclaimer, MESSAGES.
  destruct (String.eqb language "es"); [vm_compute; auto |].
  destruct (String.eqb language "qu"); [vm_compute; auto |].
  destruct (String.eqb language "shp"); vm_compute; auto.
Qed.

Lemma reply_of_failed language r :
  backend_failed r = true -> reply_of language r = fallback +:+ get_disclaimer language.
Proof.
  destruct r as [|response_text]; [reflexivity |].
  cbn [backend_failed reply_of]. unfold post_process. now intros ->.
Qed.

Lemma reply_of_answer language response_text :
  truthy (strip (default "" response_text)) = true ->
  let t := strip (default "" response_text) in
  let disc := get_short_disclaimer language in
  reply_of language (Returned response_text) =
  if contains disc t then t else t +:+ nl +:+ nl +:+ disc.
Proof.
  intros Ht. cbn [reply_of]. unfold post_process. rewrite Ht. cbn [negb].
  destruct (contains _ _); reflexivity.
Qed.

(** *** The one-shot alert *)

Lemma hint_of_shown user_text ud :
  alert_already_shown ud = true -> hint_of user_text ud = false.
Proof.
  intros H. unfold risk_flag. rewrite H.
  destruct (detect _ _); [apply andb_false_r | reflexivity].
Qed.

(** C2 (amended): when a chat message makes the detector return a
    warning message that is not empty and the alert flag is false, the
    handler first calls [reply_text] with that message on its own.  When
    that call raises the handler ends there, with the store as it was.
    When it returns, the handler sets the flag and composes the prompt
    with the risk flag set: it calls the backend with that prompt and
    sends the reply, and when the prompt cannot be composed it sends the
    error text instead.  For every chat message processed later in the
    session, whatever came in between, the risk flag is cleared and no
    warning is sent: the handler starts with the call of the backend, on
    the prompt composed with the risk flag cleared, or with the error
    text when the prompt cannot be composed. *)
Theorem alert_gating backend update ud user_text alert_text :
  user_text_of update = Some user_text ->
  LANG_CODES_BY_LABEL user_text = None ->
  detect user_text (language_of ud) = Some alert_text ->
  truthy alert_text = true ->
  alert_already_shown ud = false ->
  let r := handle backend update ud in
  let sorry lang := SendText (get_message lang fallback_error) no_markup in
  hint_of user_text ud = true /\
  (exists rest, trace_of r = SendText alert_text no_markup :: rest) /\
  (replies_ok update 0 = false ->
   r = (Exception, ud, [SendText alert_text no_markup])) /\
  (replies_ok update 0 = true ->
   alert_already_shown (state_of r) = true /\
   (forall contents,
       compose user_text (language_of ud) true (stored_history ud) = Normal contents ->
       exists reply,
         trace_of r =
         [SendText alert_text no_markup; InvokeBackend contents; SendText reply no_markup] ++
         (if replies_ok update 1 then [] else [sorry (language_of ud)])) /\
   (compose user_text (language_of ud) true (stored_history ud) = Exception ->
    trace_of r = [SendText alert_text no_markup; sorry (language_of ud)]) /\
   (forall updates backend' update' user_text',
       user_text_of update' = Some user_text' ->
       LANG_CODES_BY_LABEL user_text' = None ->
       let ud' := state_of (run_all updates (state_of r)) in
       let r' := handle backend' update' ud' in
       hint_of user_text' ud' = false /\
       (forall contents',
           compose user_text' (language_of ud') false (stored_history ud') =
             Normal contents' ->
           exists reply',
             trace_of r' =
             [InvokeBackend contents'; SendText reply' no_markup] ++
             (if replies_ok update' 0 then [] else [sorry (language_of ud')])) /\
       (compose user_text' (language_of ud') false (stored_history ud') = Exception ->
        trace_of r' = [sorry (language_of ud')]))).
Proof.
  intros Ht Hl Hd Hm Hf r sorry.
  assert (Hhint : hint_of user_text ud = true).
  { unfold risk_flag. now rewrite Hd, Hm, Hf. }
  assert (Hraise : replies_ok update 0 = false ->
                   r = (Exception, ud, [SendText alert_text no_markup])).
  { intros Hno. subst r. rewrite (handle_chat_unwarned _ _ _ _ Ht Hl Hhint Hno), Hd.
    reflexivity. }
  assert (Hreturn : replies_ok update 0 = true ->
                    handle backend update ud =
                    match compose user_text (language_of ud) true (stored_history ud) with
                    | Normal contents =>
                        let reply := reply_of (language_of ud) (backend contents) in
                        (if replies_ok update 1 then Normal tt
                         else if replies_ok update 2 then Normal tt else Exception,
                         {| ud_language := ud_language ud;
                            ud_history :=
                              Some (last_n 10 (stored_history ud ++
                                               [user_turn user_text; assistant_turn reply]));
                            ud_alert_shown := Some true |},
                         [SendText alert_text no_markup] ++
                         [InvokeBackend contents; SendText reply no_markup] ++
                         (if replies_ok update 1 then [] else [sorry (language_of ud)]))
                    | Exception =>
                        (if replies_ok update 1 then Normal tt else Exception,
                         {| ud_language := ud_language ud;
                            ud_history := ud_history ud;
                            ud_alert_shown := Some true |},
                         [SendText alert_text no_markup] ++ [sorry (language_of ud)])
                    end).
  { intros Hok.
    assert (Heq := handle_chat backend update ud user_text Ht Hl (fun _ => Hok)).
    cbv zeta in Heq. rewrite Hhint, Hd in Heq. cbn [default from_option id length] in Heq.
    exact Heq. }
  split; [exact Hhint |]. split; [| split; [exact Hraise |]].
  - destruct (replies_ok update 0) eqn:Hok.
    + subst r. rewrite (Hreturn eq_refl).
      destruct (compose user_text (language_of ud) true (stored_history ud));
        eexists; reflexivity.
    + rewrite (Hraise eq_refl). eexists. reflexivity.
  - intros Hok. specialize (Hreturn Hok).
    assert (Hr : alert_already_shown (state_of r) = true).
    { subst r. rewrite Hreturn.
      destruct (compose user_text (language_of ud) true (stored_history ud)); reflexivity. }
    split; [exact Hr |]. split; [| split].
    + intros contents Hc. subst r. rewrite Hreturn, Hc. eexists. reflexivity.
    + intros Hc. subst r. rewrite Hreturn, Hc. reflexivity.
    + intros updates backend' update' user_text' Ht' Hl' ud' r'.
      assert (Hshown : alert_already_shown ud' = true)
        by (apply run_keeps_alert_shown, Hr).
      assert (Hh' : hint_of user_text' ud' = false) by (apply hint_of_shown, Hshown).
      assert (Heq' := handle_chat backend' update' ud' user_text' Ht' Hl').
      cbv zeta in Heq'. rewrite Hh' in Heq'. cbn [length app] in Heq'.
      specialize (Heq' ltac:(discriminate)).
      split; [exact Hh' |]. split.
      * intros contents' Hc. subst r'. rewrite Heq', Hc. eexists. reflexivity.
      * intros Hc. subst r'. rewrite Heq', Hc. reflexivity.
Qed.

(** *** Determinism of the prompt *)

(** C9: the prompt is a function of the language, the risk flag, the FAQ
    examples, the history and the message alone.  Two calls that agree on
    these do the same, whatever the backend answers, whatever the rest of
    the FAQ table holds and whatever state they run in: when the examples
    can be built both hand the same byte-identical text to the backend,
    the prompt composed from these arguments, and when they cannot both
    raise before any call; and composing the prompt changes no state. *)
Theorem prompt_composition_deterministic
    {S1 S2} (faq1 faq2 : gmap string (list faq_item))
    (backend1 backend2 : string -> backend_result) (s1 : S1) (s2 : S2)
    user_message language alert_hint history :
  _build_faq_text faq1 language = _build_faq_text faq2 language ->
  let r1 := generate_response faq1 backend1 user_message language alert_hint history s1 in
  let r2 := generate_response faq2 backend2 user_message language alert_hint history s2 in
  compose_contents faq1 user_message language alert_hint history =
  compose_contents faq2 user_message language alert_hint history /\
  trace_of r1 = trace_of r2 /\
  state_of r1 = s1 /\
  state_of r2 = s2 /\
  (forall faq_examples,
      _build_faq_text faq1 language = Normal faq_examples ->
      let prompt :=
        contents_of (build_system_prompt language alert_hint faq_examples)
          user_message language history in
      trace_of r1 = [InvokeBackend prompt] /\
      trace_of r2 = [InvokeBackend prompt]) /\
  (_build_faq_text faq1 language = Exception ->
   trace_of r1 = [] /\ trace_of r2 = [] /\
   result_of r1 = Exception /\ result_of r2 = Exception).
Proof.
  intros H12 r1 r2. subst r1 r2.
  unfold generate_response, compose_contents. rewrite <- H12.
  destruct (_build_faq_text faq1 language) as [faq_examples|].
  - unfold normally, bind, emit, ret.
    destruct (backend1 _) as [|t1]; [| destruct (post_process language t1)];
      (destruct (backend2 _) as [|t2]; [| destruct (post_process language t2)]);
      cbn [trace_of state_of result_of fst snd app];
      (split; [reflexivity |]); (split; [reflexivity |]); (split; [reflexivity |]);
      (split; [reflexivity |]);
      (split; [intros faq_examples' [= <-]; split; reflexivity | discriminate]).
  - unfold raise. cbn [trace_of state_of result_of fst snd].
    repeat split; discriminate.
Qed.

(** *** The turns of a session have text

    The texts the handler stores are never empty: the guard of
    [generate_response] on turns without text does not fire on the
    history of a session. *)

Lemma user_text_of_has_text update user_text :
  user_text_of update = Some user_text -> truthy (strip user_text) = true.
Proof.
  unfold user_text_of. destruct (upd_message update) as [message|]; [| discriminate].
  cbv zeta.
  generalize (or_str (msg_text message) (or_str (msg_caption message) "")). intros raw.
  destruct (truthy (strip raw)) eqn:Hraw; cbn [negb andb].
  - rewrite Hraw. cbn [negb]. intros [= <-]. now rewrite strip_idem.
  - destruct (msg_photo message).
    + intros [= <-]. reflexivity.
    + rewrite Hraw. discriminate.
Qed.

Lemma short_disclaimer_kept (language : string) :
  rstrip (nl +:+ nl +:+ get_short_disclaimer language) =
    nl +:+ nl +:+ get_short_disclaimer language /\
  truthy (nl +:+ nl +:+ get_short_disclaimer language) = true.
Proof.
  unfold get_short_disclaimer, MESSAGES.
  destruct (String.eqb language "es"); [vm_compute; auto |].
  destruct (String.eqb language "qu"); [vm_compute; auto |].
  destruct (String.eqb language "shp"); vm_compute; auto.
Qed.

(** A stripped answer followed by a blank line and the short
    disclaimer is stripped. *)
Lemma strip_answer (language raw : string) :
  truthy (strip raw) = true ->
  strip (strip raw +:+ nl +:+ nl +:+ get_short_disclaimer language) =
  strip raw +:+ nl +:+ nl +:+ get_short_disclaimer language.
Proof.
  intros Ht. destruct (short_disclaimer_kept language) as [Hr Hn].
  assert (Hl : lstrip (strip raw) = strip raw) by (unfold strip; apply lstrip_idem).
  rewrite strip_app; [now rewrite Hl, Hr | now rewrite Hl | now rewrite Hr | reflexivity].
Qed.

Lemma reply_of_has_text language r : truthy (strip (reply_of language r)) = true.
Proof.
  assert (Hfallback : truthy (strip (fallback +:+ get_disclaimer language)) = true).
  { unfold get_disclaimer, get_message, MESSAGES.
    destruct (String.eqb language "es"); [reflexivity |].
    destruct (String.eqb language "qu"); [reflexivity |].
    destruct (String.eqb language "shp"); reflexivity. }
  destruct r as [|response_text]; [exact Hfallback |].
  destruct (truthy (strip (default "" response_text))) eqn:Ht.
  - rewrite (reply_of_answer language response_text Ht).
    destruct (contains _ _).
    + now rewrite strip_idem.
    + rewrite strip_answer by exact Ht. now apply truthy_app_l.
  - rewrite reply_of_failed; [exact Hfallback |].
    cbn [backend_failed]. now rewrite Ht.
Qed.

Lemma appended_turns_shape (i : incoming) (t : list event) :
  appended_turns i t = [] \/
  exists update backend user_text reply,
    i = Text_or_photo update backend /\
    user_text_of update = Some user_text /\
    answer_of t = Some reply /\
    appended_turns i t = [user_turn user_text; assistant_turn reply].
Proof.
  unfold appended_turns.
  destruct i as [u|u|u|u backend]; auto.
  destruct (user_text_of u) as [user_text|] eqn:Ht; auto.
  destruct (answer_of t) as [reply|] eqn:Ha; auto.
  right. now exists u, backend, user_text, reply.
Qed.

(** The reply a step stores is the one [generate_response] gave. *)
Lemma step_answer i ud reply :
  answer_of (trace_of (step i ud)) = Some reply ->
  exists language r, reply = reply_of language r.
Proof.
  step_cases i ud; cbv zeta; cbn [trace_of snd].
  - destruct (upd_message u); [| discriminate]. cbn [until_raise].
    destruct (replies_ok u 0); [| discriminate].
    destruct (replies_ok u 1); [| discriminate].
    destruct (replies_ok u 2); discriminate.
  - destruct (upd_message u); discriminate.
  - destruct (upd_message u); discriminate.
  - discriminate.
  - discriminate.
  - destruct (compose user_text (language_of ud) (hint_of user_text ud) (stored_history ud))
      as [contents|]; cbv zeta; cbn [trace_of snd].
    + rewrite answer_of_calls by (destruct (hint_of user_text ud); reflexivity).
      intros [= <-]. eauto.
    + rewrite answer_of_no_call by (destruct (hint_of user_text ud); reflexivity).
      discriminate.
  - discriminate.
Qed.

Lemma appended_turns_have_text i ud :
  Forall (fun t => has_text t = true) (appended_turns i (trace_of (step i ud))).
Proof.
  destruct (appended_turns_shape i (trace_of (step i ud)))
    as [-> | (u & backend & user_text & reply & -> & Ht & Ha & ->)]; [constructor |].
  destruct (step_answer _ _ _ Ha) as (language & r & ->).
  repeat constructor.
  - apply (user_text_of_has_text _ _ Ht).
  - apply reply_of_has_text.
Qed.

Lemma conversation_has_text updates : forall ud,
  Forall (fun t => has_text t = true) (conversation_of updates ud).
Proof.
  induction updates as [|i rest IH]; intros ud; cbn [conversation]; [constructor |].
  apply Forall_app. split; [apply appended_turns_have_text | apply IH].
Qed.

(** In a session every stored turn has text, so none of its last six
    entries is left out of the prompt. *)
Lemma session_history_has_text updates :
  let history := stored_history (state_of (run_all updates fresh_user_data)) in
  Forall (fun t => has_text t = true) history /\
  List.filter has_text (last_n 6 history) = last_n 6 history.
Proof.
  cbv zeta.
  assert (H : Forall (fun t => has_text t = true)
                (stored_history (state_of (run_all updates fresh_user_data)))).
  { rewrite run_history by (cbn; lia). apply Forall_drop, conversation_has_text. }
  split; [exact H |].
  apply (Forall_drop _ (length (stored_history
                                  (state_of (run_all updates fresh_user_data))) - 6)) in H.
  fold (last_n 6 (stored_history (state_of (run_all updates fresh_user_data)))) in H.
  induction H as [|t l Ht _ IH]; [reflexivity |].
  cbn [List.filter]. now rewrite Ht, IH.
Qed.

Lemma load_settings_valid (env : option string) :
  is_language_code (default_language (load_settings lower env)) = true.
Proof.
  unfold load_settings. cbn [default_language].
  destruct (is_language_code (lower (default "es" env))) eqn:H; [exact H | reflexivity].
Qed.

End Orchestrator.
(** ** The shape of the prompt *)

Section PromptShape.
Import PyStr Settings Language Prompts Effects GeminiClient TelegramBot Observations.

Variable _FAQ_DATA : gmap string (list faq_item).

Lemma base_prompt_shape (lang_label : string) :
  In lang_label ["Español"; "Quechua"; "Shipibo-Konibo"] ->
  exists rest,
    strip (dedent (base_template lang_label)) =
    prompt_first_line +:+ nl +:+ prompt_second_line +:+ nl +:+ rest.
Proof.
  intros Hin.
  exists (drop_chars
            (String.length (prompt_first_line +:+ nl +:+ prompt_second_line +:+ nl))
            (strip (dedent (base_template lang_label)))).
  destruct Hin as [<- | [<- | [<- | []]]]; vm_compute; reflexivity.
Qed.

Lemma lang_label_cases (language : string) :
  In (default "Español" (LANG_LABELS language)) ["Español"; "Quechua"; "Shipibo-Konibo"].
Proof.
  unfold LANG_LABELS.
  destruct (String.eqb language "es"); [cbn; auto |].
  destruct (String.eqb language "qu"); [cbn; auto |].
  destruct (String.eqb language "shp"); cbn; auto.
Qed.

(** Every system prompt starts with the same two lines, the second of
    which starts at the first column. *)
Lemma system_prompt_shape language alert_hint faq_examples :
  exists rest,
    build_system_prompt language alert_hint faq_examples =
    prompt_first_line +:+ nl +:+ prompt_second_line +:+ nl +:+ rest.
Proof.
  unfold build_system_prompt.
  destruct (base_prompt_shape _ (lang_label_cases language)) as [rest ->].
  assert (Hfaq : exists rest1,
             match faq_examples with
             | Some faq =>
                 if truthy faq
                 then (prompt_first_line +:+ nl +:+ prompt_second_line +:+ nl +:+ rest) +:+
                      nl +:+ nl +:+ "Ejemplos de respuestas apropiadas:" +:+ nl +:+ strip faq
                 else prompt_first_line +:+ nl +:+ prompt_second_line +:+ nl +:+ rest
             | None => prompt_first_line +:+ nl +:+ prompt_second_line +:+ nl +:+ rest
             end = prompt_first_line +:+ nl +:+ prompt_second_line +:+ nl +:+ rest1).
  { destruct faq_examples as [faq|]; [destruct (truthy faq) |];
      rewrite ?str_app_assoc; eauto. }
  cbv zeta. destruct Hfaq as [rest1 ->].
  destruct alert_hint; rewrite ?str_app_assoc; eauto.
Qed.

(** The two templates, cut at the blank line that follows the system
    prompt. *)
Lemma contents_template_history_cut system_prompt lines language user_message :
  contents_template_history system_prompt (join nl lines) language user_message =
  ("
            " +:+ system_prompt) +:+ nl +:+ nl +:+
  history_and_message language lines user_message +:+ nl +:+ "            ".
Proof.
  unfold contents_template_history, history_and_message.
  rewrite !str_app_assoc. reflexivity.
Qed.

Lemma contents_template_plain_cut system_prompt language user_message :
  contents_template_plain system_prompt language user_message =
  ("
            " +:+ system_prompt) +:+ nl +:+ nl +:+
  message_only language user_message +:+ nl +:+ "            ".
Proof.
  unfold contents_template_plain, message_only.
  rewrite !str_app_assoc. reflexivity.
Qed.

(** [dedent] and [strip] on a template: the margin is empty because of
    the second line of the system prompt, so [dedent] only empties blank
    lines; [strip] then removes the indentation before the system prompt
    and the white space after the last block. *)
Lemma strip_dedent_template (system_prompt rest block bp z : string) :
  system_prompt = prompt_first_line +:+ nl +:+ prompt_second_line +:+ nl +:+ rest ->
  block = bp +:+ z ->
  has_char "010" bp = false -> all_blank bp = false -> truthy (rstrip bp) = true ->
  starts_code_point bp = true -> ends_ascii bp = true ->
  strip (dedent (("
            " +:+ system_prompt) +:+ nl +:+ nl +:+ block +:+ nl +:+ "            ")) =
  prompt_start system_prompt +:+ nl +:+ nl +:+ rstrip (blank_ws_lines block).
Proof.
  intros Hsys Hblock Hnl Hbl Hrs Hstart Hend.
  (* the margin *)
  assert (Hded :
    dedent (("
            " +:+ system_prompt) +:+ nl +:+ nl +:+ block +:+ nl +:+ "            ") =
    blank_ws_lines (("
            " +:+ system_prompt) +:+ nl +:+ nl +:+ block +:+ nl +:+ "            ")).
  { rewrite Hsys.
    replace (("
            " +:+ prompt_first_line +:+ nl +:+ prompt_second_line +:+ nl +:+ rest) +:+
             nl +:+ nl +:+ block +:+ nl +:+ "            ")
      with (("
            " +:+ prompt_first_line) +:+ nl +:+ prompt_second_line +:+ nl +:+
            (rest +:+ nl +:+ nl +:+ block +:+ nl +:+ "            "))
      by (rewrite !str_app_assoc; reflexivity).
    apply dedent_first_column; reflexivity. }
  rewrite Hded.
  (* line by line *)
  change (nl +:+ block +:+ nl +:+ "            ")
    with ("" +:+ nl +:+ block +:+ nl +:+ "            ").
  rewrite !blank_ws_lines_app_nl.
  change (blank_ws_lines "") with "". change (blank_ws_lines "            ") with "".
  rewrite str_app_nil_l.
  (* the block keeps its first characters *)
  assert (HB : truthy (rstrip (blank_ws_lines block)) = true /\
               starts_code_point (blank_ws_lines block) = true).
  { rewrite Hblock. destruct (blank_ws_lines_prefix bp z Hnl Hbl) as [w ->]. split.
    - now apply truthy_rstrip_app_l.
    - rewrite starts_code_point_app; [exact Hstart |].
      destruct bp; [discriminate | reflexivity]. }
  destruct HB as [HB HBs].
  (* so does the system prompt *)
  assert (HP : truthy (lstrip (blank_ws_lines ("
            " +:+ system_prompt))) = true).
  { rewrite Hsys.
    change ("
            " +:+ prompt_first_line +:+ nl +:+ prompt_second_line +:+ nl +:+ rest)
      with ("" +:+ nl +:+ ("            " +:+ prompt_first_line) +:+
            (nl +:+ prompt_second_line +:+ nl +:+ rest)).
    rewrite blank_ws_lines_app_nl.
    destruct (blank_ws_lines_prefix ("            " +:+ prompt_first_line)
                (nl +:+ prompt_second_line +:+ nl +:+ rest) eq_refl eq_refl) as [w ->].
    change (blank_ws_lines "" +:+ nl +:+ ("            " +:+ prompt_first_line) +:+ w)
      with ((nl +:+ "            " +:+ prompt_first_line) +:+ w).
    rewrite lstrip_app_ascii by reflexivity. apply truthy_app_l. reflexivity. }
  assert (HB1 : truthy (rstrip (blank_ws_lines block +:+ nl +:+ "")) = true).
  { rewrite rstrip_app_ws by reflexivity. exact HB. }
  assert (HB2 : truthy (rstrip (nl +:+ blank_ws_lines block +:+ nl +:+ "")) = true).
  { apply truthy_rstrip_app_r; [exact HB1 |].
    rewrite starts_code_point_app; [exact HBs |].
    destruct (blank_ws_lines block); [discriminate | reflexivity]. }
  rewrite strip_app.
  - unfold prompt_start. f_equal.
    rewrite (rstrip_app nl) by (exact HB2 || reflexivity).
    rewrite (rstrip_app_ascii nl) by (exact HB1 || reflexivity).
    do 2 f_equal. apply rstrip_app_ws. reflexivity.
  - exact HP.
  - apply truthy_rstrip_app_r; [exact HB2 | reflexivity].
  - reflexivity.
Qed.

(** The start of the prompt is the system prompt, normalised. *)
Lemma prompt_start_eq system_prompt rest :
  system_prompt = prompt_first_line +:+ nl +:+ prompt_second_line +:+ nl +:+ rest ->
  prompt_start system_prompt = blank_ws_lines system_prompt.
Proof.
  intros ->. unfold prompt_start.
  change ("
            " +:+ prompt_first_line +:+ nl +:+ prompt_second_line +:+ nl +:+ rest)
    with ("" +:+ nl +:+ ("            " +:+ prompt_first_line) +:+ nl +:+
          (prompt_second_line +:+ nl +:+ rest)).
  rewrite (blank_ws_lines_app_nl "").
  rewrite (blank_ws_lines_app_nl ("            " +:+ prompt_first_line)).
  rewrite (blank_ws_lines_app_nl prompt_first_line).
  change (blank_ws_lines "") with "".
  change (blank_ws_lines ("            " +:+ prompt_first_line))
    with ("            " +:+ prompt_first_line).
  change (blank_ws_lines prompt_first_line) with prompt_first_line.
  generalize (blank_ws_lines (prompt_second_line +:+ nl +:+ rest)). intros tail.
  transitivity (lstrip ((nl +:+ "            " +:+ prompt_first_line) +:+ nl +:+ tail));
    [reflexivity |].
  rewrite (lstrip_app_ascii (nl +:+ "            " +:+ prompt_first_line)) by reflexivity.
  reflexivity.
Qed.

Lemma history_lines_of_render (turns : list turn) :
  history_lines_of turns = map render_turn (List.filter has_text turns).
Proof.
  induction turns as [|t turns IH]; [reflexivity |].
  cbn [history_lines_of List.filter]. unfold has_text at 1.
  destruct (truthy (strip (default "" (turn_text t)))); cbn [map]; now rewrite IH.
Qed.

Lemma render_turn_truthy (t : turn) : truthy (render_turn t) = true.
Proof. unfold render_turn. now destruct (String.eqb _ "user"). Qed.

Lemma history_block_truthy (turns : list turn) :
  truthy (join nl (history_lines_of turns)) = list_truthy (history_lines_of turns).
Proof.
  rewrite history_lines_of_render.
  destruct (List.filter has_text turns) as [|t ts]; [reflexivity |].
  cbn [map list_truthy]. destruct (map render_turn ts).
  - apply render_turn_truthy.
  - rewrite join_cons by discriminate. apply truthy_app_l, render_turn_truthy.
Qed.

(** The prompt, for a system prompt that starts with the two lines. *)
Lemma contents_of_eq system_prompt rest user_message language history :
  system_prompt = prompt_first_line +:+ nl +:+ prompt_second_line +:+ nl +:+ rest ->
  contents_of system_prompt user_message language history =
  prompt_start system_prompt +:+ nl +:+ nl +:+
  rstrip (blank_ws_lines
            (prompt_end language (history_lines_of (last_n 6 history)) user_message)).
Proof.
  intros Hsys. unfold contents_of, prompt_end. cbv zeta.
  rewrite history_block_truthy.
  destruct (list_truthy (history_lines_of (last_n 6 history))).
  - rewrite contents_template_history_cut.
    apply (strip_dedent_template system_prompt rest _
             "            Historial breve de la conversación:"
             ("
            " +:+ join nl (history_lines_of (last_n 6 history)) +:+ "

            Mensaje actual de la persona embarazada (idioma: " +:+ language +:+ "):

            " +:+ user_message) Hsys); reflexivity.
  - rewrite contents_template_plain_cut.
    apply (strip_dedent_template system_prompt rest _
             "            Mensaje de la persona embarazada (idioma: "
             (language +:+ "):

            " +:+ user_message) Hsys); reflexivity.
Qed.

(** Tidy lines and a tidy, stripped message under a language code
    without line feed: the end of the prompt is written out unchanged. *)
Lemma prompt_end_tidy language lines user_message :
  has_char "010" language = false ->
  (list_truthy lines = true -> tidy (join nl lines) = true) ->
  tidy user_message = true ->
  rstrip user_message = user_message ->
  rstrip (blank_ws_lines (prompt_end language lines user_message)) =
  prompt_end language lines user_message.
Proof.
  intros Hlang Hlines Hm Hr.
  assert (Hmsg : blank_ws_lines ("            " +:+ user_message) =
                 "            " +:+ user_message)
    by (now apply blank_ws_lines_indented).
  assert (Hrm : truthy user_message = true) by (now apply tidy_truthy).
  assert (Hlabel : forall label, has_char "010" label = false ->
            blank_ws_lines (label +:+ language +:+ "):") = label +:+ language +:+ "):").
  { intros label Hl. rewrite <- str_app_assoc. apply blank_ws_lines_indented.
    - rewrite has_char_app, Hl, Hlang. reflexivity.
    - reflexivity. }
  unfold prompt_end. destruct (list_truthy lines).
  - unfold history_and_message.
    replace ("            Historial breve de la conversación:
            " +:+ join nl lines +:+ "

            Mensaje actual de la persona embarazada (idioma: " +:+ language +:+ "):

            " +:+ user_message)
      with ("            Historial breve de la conversación:" +:+ nl +:+
            ("            " +:+ join nl lines) +:+ nl +:+ "" +:+ nl +:+
            ("            Mensaje actual de la persona embarazada (idioma: " +:+
             language +:+ "):") +:+ nl +:+ "" +:+ nl +:+
            ("            " +:+ user_message))
      by (rewrite !str_app_assoc; reflexivity).
    rewrite !blank_ws_lines_app_nl.
    rewrite Hmsg,
      (Hlabel "            Mensaje actual de la persona embarazada (idioma: " eq_refl).
    rewrite (blank_ws_lines_indented "            " (join nl lines) eq_refl (Hlines eq_refl)).
    change (blank_ws_lines "") with "".
    change (blank_ws_lines "            Historial breve de la conversación:")
      with "            Historial breve de la conversación:".
    match goal with
    | |- rstrip ?t = ?t => apply (proj1 (B := truthy t = true))
    end.
    repeat (apply rstrip_kept_step; [| (left; reflexivity) || (right; reflexivity)]).
    now split.
  - unfold message_only.
    replace ("            Mensaje de la persona embarazada (idioma: " +:+ language +:+ "):

            " +:+ user_message)
      with (("            Mensaje de la persona embarazada (idioma: " +:+
             language +:+ "):") +:+ nl +:+ "" +:+ nl +:+
            ("            " +:+ user_message))
      by (rewrite !str_app_assoc; reflexivity).
    rewrite !blank_ws_lines_app_nl.
    rewrite Hmsg,
      (Hlabel "            Mensaje de la persona embarazada (idioma: " eq_refl).
    change (blank_ws_lines "") with "".
    match goal with
    | |- rstrip ?t = ?t => apply (proj1 (B := truthy t = true))
    end.
    repeat (apply rstrip_kept_step; [| (left; reflexivity) || (right; reflexivity)]).
    now split.
Qed.

Lemma filter_has_text (turns : list turn) :
  Forall (fun t => has_text t = true) turns -> List.filter has_text turns = turns.
Proof.
  induction 1 as [|t l Ht _ IH]; [reflexivity |].
  cbn [List.filter]. now rewrite Ht, IH.
Qed.

(** C6 (amended): for a history in which every turn has text, as every
    history of a session is, the composed prompt is the system prompt, in
    which [dedent] has emptied the lines made of spaces and tabs, followed
    by a blank line and the end of the prompt.  The end of the prompt is,
    for a history that is not empty, the history header, the last six
    entries of the history, each rendered as a labelled line
    ("Person: ..." for user turns, "Piribot: ..." otherwise), oldest first,
    and the message under its label naming the language; for the empty
    history it is the labelled message alone.  In the end of the prompt
    [dedent] has emptied the lines made of spaces and tabs and [strip] has
    removed trailing white space; for tidy lines and a tidy, stripped
    message it is written out unchanged. *)
Theorem history_block_in_prompt
    (lower : string -> string) (settings : Settings) (alerts : gmap string alert_entry)
    language alert_hint history user_message faq_examples :
  _build_faq_text _FAQ_DATA language = Normal faq_examples ->
  Forall (fun t => has_text t = true) history ->
  let lines := map render_turn (last_n 6 history) in
  let system_prompt := build_system_prompt language alert_hint faq_examples in
  let prompt_is (prompt_end : string) :=
    compose_contents _FAQ_DATA user_message language alert_hint history =
    Normal (blank_ws_lines system_prompt +:+ nl +:+ nl +:+ prompt_end) in
  prompt_is (rstrip (blank_ws_lines (prompt_end language lines user_message))) /\
  (history <> [] ->
   prompt_end language lines user_message =
   history_and_message language lines user_message) /\
  (history = [] ->
   prompt_end language lines user_message = message_only language user_message) /\
  (has_char "010" language = false ->
   (list_truthy lines = true -> tidy (join nl lines) = true) ->
   tidy user_message = true ->
   rstrip user_message = user_message ->
   prompt_is (prompt_end language lines user_message)) /\
  (forall updates,
      Forall (fun t => has_text t = true)
        (stored_history
           (state_of (run lower settings alerts _FAQ_DATA updates fresh_user_data)))).
Proof.
  intros Hfaq Htext lines system_prompt prompt_is.
  destruct (system_prompt_shape language alert_hint faq_examples) as [rest Hshape].
  fold system_prompt in Hshape.
  assert (Hlines : history_lines_of (last_n 6 history) = lines).
  { rewrite history_lines_of_render, filter_has_text; [reflexivity |].
    now apply Forall_drop. }
  assert (Heq : prompt_is (rstrip (blank_ws_lines (prompt_end language lines user_message)))).
  { unfold prompt_is, compose_contents. rewrite Hfaq. fold system_prompt.
    rewrite (contents_of_eq system_prompt rest _ _ _ Hshape).
    rewrite (prompt_start_eq system_prompt rest Hshape).
    now rewrite Hlines. }
  split; [exact Heq |]. split; [| split; [| split]].
  - intros Hne. unfold prompt_end.
    assert (Hl : list_truthy lines = true); [| now rewrite Hl].
    subst lines. unfold last_n.
    destruct history as [|t h]; [contradiction |].
    destruct (drop (length (t :: h) - 6) (t :: h)) as [|t' l'] eqn:Hd; [| reflexivity].
    apply (f_equal length) in Hd. rewrite length_drop in Hd. cbn [length] in Hd. lia.
  - intros ->. reflexivity.
  - intros Hlang Htidy Hm Hr. unfold prompt_is in *.
    now rewrite Heq, prompt_end_tidy.
  - intros updates.
    apply (session_history_has_text lower settings alerts _FAQ_DATA updates).
Qed.

End PromptShape.

(** ** Configuration: language tables, settings, keyboard and data files *)

Section Configuration.
Import PyStr Settings Language Prompts Effects GeminiClient TelegramBot Observations.

Lemma is_language_code_cases (code : string) :
  is_language_code code = true <-> code = "es" \/ code = "qu" \/ code = "shp".
Proof.
  unfold is_language_code.
  destruct (String.eqb_spec code "es") as [->|H1]; [cbn; tauto |].
  destruct (String.eqb_spec code "qu") as [->|H2]; [cbn; tauto |].
  destruct (String.eqb_spec code "shp") as [->|H3]; [cbn; tauto |].
  cbn. split; [discriminate | tauto].
Qed.

Lemma MESSAGES_language_code (lang : string) :
  MESSAGES lang <> None <-> is_language_code lang = true.
Proof.
  unfold MESSAGES, is_language_code.
  destruct (String.eqb lang "es"); [cbn; split; [reflexivity | discriminate] |].
  destruct (String.eqb lang "qu"); [cbn; split; [reflexivity | discriminate] |].
  destruct (String.eqb lang "shp"); cbn; split; try reflexivity; try discriminate.
  congruence.
Qed.

Lemma get_message_truthy (lang : string) (key : MessageKey) :
  truthy (get_message lang key) = true.
Proof.
  unfold get_message, MESSAGES.
  destruct (String.eqb lang "es"); [destruct key; reflexivity |].
  destruct (String.eqb lang "qu"); [destruct key; reflexivity |].
  destruct (String.eqb lang "shp"); destruct key; reflexivity.
Qed.

(** X1: [get_message] never returns an empty text, for any language
    string and any key, and a language that is not one of the three codes
    gets the Spanish text of the key. *)
Theorem get_message_total (lang : string) (key : MessageKey) :
  truthy (get_message lang key) = true /\
  (is_language_code lang = false -> get_message lang key = get_message "es" key).
Proof.
  split; [apply get_message_truthy |].
  intros H. unfold get_message.
  destruct (MESSAGES lang) eqn:Hm; [| reflexivity].
  assert (Hn : MESSAGES lang <> None) by congruence.
  apply MESSAGES_language_code in Hn. congruence.
Qed.

(** X2: [LANG_LABELS] and [LANG_CODES_BY_LABEL] are inverse to each
    other, a code has a label exactly when it is a language code, and a
    label is never itself a language code. *)
Theorem labels_and_codes_inverse (code label : string) :
  (LANG_LABELS code = Some label <-> LANG_CODES_BY_LABEL label = Some code) /\
  (is_language_code code = true <-> LANG_LABELS code <> None) /\
  (LANG_CODES_BY_LABEL label <> None -> is_language_code label = false).
Proof.
  split; [| split].
  - unfold LANG_LABELS, LANG_CODES_BY_LABEL. split.
    + destruct (String.eqb_spec code "es") as [->|_]; [intros [= <-]; reflexivity |].
      destruct (String.eqb_spec code "qu") as [->|_]; [intros [= <-]; reflexivity |].
      destruct (String.eqb_spec code "shp") as [->|_]; [intros [= <-]; reflexivity |].
      discriminate.
    + destruct (String.eqb_spec label "Español") as [->|_]; [intros [= <-]; reflexivity |].
      destruct (String.eqb_spec label "Quechua") as [->|_]; [intros [= <-]; reflexivity |].
      destruct (String.eqb_spec label "Shipibo-Konibo") as [->|_];
        [intros [= <-]; reflexivity |].
      discriminate.
  - unfold LANG_LABELS, is_language_code.
    destruct (String.eqb code "es"); [cbn; split; [discriminate | reflexivity] |].
    destruct (String.eqb code "qu"); [cbn; split; [discriminate | reflexivity] |].
    destruct (String.eqb code "shp"); cbn; split; try discriminate; try reflexivity.
    congruence.
  - unfold LANG_CODES_BY_LABEL.
    destruct (String.eqb_spec label "Español") as [->|_]; [reflexivity |].
    destruct (String.eqb_spec label "Quechua") as [->|_]; [reflexivity |].
    destruct (String.eqb_spec label "Shipibo-Konibo") as [->|_]; [reflexivity |].
    congruence.
Qed.

(** X3: the language keyboard is built without error, and its rows are
    one button each; a string is on a button exactly when it is the label
    of a language code, so the buttons are exactly the texts the message
    handler takes for a language choice, and every language code has its
    button. *)
Theorem language_keyboard_buttons :
  exists markup,
    _build_language_keyboard = Some markup /\
    (forall row, In row (keyboard markup) -> exists label, row = [label]) /\
    (forall label,
        In [label] (keyboard markup) <-> LANG_CODES_BY_LABEL label <> None) /\
    (forall code,
        is_language_code code = true <->
        exists label, In [label] (keyboard markup) /\ LANG_CODES_BY_LABEL label = Some code).
Proof.
  eexists. split; [reflexivity |]. cbn [keyboard map].
  assert (Hb : forall label,
             In [label] [["Español"]; ["Quechua"]; ["Shipibo-Konibo"]] <->
             LANG_CODES_BY_LABEL label <> None).
  { intros label. unfold LANG_CODES_BY_LABEL. cbn [In].
    destruct (String.eqb_spec label "Español") as [->|H1];
      [split; [discriminate | auto] |].
    destruct (String.eqb_spec label "Quechua") as [->|H2];
      [split; [discriminate | auto] |].
    destruct (String.eqb_spec label "Shipibo-Konibo") as [->|H3];
      [split; [discriminate | auto] |].
    split; [| congruence].
    intros [[= H] | [[= H] | [[= H] | []]]]; congruence. }
  split; [| split].
  - intros row [<- | [<- | [<- | []]]]; eauto.
  - exact Hb.
  - intros code. rewrite is_language_code_cases. split.
    + intros [-> | [-> | ->]];
        [exists "Español" | exists "Quechua" | exists "Shipibo-Konibo"];
        (split; [cbn; auto | reflexivity]).
    + intros (label & _ & Hl). unfold LANG_CODES_BY_LABEL in Hl.
      destruct (String.eqb label "Español"); [injection Hl as <-; auto |].
      destruct (String.eqb label "Quechua"); [injection Hl as <-; auto |].
      destruct (String.eqb label "Shipibo-Konibo"); [injection Hl as <-; auto |].
      discriminate.
Qed.

Variable lower : string -> string.

Lemma read_env_var_ready environ name value :
  Environment._read_env_var environ name = Environment.Ready value <->
  environ !! name = Some value /\ truthy value = true.
Proof.
  unfold Environment._read_env_var.
  destruct (environ !! name) as [v|]; [| split; [discriminate | intros [[=] _]]].
  destruct (truthy v) eqn:Hv; cbn [negb].
  - split; [intros [= <-]; auto | intros [[= <-] _]; reflexivity].
  - split; [discriminate | intros [[= <-] H]; congruence].
Qed.

Lemma read_env_var_error environ name message :
  Environment._read_env_var environ name = Environment.RuntimeError message ->
  message = "La variable de entorno " +:+ name +:+ " es obligatoria pero no está definida." /\
  (environ !! name = None \/ environ !! name = Some "").
Proof.
  unfold Environment._read_env_var.
  destruct (environ !! name) as [v|]; [| intros [= <-]; auto].
  destruct v; cbn [truthy negb]; [intros [= <-]; auto | discriminate].
Qed.

(** X4: [load_settings] returns settings exactly when the bot token and
    the API key are both set and not empty, and then it returns these two
    values; otherwise it raises, and the message names the bot token when
    that one is missing, whatever the API key is, and the API key only when
    the bot token is there. *)
Theorem load_settings_credentials (environ : gmap string string) :
  let token := environ !! "TELEGRAM_BOT_TOKEN" in
  let key := environ !! "GEMINI_API_KEY" in
  let usable := fun v : option string => truthy (default "" v) in
  (forall s,
      Environment.load_settings lower environ = Environment.Ready s ->
      token = Some (Environment.telegram_bot_token s) /\
      key = Some (Environment.gemini_api_key s) /\
      usable token = true /\ usable key = true) /\
  (usable token = true -> usable key = true ->
   exists s, Environment.load_settings lower environ = Environment.Ready s) /\
  (usable token = false ->
   Environment.load_settings lower environ =
   Environment.RuntimeError
     "La variable de entorno TELEGRAM_BOT_TOKEN es obligatoria pero no está definida.") /\
  (usable token = true -> usable key = false ->
   Environment.load_settings lower environ =
   Environment.RuntimeError
     "La variable de entorno GEMINI_API_KEY es obligatoria pero no está definida.").
Proof.
  cbv zeta. unfold Environment.load_settings, Environment._read_env_var.
  destruct (environ !! "TELEGRAM_BOT_TOKEN") as [t|]; cbn [from_option id truthy].
  - destruct (truthy t) eqn:Ht; cbn [negb].
    + destruct (environ !! "GEMINI_API_KEY") as [k|]; cbn [from_option id truthy].
      * destruct (truthy k) eqn:Hk; cbn [negb].
        -- split; [intros s [= <-]; cbn; auto |].
           split; [eauto |]. split; congruence.
        -- split; [discriminate |]. split; [congruence |].
           split; [congruence | reflexivity].
      * split; [discriminate |]. split; [congruence |].
        split; [congruence | reflexivity].
    + split; [discriminate |]. split; [congruence |].
      split; [reflexivity | congruence].
  - split; [discriminate |]. split; [congruence |].
    split; [reflexivity | congruence].
Qed.

(** X5: whatever [PIRIBOT_DEFAULT_LANGUAGE] holds, the default language
    of loaded settings is one of the three codes: the lower-cased value of
    the variable when that is a code, and Spanish both when it is anything
    else and when the variable is not set and lower-casing leaves [es]
    alone. *)
Theorem load_settings_default_language (environ : gmap string string) s :
  Environment.load_settings lower environ = Environment.Ready s ->
  let chosen := lower (default "es" (environ !! "PIRIBOT_DEFAULT_LANGUAGE")) in
  is_language_code (Environment.default_language s) = true /\
  Environment.default_language s = (if is_language_code chosen then chosen else "es") /\
  Environment.handler_settings s =
    load_settings lower (environ !! "PIRIBOT_DEFAULT_LANGUAGE") /\
  (environ !! "PIRIBOT_DEFAULT_LANGUAGE" = None -> lower "es" = "es" ->
   Environment.default_language s = "es").
Proof.
  unfold Environment.load_settings.
  destruct (Environment._read_env_var environ "TELEGRAM_BOT_TOKEN"); [| discriminate].
  destruct (Environment._read_env_var environ "GEMINI_API_KEY"); [| discriminate].
  intros [= <-]. cbv zeta. cbn [Environment.default_language].
  split; [| split; [reflexivity | split; [reflexivity |]]].
  - destruct (is_language_code (lower _)) eqn:H; [exact H | reflexivity].
  - intros -> Hl. cbn [default]. rewrite Hl. reflexivity.
Qed.

End Configuration.

(** ** The handlers: what every update does *)

Section Handlers.
Import PyStr Settings Language Prompts Effects GeminiClient TelegramBot Observations.

Variable lower : string -> string.
Variable settings : Settings.
Variable _ALERTS_CONFIG : gmap string alert_entry.
Variable _FAQ_DATA : gmap string (list faq_item).

Local Abbreviation detect := (_detect_alert_message lower _ALERTS_CONFIG).
Local Abbreviation handle := (handle_text_message lower settings _ALERTS_CONFIG _FAQ_DATA).
Local Abbreviation step := (dispatch lower settings _ALERTS_CONFIG _FAQ_DATA).
Local Abbreviation run_all := (run lower settings _ALERTS_CONFIG _FAQ_DATA).
Local Abbreviation compose := (compose_contents _FAQ_DATA).
Local Abbreviation language_of := (session_language settings).
Local Abbreviation hint_of := (risk_flag lower settings _ALERTS_CONFIG).
Local Abbreviation chat_eq := (handle_chat lower settings _ALERTS_CONFIG _FAQ_DATA).
Local Abbreviation label_eq := (handle_language_label lower settings _ALERTS_CONFIG _FAQ_DATA).
Local Abbreviation dropped_eq := (handle_dropped lower settings _ALERTS_CONFIG _FAQ_DATA).
Local Abbreviation unwarned_eq := (handle_chat_unwarned lower settings _ALERTS_CONFIG _FAQ_DATA).
Local Abbreviation chat_cases := (handle_chat_cases lower settings _ALERTS_CONFIG).

Lemma session_language_cases (ud : user_data) :
  language_of ud = default_language settings \/
  (ud_language ud = Some (language_of ud) /\ is_language_code (language_of ud) = true).
Proof.
  unfold session_language, _get_user_language, bind, get, ret, result_of.
  destruct (ud_language ud) as [lang|]; [| now left].
  destruct (is_language_code lang) eqn:H; cbn [fst]; auto.
Qed.

(** X6: the language a handler works with is the stored one when that
    is a language code and the default language otherwise; so with a
    default that is a code, and the one of loaded settings always is,
    every handler works with a language code, whatever the store holds,
    and that language has its own table of texts. *)
Theorem session_language_is_code (ud : user_data) :
  (language_of ud = default_language settings \/
   (ud_language ud = Some (language_of ud) /\ is_language_code (language_of ud) = true)) /\
  (is_language_code (default_language settings) = true ->
   is_language_code (language_of ud) = true /\ MESSAGES (language_of ud) <> None) /\
  (forall environ s,
      Environment.load_settings lower environ = Environment.Ready s ->
      is_language_code (session_language (Environment.handler_settings s) ud) = true).
Proof.
  split; [apply session_language_cases |]. split.
  - intros Hd.
    assert (H : is_language_code (language_of ud) = true).
    { destruct (session_language_cases ud) as [-> | [_ H]]; assumption. }
    split; [exact H | now apply MESSAGES_language_code].
  - intros environ s Hs.
    unfold session_language, _get_user_language, bind, get, ret, result_of.
    destruct (ud_language ud) as [lang|];
      [destruct (is_language_code lang) eqn:H; [exact H |] |];
      cbn [fst Environment.handler_settings default_language];
      revert Hs; unfold Environment.load_settings;
      (destruct (Environment._read_env_var environ "TELEGRAM_BOT_TOKEN"); [| discriminate]);
      (destruct (Environment._read_env_var environ "GEMINI_API_KEY"); [| discriminate]);
      intros [= <-]; cbn [Environment.default_language];
      destruct (is_language_code (lower _)) eqn:Hc; auto.
Qed.

(** X7: after [_set_user_language] the language read back is the one
    that was set when it is a language code, and the default language
    when it is not; the history and the alert flag are not touched, and
    setting the same language again changes nothing. *)
Theorem set_then_get_language (lang : string) (ud : user_data) :
  let ud' := state_of (_set_user_language lang ud) in
  language_of ud' = (if is_language_code lang then lang else default_language settings) /\
  ud_history ud' = ud_history ud /\
  ud_alert_shown ud' = ud_alert_shown ud /\
  state_of (_set_user_language lang ud') = ud'.
Proof.
  cbv zeta.
  unfold _set_user_language, session_language, _get_user_language, bind, get, put, ret,
    state_of, result_of.
  cbn [fst snd ud_language ud_history ud_alert_shown].
  destruct (is_language_code lang); auto.
Qed.

(** X8: [/start] stores the default language, whatever language was
    chosen before, and leaves the history and the alert flag alone; it
    never calls the backend; when the update has a message it sends the
    welcome, the invitation to choose a language and the full disclaimer,
    in this order, in the default language and each with the language
    keyboard, stopping at the first send that raises: all three are sent
    when the first two sends return, and the handler returns exactly
    when all three do; when the update has no message it sends nothing
    and returns. *)
Theorem start_resets_language (update : Update) (ud : user_data) :
  let r := start settings update ud in
  let d := default_language settings in
  let texts :=
    [SendText (get_message d welcome) language_keyboard;
     SendText (get_message d choose_language) language_keyboard;
     SendText (get_disclaimer d) language_keyboard] in
  ud_language (state_of r) = Some d /\
  ud_history (state_of r) = ud_history ud /\
  ud_alert_shown (state_of r) = ud_alert_shown ud /\
  backend_calls (trace_of r) = [] /\
  (upd_message update <> None -> trace_of r = until_raise update 0 texts) /\
  (upd_message update <> None ->
   replies_ok update 0 = true -> replies_ok update 1 = true -> trace_of r = texts) /\
  (upd_message update <> None ->
   (result_of r = Normal tt <-> all_return update 0 3 = true)) /\
  (upd_message update = None -> trace_of r = [] /\ result_of r = Normal tt).
Proof.
  cbv zeta. rewrite start_eq.
  cbv zeta. cbn [state_of trace_of result_of fst snd ud_language ud_history ud_alert_shown].
  destruct (upd_message update) as [m|];
    [| repeat split; try reflexivity; congruence].
  cbn [until_raise all_return].
  split; [reflexivity |]. split; [reflexivity |]. split; [reflexivity |].
  split; [| split; [| split; [| split]]].
  - destruct (replies_ok update 0), (replies_ok update 1), (replies_ok update 2);
      reflexivity.
  - reflexivity.
  - intros _ -> ->. destruct (replies_ok update 2); reflexivity.
  - intros _.
    destruct (replies_ok update 0), (replies_ok update 1), (replies_ok update 2);
      cbn [andb]; split; congruence.
  - discriminate.
Qed.

(** X9: [/help] and [/language] change nothing in the store and never
    call the backend; each sends one text when the update has a message,
    the help text or the invitation to choose a language, in the language
    of the session, the invitation with the language keyboard. *)
Theorem help_and_language_read_only (update : Update) (ud : user_data) :
  let h := step (Command_help update) ud in
  let l := step (Command_language update) ud in
  state_of h = ud /\ state_of l = ud /\
  backend_calls (trace_of h) = [] /\ backend_calls (trace_of l) = [] /\
  (upd_message update <> None ->
   trace_of h = [SendText (get_message (language_of ud) help) no_markup] /\
   trace_of l = [SendText (get_message (language_of ud) choose_language) language_keyboard]) /\
  (upd_message update = None -> trace_of h = [] /\ trace_of l = []).
Proof.
  cbv zeta. cbn [dispatch]. rewrite help_command_eq, language_command_eq.
  cbn [state_of trace_of fst snd].
  destruct (upd_message update); repeat split; try reflexivity; congruence.
Qed.

(** X10: the message handler drops an update exactly when it has no
    message, or when its message has no photo and its text, or its caption
    when the text is missing or empty, is empty once stripped; a dropped
    update changes nothing, sends nothing and calls nothing. *)
Theorem dropped_updates (update : Update) :
  (user_text_of update = None <->
   upd_message update = None \/
   exists m, upd_message update = Some m /\ msg_photo m = false /\
             strip (or_str (msg_text m) (or_str (msg_caption m) "")) = "") /\
  (user_text_of update = None ->
   forall backend ud, handle backend update ud = (Normal tt, ud, [])).
Proof.
  split.
  - unfold user_text_of. destruct (upd_message update) as [m|]; [| split; auto].
    cbv zeta.
    destruct (truthy (strip (or_str (msg_text m) (or_str (msg_caption m) "")))) eqn:Hraw;
      cbn [negb andb].
    + rewrite Hraw. cbn [negb]. split; [discriminate |].
      intros [H | (m' & [= <-] & _ & H)]; [discriminate |].
      rewrite H in Hraw. discriminate.
    + apply truthy_false in Hraw. destruct (msg_photo m) eqn:Hp.
      * split; [discriminate |].
        intros [H | (m' & [= <-] & H & _)]; congruence.
      * rewrite Hraw. cbn [truthy negb]. split; [| reflexivity].
        intros _. right. exists m. auto.
  - intros H backend ud. now apply dropped_eq.
Qed.

(** X11: the text the handler works on is stripped and not empty; a
    message with a photo is never dropped, and gets the fixed placeholder
    text when it has no usable text or caption; and a text that is not
    empty hides the caption. *)
Theorem user_text_normalised (update : Update) (m : Message) :
  upd_message update = Some m ->
  (forall u, user_text_of update = Some u -> strip u = u /\ truthy u = true) /\
  (msg_photo m = true -> user_text_of update <> None) /\
  (msg_photo m = true ->
   strip (or_str (msg_text m) (or_str (msg_caption m) "")) = "" ->
   user_text_of update = Some photo_text) /\
  (forall s caption,
      msg_text m = Some s -> truthy s = true ->
      user_text_of update =
      user_text_of {| upd_message := Some {| msg_text := Some s;
                                            msg_caption := caption;
                                            msg_photo := msg_photo m;
                                            msg_replies := msg_replies m |} |}).
Proof.
  intros Hm. unfold user_text_of. rewrite Hm. cbv zeta. cbn [upd_message].
  split; [| split; [| split]].
  - generalize (or_str (msg_text m) (or_str (msg_caption m) "")). intros raw u.
    destruct (truthy (strip raw)) eqn:Hraw; cbn [negb andb].
    + rewrite Hraw. cbn [negb]. intros [= <-]. split; [apply strip_idem | exact Hraw].
    + destruct (msg_photo m).
      * intros [= <-]. split; reflexivity.
      * rewrite Hraw. discriminate.
  - intros ->. generalize (or_str (msg_text m) (or_str (msg_caption m) "")). intros raw.
    destruct (truthy (strip raw)) eqn:Hraw; cbn [negb andb].
    + rewrite Hraw. discriminate.
    + discriminate.
  - intros -> ->. reflexivity.
  - intros s caption Hs Ht. rewrite Hs. cbn [msg_text msg_caption msg_photo msg_replies].
    assert (Ho : forall rest, or_str (Some s) rest = s)
      by (intros rest; unfold or_str; now rewrite Ht).
    now rewrite !Ho.
Qed.

(** *** One step of the application *)

Ltac step_cases i ud :=
  let u := fresh "u" in
  let backend := fresh "backend" in
  let user_text := fresh "user_text" in
  let code := fresh "code" in
  let Ht := fresh "Ht" in
  let Hl := fresh "Hl" in
  let Hh := fresh "Hh" in
  let Hr := fresh "Hr" in
  let Hw := fresh "Hw" in
  destruct i as [u|u|u|u backend]; cbn [dispatch];
  [ rewrite start_eq
  | rewrite help_command_eq
  | rewrite language_command_eq
  | destruct (user_text_of u) as [user_text|] eqn:Ht;
    [ destruct (LANG_CODES_BY_LABEL user_text) as [code|] eqn:Hl;
      [ rewrite (label_eq _ _ _ _ _ Ht Hl)
      | destruct (chat_cases u ud user_text) as [[Hh Hr] | Hw];
        [ rewrite (unwarned_eq _ _ _ _ Ht Hl Hh Hr)
        | rewrite (chat_eq _ _ _ _ Ht Hl Hw) ] ]
    | rewrite dropped_eq by assumption ] ].

Lemma hint_of_true user_text ud :
  hint_of user_text ud = true ->
  exists alert_text,
    detect user_text (language_of ud) = Some alert_text /\
    truthy alert_text = true /\ alert_already_shown ud = false.
Proof.
  unfold risk_flag. destruct (detect _ _) as [alert_text|]; [| discriminate].
  intros [H1 H2]%andb_true_iff. exists alert_text.
  apply negb_true_iff in H2. auto.
Qed.

Lemma sent_texts_app (a b : list event) :
  sent_texts (a ++ b) = sent_texts a ++ sent_texts b.
Proof. apply flat_map_app. Qed.

Lemma backend_calls_app (a b : list event) :
  backend_calls (a ++ b) = backend_calls a ++ backend_calls b.
Proof. apply flat_map_app. Qed.

Lemma reply_of_truthy (language : string) (r : backend_result) :
  truthy (reply_of language r) = true.
Proof.
  pose proof (reply_of_has_text language r) as Hr.
  destruct (reply_of language r); [discriminate Hr | reflexivity].
Qed.

Ltac by_replies :=
  repeat (cbn [delivered_from sent_texts backend_calls flat_map app length];
          match goal with
          | |- context [if replies_ok ?u ?n then _ else _] => destruct (replies_ok u n)
          end);
  cbn [delivered_from sent_texts backend_calls flat_map app length].

Lemma delivered_all (update : Update) :
  (forall n, replies_ok update n = true) ->
  forall t n, delivered_from update n t = sent_texts t.
Proof.
  intros Hall. induction t as [|[text m|c] t IH]; intros n; [reflexivity | |].
  - cbn [delivered_from]. rewrite Hall, IH. reflexivity.
  - cbn [delivered_from]. apply IH.
Qed.

(** X12: no handler ever calls [reply_text] with an empty text, and no
    update makes more than one backend call; a text or photo update
    makes at most three calls of [reply_text], for the warning, the
    answer and, when sending the answer raises, the apology, and at least
    one unless it is dropped; at most two of its texts reach the chat;
    the backend is called exactly when the text is not a language label,
    the warning, if there is one, could be sent, and the prompt could be
    composed; and when every send returns, every text reaches the chat
    and the handler returns. *)
Theorem step_output_bounds (i : incoming) (ud : user_data) :
  let r := step i ud in
  let t := trace_of r in
  Forall (fun x => truthy x = true) (sent_texts t) /\
  length (backend_calls t) <= 1 /\
  (forall update backend,
      i = Text_or_photo update backend ->
      length (sent_texts t) <= 3 /\
      length (delivered update t) <= 2 /\
      (user_text_of update <> None -> sent_texts t <> []) /\
      (length (backend_calls t) = 1 <->
       exists user_text contents,
         user_text_of update = Some user_text /\
         LANG_CODES_BY_LABEL user_text = None /\
         (hint_of user_text ud = true -> replies_ok update 0 = true) /\
         compose user_text (language_of ud) (hint_of user_text ud) (stored_history ud)
         = Normal contents) /\
      ((forall n, replies_ok update n = true) ->
       delivered update t = sent_texts t /\ result_of r = Normal tt)).
Proof.
  cbv zeta. step_cases i ud; cbv zeta; cbn [trace_of result_of fst snd].
  - split; [| split; [| discriminate]].
    + destruct (upd_message u); cbn [until_raise]; [| constructor].
      destruct (replies_ok u 0), (replies_ok u 1), (replies_ok u 2); cbn;
        repeat constructor; apply get_message_truthy.
    + destruct (upd_message u); cbn [until_raise]; [| cbn; lia].
      destruct (replies_ok u 0), (replies_ok u 1), (replies_ok u 2); cbn; lia.
  - split; [| split; [| discriminate]].
    + destruct (upd_message u); cbn; repeat constructor; apply get_message_truthy.
    + destruct (upd_message u); cbn; lia.
  - split; [| split; [| discriminate]].
    + destruct (upd_message u); cbn; repeat constructor; apply get_message_truthy.
    + destruct (upd_message u); cbn; lia.
  - split; [| split].
    + cbn. repeat constructor. apply get_message_truthy.
    + cbn. lia.
    + intros update backend' [= <- <-]. unfold delivered. cbn.
      split; [lia |]. split; [by_replies; cbn; lia |].
      split; [discriminate |].
      split; [split; [discriminate |] |].
      * intros (user_text' & contents & H1 & H2 & _). congruence.
      * intros Hall. rewrite !Hall. split; reflexivity.
  - destruct (hint_of_true _ _ Hh) as (alert_text & Hd & Ha & _). rewrite Hd.
    cbn [default from_option id app sent_texts backend_calls flat_map length].
    split; [| split].
    + repeat constructor. exact Ha.
    + lia.
    + intros update backend' [= <- <-]. unfold delivered. cbn [delivered_from].
      rewrite Hr. cbn [app length].
      split; [lia |]. split; [lia |]. split; [discriminate |].
      split; [split; [discriminate |] |].
      * intros (user_text' & contents & H1 & H2 & H3 & _).
        assert (user_text' = user_text) as -> by congruence.
        specialize (H3 Hh). congruence.
      * intros Hall. rewrite Hall in Hr. discriminate.
  - assert (Hwarn : forall alert_text,
               detect user_text (language_of ud) = Some alert_text ->
               hint_of user_text ud = true -> truthy alert_text = true).
    { intros alert_text Hd Hh. destruct (hint_of_true _ _ Hh) as (a & Hd' & Ha & _).
      congruence. }
    assert (Hsome : hint_of user_text ud = true ->
                    exists alert_text, detect user_text (language_of ud) = Some alert_text).
    { intros Hh. destruct (hint_of_true _ _ Hh) as (a & Hd' & _). eauto. }
    destruct (compose user_text (language_of ud) (hint_of user_text ud) (stored_history ud))
      as [contents|] eqn:Hc; cbn [trace_of result_of fst snd];
      destruct (hint_of user_text ud) eqn:Hh;
      try (destruct (Hsome eq_refl) as [alert_text Hd]; rewrite Hd;
           pose proof (Hwarn _ Hd eq_refl) as Ha; pose proof (Hw eq_refl) as Hok);
      cbn [default from_option id app length].
    + split; [| split].
      * cbn [sent_texts flat_map app]. constructor; [exact Ha |].
        constructor; [apply reply_of_truthy |].
        destruct (replies_ok u 1); cbn; repeat constructor. apply get_message_truthy.
      * destruct (replies_ok u 1); cbn; lia.
      * intros update backend' [= <- <-]. unfold delivered. cbn [delivered_from].
        rewrite Hok.
        split; [by_replies; cbn; lia |].
        split; [by_replies; cbn; lia |].
        split; [discriminate |].
        split; [split |].
        -- intros _. exists user_text, contents. rewrite Hh. auto.
        -- intros _. destruct (replies_ok u 1); reflexivity.
        -- intros Hall. rewrite !Hall. split; reflexivity.
    + split; [| split].
      * cbn [sent_texts flat_map app]. constructor; [apply reply_of_truthy |].
        destruct (replies_ok u 0); cbn; repeat constructor. apply get_message_truthy.
      * destruct (replies_ok u 0); cbn; lia.
      * intros update backend' [= <- <-]. unfold delivered. cbn [delivered_from].
        split; [by_replies; cbn; lia |].
        split; [by_replies; cbn; lia |].
        split; [discriminate |].
        split; [split |].
        -- intros _. exists user_text, contents. rewrite Hh. auto.
        -- intros _. destruct (replies_ok u 0); reflexivity.
        -- intros Hall. rewrite !Hall. split; reflexivity.
    + split; [| split].
      * cbn. repeat constructor; [exact Ha | apply get_message_truthy].
      * cbn. lia.
      * intros update backend' [= <- <-]. unfold delivered. cbn [delivered_from].
        rewrite Hok.
        split; [cbn; lia |].
        split; [by_replies; cbn; lia |].
        split; [discriminate |].
        split; [split; [discriminate |] |].
        -- intros (user_text' & contents & H1 & H2 & H3 & H4).
           assert (user_text' = user_text) as -> by congruence. congruence.
        -- intros Hall. rewrite !Hall. split; reflexivity.
    + split; [| split].
      * cbn. repeat constructor. apply get_message_truthy.
      * cbn. lia.
      * intros update backend' [= <- <-]. unfold delivered. cbn [delivered_from].
        split; [cbn; lia |].
        split; [by_replies; cbn; lia |].
        split; [discriminate |].
        split; [split; [discriminate |] |].
        -- intros (user_text' & contents & H1 & H2 & H3 & H4).
           assert (user_text' = user_text) as -> by congruence. congruence.
        -- intros Hall. rewrite !Hall. split; reflexivity.
  - split; [constructor | split; [cbn; lia |]].
    intros update backend' [= <- <-]. cbn. split; [lia |]. split; [lia |].
    split; [congruence |].
    split; [split; [discriminate |] |].
    + intros (user_text' & contents & H1 & _). congruence.
    + intros _. split; reflexivity.
Qed.

(** *** The history is made of exchanges *)

Lemma pair_induction {A} (P : list A -> Prop) :
  P [] -> (forall x, P [x]) -> (forall x y l, P l -> P (x :: y :: l)) ->
  forall l, P l.
Proof.
  intros H0 H1 H2 l.
  assert (H : P l /\ forall x, P (x :: l)); [| exact (proj1 H)].
  induction l as [|y l [IH1 IH2]]; [auto |].
  split; [apply IH2 | intros x; apply H2, IH1].
Qed.

Lemma in_pairs_app (a b : list turn) :
  in_pairs a = true -> in_pairs (a ++ b) = in_pairs b.
Proof.
  induction a as [| x | x y l IH] using pair_induction; [reflexivity | discriminate |].
  cbn [in_pairs app]. intros [[-> ->]%andb_true_iff H]%andb_true_iff. auto.
Qed.

Lemma in_pairs_even (l : list turn) :
  in_pairs l = true -> exists k, length l = 2 * k.
Proof.
  induction l as [| x | x y l IH] using pair_induction.
  - exists 0. reflexivity.
  - discriminate.
  - cbn [in_pairs]. intros [_ H]%andb_true_iff. destruct (IH H) as [k Hk].
    exists (S k). cbn [length]. lia.
Qed.

Lemma in_pairs_drop (k : nat) : forall l : list turn,
  in_pairs l = true -> in_pairs (drop (2 * k) l) = true.
Proof.
  induction k as [|k IH]; intros l H; [exact H |].
  replace (2 * S k) with (S (S (2 * k))) by lia.
  destruct l as [|x [|y l]]; [reflexivity | discriminate |].
  cbn [drop]. apply IH. cbn [in_pairs] in H.
  now apply andb_true_iff in H as [_ H].
Qed.

Lemma in_pairs_last_n (n : nat) (l : list turn) :
  in_pairs l = true -> in_pairs (last_n (2 * n) l) = true.
Proof.
  intros H. destruct (in_pairs_even l H) as [k Hk]. unfold last_n.
  replace (length l - 2 * n) with (2 * (k - n)) by lia.
  now apply in_pairs_drop.
Qed.

Lemma step_in_pairs (i : incoming) (ud : user_data) :
  in_pairs (stored_history ud) = true ->
  in_pairs (stored_history (state_of (step i ud))) = true.
Proof.
  intros H. pose proof (step_history lower settings _ALERTS_CONFIG _FAQ_DATA i ud) as Hs.
  cbv zeta in Hs. rewrite Hs.
  destruct (appended_turns_shape i (trace_of (step i ud)))
    as [-> | (u & b & user_text & reply & _ & _ & _ & ->)]; [exact H |].
  apply (in_pairs_last_n 5). now rewrite in_pairs_app.
Qed.

(** X13: the history of a session is always made of whole exchanges, a
    user turn followed by an assistant turn: from a history of that form,
    and the empty one of a new user is, every run leaves one of that
    form, of even length, and so are the last six entries the prompt
    shows, which therefore start with a turn of the user. *)
Theorem history_in_pairs (updates : list incoming) : forall ud : user_data,
  in_pairs (stored_history ud) = true ->
  let history := stored_history (state_of (run_all updates ud)) in
  in_pairs history = true /\
  in_pairs (last_n 6 history) = true /\
  Nat.Even (length history).
Proof.
  cbv zeta.
  assert (H : forall ud, in_pairs (stored_history ud) = true ->
                in_pairs (stored_history (state_of (run_all updates ud))) = true).
  { induction updates as [|i rest IH]; intros ud Hud; [exact Hud |].
    rewrite run_cons. cbn [state_of fst snd]. apply IH, step_in_pairs, Hud. }
  intros ud Hud. specialize (H ud Hud).
  split; [exact H |]. split; [apply (in_pairs_last_n 3), H |].
  destruct (in_pairs_even _ H) as [k Hk]. exists k. exact Hk.
Qed.

Lemma last_n_app_r {A} (n : nat) (l k : list A) :
  last_n (n + length k) (l ++ k) = last_n n l ++ k.
Proof.
  unfold last_n. rewrite length_app.
  replace (length l + length k - (n + length k)) with (length l - n) by lia.
  apply drop_app_le. lia.
Qed.

(** X14: a chat message whose warning, if it has one, could be sent
    and whose prompt could be composed ends up in the history together
    with its answer, whether or not the answer can be sent: after the
    step the history is the last eight entries of the old one followed by
    the user text and the reply, the backend was called once, with the
    prompt, and the reply is the text of the call of [reply_text] made
    right after.  When that call returns the reply is the last text and
    it reaches the chat; when it raises the handler calls [reply_text]
    again with the apology, the exchange already stored, and the reply
    stored never reaches the chat.  A chat message whose warning could
    not be sent, or whose prompt could not be composed, calls no backend
    and leaves the history as it was, and the second gets the apology.
    The stored language is never touched. *)
Theorem chat_appends_exchange backend (update : Update) (ud : user_data) user_text :
  user_text_of update = Some user_text ->
  LANG_CODES_BY_LABEL user_text = None ->
  let r := handle backend update ud in
  let lang := language_of ud in
  let hint := hint_of user_text ud in
  let composed := compose user_text lang hint (stored_history ud) in
  let sorry := get_message lang fallback_error in
  let warning := if hint then [default "" (detect user_text lang)] else [] in
  let call := length warning in
  ud_language (state_of r) = ud_language ud /\
  (forall contents,
      (hint = true -> replies_ok update 0 = true) ->
      composed = Normal contents ->
      let reply := reply_of lang (backend contents) in
      backend_calls (trace_of r) = [contents] /\
      answer_of (trace_of r) = Some reply /\
      stored_history (state_of r) =
        last_n 8 (stored_history ud) ++ [user_turn user_text; assistant_turn reply] /\
      (replies_ok update call = true ->
       last (sent_texts (trace_of r)) = Some reply /\ result_of r = Normal tt) /\
      (replies_ok update call = false ->
       last (sent_texts (trace_of r)) = Some sorry /\
       (result_of r = Normal tt <-> replies_ok update (S call) = true)) /\
      sent_texts (trace_of r) =
        warning ++ [reply] ++ (if replies_ok update call then [] else [sorry]) /\
      delivered update (trace_of r) =
        warning ++
        (if replies_ok update call then [reply]
         else if replies_ok update (S call) then [sorry] else [])) /\
  ((hint = true /\ replies_ok update 0 = false) \/ composed = Exception ->
   backend_calls (trace_of r) = [] /\
   answer_of (trace_of r) = None /\
   ud_history (state_of r) = ud_history ud) /\
  ((hint = true -> replies_ok update 0 = true) ->
   composed = Exception ->
   sent_texts (trace_of r) = warning ++ [sorry] /\
   (result_of r = Normal tt <-> replies_ok update call = true)).
Proof.
  intros Ht Hl. cbv zeta.
  destruct (chat_cases update ud user_text) as [[Hh Hr] | Hw].
  - rewrite (unwarned_eq _ _ _ _ Ht Hl Hh Hr).
    cbn [state_of trace_of result_of fst snd].
    split; [reflexivity |]. split; [| split].
    + intros contents Hw. rewrite (Hw Hh) in Hr. discriminate.
    + intros _. repeat split.
    + intros Hw. rewrite (Hw Hh) in Hr. discriminate.
  - rewrite (chat_eq _ _ _ _ Ht Hl Hw). cbv zeta.
    destruct (compose user_text (language_of ud) (hint_of user_text ud) (stored_history ud))
      as [contents|];
      destruct (hint_of user_text ud) eqn:Hh;
      try pose proof (Hw eq_refl) as Hok;
      cbn [state_of trace_of result_of fst snd ud_language ud_history length app];
      (split; [reflexivity |]); (split; [| split]);
      try discriminate;
      try (intros [[? ?] | ?]; congruence).
    + intros contents' _ [= <-].
      split; [by_replies; reflexivity |].
      split; [by_replies; reflexivity |].
      split; [unfold stored_history at 1; cbn [ud_history default from_option id];
              apply (last_n_app_r 8) |].
      split; [intros ->; split; reflexivity |].
      split; [intros ->; split; [reflexivity |];
              destruct (replies_ok update 2); split; congruence |].
      split; [by_replies; reflexivity |].
      unfold delivered. cbn [delivered_from]. rewrite Hok. by_replies; reflexivity.
    + intros contents' _ [= <-].
      split; [by_replies; reflexivity |].
      split; [by_replies; reflexivity |].
      split; [unfold stored_history at 1; cbn [ud_history default from_option id];
              apply (last_n_app_r 8) |].
      split; [intros ->; split; reflexivity |].
      split; [intros ->; split; [reflexivity |];
              destruct (replies_ok update 1); split; congruence |].
      split; [by_replies; reflexivity |].
      unfold delivered. by_replies; reflexivity.
    + intros _. repeat split.
    + intros _ _. split; [reflexivity |].
      destruct (replies_ok update 1); split; congruence.
    + intros _. repeat split.
    + intros _ _. split; [reflexivity |].
      destruct (replies_ok update 0); split; congruence.
Qed.

(** X15: a language chosen with a label is the language of the next
    chat message: the detector is asked for that language, over the
    unchanged history and alert flag, and when the warning, if there is
    one, could be sent and the prompt could be composed for that
    language, the backend gets that prompt and its answer is
    post-processed with the disclaimers of that language; it is the text
    of the call of [reply_text] made right after the backend call, and
    the last text sent when that call returns. *)
Theorem chosen_language_used_next
    backend0 backend (update0 update : Update) (ud : user_data) label code user_text :
  user_text_of update0 = Some label ->
  LANG_CODES_BY_LABEL label = Some code ->
  user_text_of update = Some user_text ->
  LANG_CODES_BY_LABEL user_text = None ->
  let ud1 := state_of (handle backend0 update0 ud) in
  let r := handle backend update ud1 in
  let hint :=
    match detect user_text code with
    | Some alert_text => truthy alert_text && negb (alert_already_shown ud)
    | None => false
    end in
  language_of ud1 = code /\
  hint_of user_text ud1 = hint /\
  stored_history ud1 = stored_history ud /\
  (forall contents,
      (hint = true -> replies_ok update 0 = true) ->
      compose user_text code hint (stored_history ud) = Normal contents ->
      backend_calls (trace_of r) = [contents] /\
      answer_of (trace_of r) = Some (reply_of code (backend contents)) /\
      (replies_ok update (if hint then 1 else 0) = true ->
       last (sent_texts (trace_of r)) = Some (reply_of code (backend contents)))).
Proof.
  intros Hlabel Hc Ht Hl. cbv zeta.
  rewrite (label_eq _ _ _ _ _ Hlabel Hc). cbn [state_of fst snd].
  destruct (label_facts _ _ Hc) as (_ & _ & Hcode).
  assert (Hlang : forall h a,
             language_of {| ud_language := Some code; ud_history := h;
                            ud_alert_shown := a |} = code).
  { intros h a. unfold session_language, _get_user_language, bind, get, ret, result_of.
    cbn [ud_language]. now rewrite Hcode. }
  assert (Hhint : hint_of user_text
                    {| ud_language := Some code; ud_history := ud_history ud;
                       ud_alert_shown := ud_alert_shown ud |}
                  = match detect user_text code with
                    | Some alert_text => truthy alert_text && negb (alert_already_shown ud)
                    | None => false
                    end).
  { unfold risk_flag. rewrite Hlang. reflexivity. }
  split; [apply Hlang |]. split; [exact Hhint |]. split; [reflexivity |].
  intros contents Hw Hcomp.
  assert (Hw' : hint_of user_text
                    {| ud_language := Some code; ud_history := ud_history ud;
                       ud_alert_shown := ud_alert_shown ud |} = true ->
                replies_ok update 0 = true) by (rewrite Hhint; exact Hw).
  rewrite (chat_eq _ _ _ _ Ht Hl Hw'). cbv zeta.
  rewrite Hhint, !Hlang.
  change (stored_history {| ud_language := Some code; ud_history := ud_history ud;
                            ud_alert_shown := ud_alert_shown ud |})
    with (stored_history ud).
  rewrite Hcomp. cbn [trace_of snd].
  clear Hcomp Hw Hw' Hhint.
  generalize (match detect user_text code with
              | Some alert_text => truthy alert_text && negb (alert_already_shown ud)
              | None => false
              end).
  intros hint.
  destruct hint; cbn [length app sent_texts backend_calls flat_map answer_of].
  - split; [destruct (replies_ok update 1); reflexivity |].
    split; [reflexivity |]. intros ->. reflexivity.
  - split; [destruct (replies_ok update 0); reflexivity |].
    split; [reflexivity |]. intros ->. reflexivity.
Qed.

(** *** The warning is sent once *)



(** *** Without a detector *)

Lemma step_without_detection (i : incoming) (ud : user_data) :
  (forall text language, detect text language = None) ->
  ud_alert_shown (state_of (step i ud)) = ud_alert_shown ud /\
  warned (trace_of (step i ud)) = false.
Proof.
  intros Hnone.
  assert (Hh : forall user_text, hint_of user_text ud = false)
    by (intros user_text; unfold risk_flag; now rewrite Hnone).
  step_cases i ud; cbv zeta; cbn [trace_of state_of fst snd ud_alert_shown].
  - destruct (upd_message u); [| auto].
    cbn [until_raise]. destruct (replies_ok u 0); auto.
  - destruct (upd_message u); auto.
  - destruct (upd_message u); auto.
  - auto.
  - rewrite Hh in *. discriminate.
  - rewrite Hh. destruct (compose _ _ _ _); auto.
  - auto.
Qed.

Lemma run_without_detection (updates : list incoming) : forall ud : user_data,
  (forall text language, detect text language = None) ->
  ud_alert_shown (state_of (run_all updates ud)) = ud_alert_shown ud /\
  warnings lower settings _ALERTS_CONFIG _FAQ_DATA updates ud = 0.
Proof.
  induction updates as [|i rest IH]; intros ud Hnone; [auto |].
  rewrite run_cons. cbn [state_of fst snd warnings].
  destruct (step_without_detection i ud Hnone) as [Hs Hw].
  destruct (IH (state_of (step i ud)) Hnone) as [IH1 IH2].
  rewrite Hw, IH1, IH2, Hs. auto.
Qed.

(** *** Failure of the backend *)

(** X26: when the backend call of a chat message fails, because it
    raises or because its text is missing or empty once stripped of white
    space, [generate_response] answers with the technical-difficulty
    preamble followed by the full disclaimer of the session language: that
    is the text of the call of [reply_text] made right after the backend
    call, and the last text sent when that call returns; the backend was
    called once, with the prompt, and is not called again. *)
Theorem backend_failure_reply backend (update : Update) (ud : user_data)
    user_text contents :
  user_text_of update = Some user_text ->
  LANG_CODES_BY_LABEL user_text = None ->
  let lang := language_of ud in
  let hint := hint_of user_text ud in
  (hint = true -> replies_ok update 0 = true) ->
  compose user_text lang hint (stored_history ud) = Normal contents ->
  backend_failed (backend contents) = true ->
  let r := handle backend update ud in
  let reply := fallback +:+ get_disclaimer lang in
  backend_calls (trace_of r) = [contents] /\
  answer_of (trace_of r) = Some reply /\
  (replies_ok update (if hint then 1 else 0) = true ->
   last (sent_texts (trace_of r)) = Some reply /\
   last (delivered update (trace_of r)) = Some reply /\
   result_of r = Normal tt).
Proof.
  intros Ht Hl lang hint Hw Hc Hf r reply. subst r lang hint.
  rewrite (chat_eq _ _ _ _ Ht Hl Hw). cbv zeta. rewrite Hc.
  rewrite (reply_of_failed _ _ Hf). fold reply.
  cbn [trace_of result_of fst snd].
  destruct (hint_of user_text ud) eqn:Hh; try pose proof (Hw eq_refl) as Hok;
    cbn [length app].
  - split; [by_replies; reflexivity |]. split; [by_replies; reflexivity |].
    intros Hcall. rewrite Hcall. unfold delivered. cbn [delivered_from].
    rewrite Hok, Hcall. repeat split.
  - split; [by_replies; reflexivity |]. split; [by_replies; reflexivity |].
    intros Hcall. rewrite Hcall. unfold delivered. cbn [delivered_from].
    rewrite Hcall. repeat split.
Qed.

End Handlers.

(** ** The detector, the data files and the prompt *)

Section DetectorAndPrompt.
Import PyStr Settings Language Prompts Effects GeminiClient TelegramBot Observations.

Variable lower : string -> string.

Lemma detect_speaks (alerts : gmap string alert_entry) (text language : string) e :
  speaks_for alerts language e ->
  _detect_alert_message lower alerts text language =
  if first_match lower (lower text) (keywords_of e) then Some (message_of e) else None.
Proof.
  intros Hs. destruct (proj2 (alerts_lang_cfg_speaks alerts language e) Hs) as [Hc He].
  unfold _detect_alert_message. rewrite Hc, He. cbn [negb].
  rewrite bool_decide_eq_false_2; [reflexivity |].
  intros ->. unfold alerts_lang_cfg in Hc. rewrite !lookup_empty in Hc. discriminate.
Qed.

Lemma first_match_same_set (text_lower : string) (l1 l2 : list string) :
  (forall kw, In kw l1 <-> In kw l2) ->
  first_match lower text_lower l1 = first_match lower text_lower l2.
Proof.
  intros Hset. apply eq_true_iff_eq. rewrite !first_match_spec.
  split; intros (kw & Hin & Hc); exists kw; (split; [now apply Hset | exact Hc]).
Qed.

(** X17: the fallback to the Spanish entry is decided by the entry as a
    whole, not by its keywords: when the language has an entry of its own
    that is not empty but lists no keyword, or has no [keywords] key at
    all, no text is ever detected for that language, whatever the Spanish
    entry holds. *)
Theorem detect_without_keywords
    (alerts : gmap string alert_entry) (language : string) (e : alert_entry) :
  alerts !! language = Some e ->
  entry_truthy e = true ->
  keywords_of e = [] ->
  forall text, _detect_alert_message lower alerts text language = None.
Proof.
  intros Hl He Hk text.
  assert (Hs : speaks_for alerts language e)     by (split; [now apply entry_truthy_not_empty | now left]).
  rewrite (detect_speaks _ _ _ _ Hs), Hk. reflexivity.
Qed.

(** X18: a keyword that lower-cases to the empty string matches every
    text: with such a keyword in the entry that speaks for a language,
    every text, the empty one included, is detected and gets the message
    of that entry. *)
Theorem detect_empty_keyword
    (alerts : gmap string alert_entry) (language : string) (e : alert_entry) kw :
  speaks_for alerts language e ->
  In kw (keywords_of e) ->
  lower kw = "" ->
  forall text, _detect_alert_message lower alerts text language = Some (message_of e).
Proof.
  intros Hs Hin Hkw text. rewrite (detect_speaks _ _ _ _ Hs).
  replace (first_match lower (lower text) (keywords_of e)) with true; [reflexivity |].
  symmetry. apply first_match_spec. exists kw. split; [exact Hin |].
  rewrite Hkw. destruct (lower text); reflexivity.
Qed.

(** X19: what the detector returns depends on the keywords of an entry
    only as a set and on its message: two alert tables whose entries for
    a language list the same keywords, in any order and with any
    repetitions, and carry the same message, give the same result on every
    text. *)
Theorem detect_keyword_order_irrelevant
    (alerts1 alerts2 : gmap string alert_entry) (language : string) (e1 e2 : alert_entry) :
  speaks_for alerts1 language e1 ->
  speaks_for alerts2 language e2 ->
  (forall kw, In kw (keywords_of e1) <-> In kw (keywords_of e2)) ->
  message_of e1 = message_of e2 ->
  forall text,
    _detect_alert_message lower alerts1 text language =
    _detect_alert_message lower alerts2 text language.
Proof.
  intros H1 H2 Hset Hm text.
  rewrite (detect_speaks _ _ _ _ H1), (detect_speaks _ _ _ _ H2).
  now rewrite (first_match_same_set _ _ _ Hset), Hm.
Qed.

(** X20: without a readable [alerts.json] the bot runs with the
    detector switched off: no text is detected in any language, no run
    sends a warning, and no run changes the alert flag. *)
Theorem alerts_file_missing (file : file_read (gmap string alert_entry)) :
  file = Missing \/ file = Unreadable ->
  let alerts := _load_alerts_config file in
  (forall text language, _detect_alert_message lower alerts text language = None) /\
  (forall settings faq updates ud,
      warnings lower settings alerts faq updates ud = 0 /\
      ud_alert_shown (state_of (run lower settings alerts faq updates ud)) =
      ud_alert_shown ud).
Proof.
  intros Hfile. cbv zeta.
  assert (Hnone : forall text language,
             _detect_alert_message lower (_load_alerts_config file) text language = None).
  { intros text language. destruct Hfile as [-> | ->]; reflexivity. }
  split; [exact Hnone |].
  intros settings faq updates ud.
  destruct (run_without_detection lower settings _ faq updates ud Hnone) as [H1 H2].
  auto.
Qed.

Lemma contains_app_l (needle a b : string) :
  contains needle a = true -> contains needle (a +:+ b) = true.
Proof.
  rewrite !contains_spec. intros (x & y & ->). exists x, (y +:+ b).
  now rewrite !str_app_assoc.
Qed.

Lemma base_prompt_has_rule (language : string) :
  let lang_label := default "Español" (LANG_LABELS language) in
  contains (language_rule lang_label) (strip (dedent (base_template lang_label))) = true.
Proof.
  cbv zeta. destruct (lang_label_cases language) as [<- | [<- | [<- | []]]];
    vm_compute; reflexivity.
Qed.

Lemma base_prompt_no_examples (language : string) :
  contains "Ejemplos de respuestas apropiadas:"
    (strip (dedent (base_template (default "Español" (LANG_LABELS language))))
     +:+ strip (dedent alert_template)) = false.
Proof.
  destruct (lang_label_cases language) as [<- | [<- | [<- | []]]];
    vm_compute; reflexivity.
Qed.

Lemma contains_app_false_l (needle a b : string) :
  contains needle (a +:+ b) = false -> contains needle a = false.
Proof.
  intros H. destruct (contains needle a) eqn:Ha; [| reflexivity].
  rewrite (contains_app_l _ _ b Ha) in H. discriminate.
Qed.

(** X21: without a readable [faq.json] no language gets an example
    block: the system prompt is composed without examples, and it does
    not hold the heading of the examples section, with or without the risk
    note. *)
Theorem faq_file_missing (file : file_read (gmap string (list faq_item))) :
  file = Missing \/ file = Unreadable ->
  let faq := _load_faq_examples file in
  forall language alert_hint,
    _build_faq_text faq language = Normal None /\
    (forall user_message history,
        compose_contents faq user_message language alert_hint history =
        Normal (contents_of (build_system_prompt language alert_hint None)
                  user_message language history)) /\
    contains "Ejemplos de respuestas apropiadas:"
      (build_system_prompt language alert_hint None) = false.
Proof.
  intros Hfile. cbv zeta. intros language alert_hint.
  assert (Hnone : _build_faq_text (_load_faq_examples file) language = Normal None).
  { destruct Hfile as [-> | ->]; reflexivity. }
  split; [exact Hnone |]. split.
  - intros user_message history. unfold compose_contents. now rewrite Hnone.
  - unfold build_system_prompt. cbv zeta.
    pose proof (base_prompt_no_examples language) as H.
    destruct alert_hint; [exact H | exact (contains_app_false_l _ _ _ H)].
Qed.

(** X22: every system prompt holds the rule that fixes the answer
    language, with the label of the language asked for, and a language
    that is not one of the three codes gets the prompt of Spanish. *)
Theorem system_prompt_language (language : string) (alert_hint : bool)
    (faq_examples : option string) :
  contains (language_rule (default "Español" (LANG_LABELS language)))
    (build_system_prompt language alert_hint faq_examples) = true /\
  (is_language_code language = false ->
   build_system_prompt language alert_hint faq_examples =
   build_system_prompt "es" alert_hint faq_examples).
Proof.
  split.
  - unfold build_system_prompt. cbv zeta.
    pose proof (base_prompt_has_rule language) as H. cbv zeta in H. revert H.
    generalize (language_rule (default "Español" (LANG_LABELS language))).
    generalize (strip (dedent (base_template (default "Español" (LANG_LABELS language))))).
    intros base rule H.
    assert (Hfaq : contains rule
                     match faq_examples with
                     | Some faq =>
                         if truthy faq
                         then base +:+ nl +:+ nl +:+ "Ejemplos de respuestas apropiadas:" +:+
                              nl +:+ strip faq
                         else base
                     | None => base
                     end = true).
    { destruct faq_examples as [faq|]; [destruct (truthy faq) |];
        auto using contains_app_l. }
    destruct alert_hint; auto using contains_app_l.
  - intros Hc. unfold build_system_prompt.
    assert (Hl : LANG_LABELS language = None).
    { revert Hc. unfold is_language_code, LANG_LABELS.
      destruct (String.eqb language "es"); [discriminate |].
      destruct (String.eqb language "qu"); [discriminate |].
      destruct (String.eqb language "shp"); [discriminate | reflexivity]. }
    rewrite Hl. reflexivity.
Qed.

(** X23: the risk note is one fixed text, the same for every language
    and every example block; it is appended to the rest of the system
    prompt, after the examples and with nothing in between, so the prompt
    with the risk flag set is never the prompt without it. *)
Theorem risk_note_appended :
  exists note,
    startswith "Contexto adicional:" note = true /\
    strip note = note /\
    forall language faq_examples,
      build_system_prompt language true faq_examples =
      build_system_prompt language false faq_examples +:+ note /\
      build_system_prompt language true faq_examples <>
      build_system_prompt language false faq_examples.
Proof.
  exists (strip (dedent alert_template)).
  split; [vm_compute; reflexivity |]. split; [apply strip_idem |].
  intros language faq_examples.
  assert (Heq : build_system_prompt language true faq_examples =
                build_system_prompt language false faq_examples +:+
                strip (dedent alert_template)) by reflexivity.
  split; [exact Heq |].
  rewrite Heq. generalize (build_system_prompt language false faq_examples). intros p Hp.
  apply (f_equal String.length) in Hp. rewrite str_length_app in Hp.
  assert (Hn : String.length (strip (dedent alert_template)) <> 0)
    by (vm_compute; discriminate).
  lia.
Qed.

Lemma last_n_app_exact {A} (older recent : list A) :
  last_n (length recent) (older ++ recent) = recent.
Proof.
  unfold last_n. rewrite length_app.
  replace (length older + length recent - length recent) with (length older) by lia.
  now rewrite drop_app_length.
Qed.

(** X24: the prompt shows the last six entries of the history and
    nothing older: whatever comes before them, entries with text included,
    the text handed to the backend is the same. *)
Theorem prompt_uses_last_six (faq : gmap string (list faq_item))
    (user_message language : string) (alert_hint : bool) (older recent : list turn) :
  length recent = 6 ->
  compose_contents faq user_message language alert_hint (older ++ recent) =
  compose_contents faq user_message language alert_hint recent.
Proof.
  intros H6. unfold compose_contents, contents_of.
  pose proof (last_n_app_exact older recent) as H. rewrite H6 in H.
  destruct (_build_faq_text faq language); [| reflexivity].
  now rewrite H, (last_n_short 6 recent) by lia.
Qed.

(** X25: post-processing is idempotent: an answer that went through it
    comes out unchanged when it goes through it again, so the short
    disclaimer is never appended twice. *)
Theorem post_process_idempotent (language : string) (response_text : option string) reply :
  post_process language response_text = Some reply ->
  post_process language (Some reply) = Some reply.
Proof.
  unfold post_process. cbn [default from_option id].
  generalize (default "" response_text). intros raw.
  destruct (truthy (strip raw)) eqn:Ht; cbn [negb]; [| discriminate].
  destruct (contains (get_short_disclaimer language) (strip raw)) eqn:Hc; cbn [negb].
  - intros [= <-]. rewrite strip_idem, Ht, Hc. reflexivity.
  - intros [= <-].
    pose proof (strip_answer language raw Ht) as Hs.
    rewrite Hs. rewrite (truthy_app_l _ _ Ht). cbn [negb].
    replace (contains (get_short_disclaimer language)
               (strip raw +:+ nl +:+ nl +:+ get_short_disclaimer language)) with true;
      [reflexivity |].
    symmetry. apply contains_spec. exists (strip raw +:+ nl +:+ nl), "".
    now rewrite str_app_nil_r, !str_app_assoc.
Qed.

(** X27: when the prompt could be composed and the backend answers
    with a text that is not empty once stripped, the reply of
    [generate_response] is the stripped text followed by a blank line and
    the short disclaimer of the language if the stripped text does not
    contain that disclaimer, and it then ends with the disclaimer and
    holds it exactly once; it is the stripped text itself if that
    contains the disclaimer.  Either way the reply contains the short
    disclaimer and has no white space at its ends. *)
Theorem short_disclaimer_post_processing
    {S} (faq : gmap string (list faq_item)) backend user_message language alert_hint
    history contents response_text (s : S) :
  compose_contents faq user_message language alert_hint history = Normal contents ->
  backend contents = Returned response_text ->
  truthy (strip (default "" response_text)) = true ->
  let t := strip (default "" response_text) in
  let disc := get_short_disclaimer language in
  let r := generate_response faq backend user_message language alert_hint history s in
  exists reply,
    result_of r = Normal reply /\
    (contains disc t = false ->
     reply = t +:+ nl +:+ nl +:+ disc /\
     endswith disc reply = true /\
     occurrences disc reply = 1) /\
    (contains disc t = true -> reply = t) /\
    contains disc reply = true /\
    strip reply = reply.
Proof.
  intros Hc Hb Ht t disc r. subst r.
  rewrite generate_response_eq, Hc, Hb. cbn [result_of fst].
  eexists. split; [reflexivity |].
  rewrite (reply_of_answer language response_text Ht). fold t disc.
  destruct (short_disclaimer_facts language) as [Hd Hnl]. fold disc in Hd, Hnl.
  destruct (contains disc t) eqn:Hct.
  - split; [discriminate |]. split; [reflexivity |]. split; [assumption |].
    apply strip_idem.
  - split; [intros _ | split; [discriminate | split]].
    + split; [reflexivity |]. split.
      * rewrite <- !str_app_assoc. apply endswith_app.
      * now apply occurrences_appended.
    + rewrite <- !str_app_assoc. apply contains_app_suffix.
    + now apply strip_answer.
Qed.

End DetectorAndPrompt.

(** ** The properties on sample inputs *)

Section Instances.
Import PyStr Settings Language Prompts Effects GeminiClient TelegramBot Observations Samples.

Local Abbreviation handle_es alerts faq :=
  (handle_text_message ascii_lower spanish_default alerts faq).

(** The label "Quechua" on a fresh session. *)
Lemma language_selection_frame_witness :
  let r := handle_es fever_alerts ∅ raising (text_update "Quechua") fresh_user_data in
  ud_language (state_of r) = Some "qu" /\
  session_language spanish_default (state_of r) = "qu" /\
  trace_of r = [SendText (get_message "qu" language_set) keyboard_remove] /\
  backend_calls (trace_of r) = [] /\
  ud_history (state_of r) = None /\
  ud_alert_shown (state_of r) = None.
Proof.
  exact (language_selection_frame ascii_lower spanish_default fever_alerts ∅ raising
           (text_update "Quechua")
           {| msg_text := Some "Quechua"; msg_caption := None; msg_photo := false;
              msg_replies := fun _ => true |}
           fresh_user_data "Quechua" "qu" eq_refl eq_refl eq_refl).
Defined.

(** Six chat messages on a session whose flag is set. *)
Lemma alert_shown_monotonic_witness :
  let shown := {| ud_language := None; ud_history := None; ud_alert_shown := Some true |} in
  alert_already_shown
    (state_of (run ascii_lower spanish_default fever_alerts ∅ six_messages shown)) = true.
Proof.
  apply (proj1 (proj2 (proj2 (alert_shown_monotonic ascii_lower spanish_default fever_alerts ∅)))).
  reflexivity.
Defined.

(** Six chat messages on a fresh session: twelve turns, ten are kept. *)
Lemma history_capped_witness :
  let final := state_of (run ascii_lower spanish_default fever_alerts ∅
                           six_messages fresh_user_data) in
  let turns := conversation ascii_lower spanish_default fever_alerts ∅
                 six_messages fresh_user_data in
  length turns = 12 /\ stored_history final = drop 2 turns.
Proof.
  split; [vm_compute; reflexivity |].
  apply (proj2 (proj2 (history_capped ascii_lower spanish_default fever_alerts ∅ six_messages))).
  vm_compute. reflexivity.
Defined.

(** The examples of the specification, for a language without entry,
    and a language whose entry has no keyword list. *)
Lemma detect_alert_message_witness :
  _detect_alert_message ascii_lower fever_alerts "Tengo FIEBRE alta" "qu" =
    Some "Acude a un centro de salud." /\
  _detect_alert_message ascii_lower fever_alerts "estoy bien" "qu" = None /\
  _detect_alert_message ascii_lower no_keyword_alerts "Tengo FIEBRE alta" "qu" = None /\
  _detect_alert_message ascii_lower ∅ "Tengo FIEBRE alta" "qu" = None.
Proof.
  split; [| split; [| split]].
  - apply (proj1 (detect_alert_message_spec ascii_lower fever_alerts "Tengo FIEBRE alta" "qu")).
    exists {| cfg_keywords := Some ["fiebre"; "sangrado"];
              cfg_message := Some "Acude a un centro de salud.";
              cfg_other_keys := false |}, "fiebre".
    split; [| split; [| split]].
    + split; [intros (H & _); discriminate H |]. right. split; [reflexivity |].
      intros e' He'. vm_compute in He'. discriminate.
    + left. reflexivity.
    + exists "tengo ", " alta". reflexivity.
    + reflexivity.
  - apply (proj1 (proj2 (detect_alert_message_spec ascii_lower fever_alerts "estoy bien" "qu"))).
    intros (e & kw & [_ [He | [He _]]] & Hin & Hc);
      vm_compute in He; [discriminate |].
    injection He as <-. apply contains_spec in Hc.
    destruct Hin as [<- | [<- | []]]; vm_compute in Hc; discriminate.
  - apply (proj1 (proj2 (proj2 (detect_alert_message_spec ascii_lower no_keyword_alerts
                                  "Tengo FIEBRE alta" "qu")))
             {| cfg_keywords := None; cfg_message := Some "Hampina wasiman riy.";
                cfg_other_keys := false |}).
    + reflexivity.
    + intros (_ & H & _). discriminate H.
    + reflexivity.
  - apply (proj2 (proj2 (proj2 (detect_alert_message_spec ascii_lower ∅
                                  "Tengo FIEBRE alta" "qu")))).
    reflexivity.
Defined.

(** The fallback of the detector is not the one claimed: a language
    whose own entry has a message but no keyword list gets no match
    although a keyword of Spanish occurs in the text; and with Quechua
    as the default language of the settings, a language without entry is
    not given the keywords of Quechua. *)
Lemma detect_fallback_is_not_by_keywords :
  (exists e, no_keyword_alerts !! "qu" = Some e /\ cfg_keywords e = None) /\
  (exists e, no_keyword_alerts !! "es" = Some e /\ In "fiebre" (keywords_of e)) /\
  case_insensitive_substring ascii_lower "fiebre" "tengo fiebre" /\
  _detect_alert_message ascii_lower no_keyword_alerts "tengo fiebre" "qu" = None /\
  (exists s, Environment.load_settings ascii_lower sample_environ = Environment.Ready s /\
             Environment.default_language s = "qu") /\
  (exists e, quechua_alerts !! "qu" = Some e /\ In "rupha" (keywords_of e)) /\
  case_insensitive_substring ascii_lower "rupha" "rupha" /\
  _detect_alert_message ascii_lower quechua_alerts "rupha" "qu" =
    Some "Hampina wasiman riy." /\
  _detect_alert_message ascii_lower quechua_alerts "rupha" "shp" = None.
Proof.
  split; [eexists; split; [vm_compute; reflexivity | reflexivity] |].
  split; [eexists; split; [vm_compute; reflexivity | now left] |].
  split; [exists "tengo ", ""; reflexivity |].
  split; [vm_compute; reflexivity |].
  split; [eexists; split; [vm_compute; reflexivity | reflexivity] |].
  split; [eexists; split; [vm_compute; reflexivity | now left] |].
  split; [exists "", ""; reflexivity |].
  split; vm_compute; reflexivity.
Defined.

(** C1: on the message "hola" of a fresh session, when the backend
    raises and when it answers with a no-break space only, the reply is
    the technical-difficulty preamble followed by the full disclaimer and
    the backend is called once, as claimed; but the handler stores the
    user text and that reply: the history is not what it was, although
    the handler's own failure branch stores nothing. *)
Theorem backend_failure_updates_history :
  let reply := fallback +:+ get_disclaimer "es" in
  let r := handle_es fever_alerts ∅ raising (text_update "hola") fresh_user_data in
  let r' := handle_es fever_alerts ∅ unicode_blank_answer (text_update "hola")
              fresh_user_data in
  exists contents,
    compose_contents ∅ "hola" "es" false [] = Normal contents /\
    backend_failed (raising contents) = true /\
    backend_failed (unicode_blank_answer contents) = true /\
    trace_of r = [InvokeBackend contents; SendText reply no_markup] /\
    trace_of r' = [InvokeBackend contents; SendText reply no_markup] /\
    stored_history fresh_user_data = [] /\
    stored_history (state_of r) = [user_turn "hola"; assistant_turn reply] /\
    stored_history (state_of r') = [user_turn "hola"; assistant_turn reply] /\
    stored_history (state_of r) <> stored_history fresh_user_data.
Proof.
  eexists. split; [vm_compute; reflexivity |].
  split; [reflexivity |]. split; [vm_compute; reflexivity |].
  split; [vm_compute; reflexivity |]. split; [vm_compute; reflexivity |].
  split; [reflexivity |].
  split; [vm_compute; reflexivity |]. split; [vm_compute; reflexivity |].
  vm_compute. discriminate.
Qed.

(** A first risky message on a fresh session, with the warning sent and
    with the warning not sent. *)
Lemma alert_gating_witness :
  let r := handle_es fever_alerts ∅ (answering "Bien.")
             (text_update "Tengo fiebre") fresh_user_data in
  let unsent := handle_es fever_alerts ∅ (answering "Bien.")
                  (text_update_failing 0 "Tengo fiebre") fresh_user_data in
  alert_already_shown (state_of r) = true /\
  (exists contents reply,
      compose_contents ∅ "Tengo fiebre" "es" true [] = Normal contents /\
      trace_of r =
      [SendText "Acude a un centro de salud." no_markup;
       InvokeBackend contents;
       SendText reply no_markup]) /\
  (forall updates user_text',
      risk_flag ascii_lower spanish_default fever_alerts user_text'
        (state_of (run ascii_lower spanish_default fever_alerts ∅ updates (state_of r)))
      = false) /\
  unsent = (Exception, fresh_user_data, [SendText "Acude a un centro de salud." no_markup]).
Proof.
  cbv zeta.
  destruct (alert_gating ascii_lower spanish_default fever_alerts ∅ (answering "Bien.")
              (text_update "Tengo fiebre") fresh_user_data "Tengo fiebre"
              "Acude a un centro de salud." eq_refl eq_refl eq_refl eq_refl eq_refl)
    as (_ & _ & _ & Hsent).
  destruct (Hsent eq_refl) as (Hflag & Htrace & _ & Hlater).
  split; [exact Hflag |]. split; [| split].
  - destruct (Htrace _ eq_refl) as [reply Hr].
    eexists _, reply. split; [reflexivity | exact Hr].
  - intros updates user_text'.
    apply (hint_of_shown ascii_lower spanish_default fever_alerts).
    apply run_keeps_alert_shown. exact Hflag.
  - exact (proj1 (proj2 (proj2
             (alert_gating ascii_lower spanish_default fever_alerts ∅ (answering "Bien.")
                (text_update_failing 0 "Tengo fiebre") fresh_user_data "Tengo fiebre"
                "Acude a un centro de salud." eq_refl eq_refl eq_refl eq_refl eq_refl)))
             eq_refl).
Defined.

(** C2 as stated fails: the text contains a configured keyword and the
    flag is false, yet with an empty warning message nothing is sent on
    its own, the flag stays false and the prompt is composed without the
    risk flag; and with a warning message that is not empty, when the
    call that sends it raises, the handler ends there: the flag stays
    false and nothing is composed. *)
Lemma alert_gating_empty_message :
  let r := handle_es silent_alerts ∅ (answering "Bien.")
             (text_update "Tengo fiebre") fresh_user_data in
  let unsent := handle_es fever_alerts ∅ (answering "Bien.")
                  (text_update_failing 0 "Tengo fiebre") fresh_user_data in
  (exists e, silent_alerts !! "es" = Some e /\ In "fiebre" (keywords_of e)) /\
  case_insensitive_substring ascii_lower "fiebre" "Tengo fiebre" /\
  _detect_alert_message ascii_lower silent_alerts "Tengo fiebre" "es" = Some "" /\
  alert_already_shown fresh_user_data = false /\
  (exists contents,
      compose_contents ∅ "Tengo fiebre" "es" false [] = Normal contents /\
      trace_of r =
      [InvokeBackend contents;
       SendText ("Bien." +:+ nl +:+ nl +:+ get_short_disclaimer "es") no_markup]) /\
  alert_already_shown (state_of r) = false /\
  compose_contents ∅ "Tengo fiebre" "es" false [] <>
  compose_contents ∅ "Tengo fiebre" "es" true [] /\
  _detect_alert_message ascii_lower fever_alerts "Tengo fiebre" "es" =
    Some "Acude a un centro de salud." /\
  trace_of unsent = [SendText "Acude a un centro de salud." no_markup] /\
  result_of unsent = Exception /\
  alert_already_shown (state_of unsent) = false.
Proof.
  split; [eexists; split; [vm_compute; reflexivity | now left] |].
  split; [exists "tengo ", ""; reflexivity |].
  split; [vm_compute; reflexivity |]. split; [reflexivity |].
  split; [eexists; split; vm_compute; reflexivity |].
  split; [vm_compute; reflexivity |].
  split; [vm_compute; discriminate |].
  split; [vm_compute; reflexivity |]. split; [vm_compute; reflexivity |].
  split; vm_compute; reflexivity.
Defined.

(** C3: an answer that holds the short disclaimer before its last
    sentence is returned as it is: the reply does not end with the
    disclaimer, although [generate_response] promises a short disclaimer
    at the end; and an answer that holds it twice keeps both. *)
Theorem short_disclaimer_not_last :
  let disc := get_short_disclaimer "es" in
  let once := disc +:+ " Cuidate mucho." in
  let twice := disc +:+ " " +:+ disc in
  result_of (generate_response ∅ (answering once) "hola" "es" false [] tt) = Normal once /\
  contains disc once = true /\
  endswith disc once = false /\
  result_of (generate_response ∅ (answering twice) "hola" "es" false [] tt) = Normal twice /\
  occurrences disc twice = 2.
Proof.
  split; [vm_compute; reflexivity |]. split; [vm_compute; reflexivity |].
  split; [vm_compute; reflexivity |]. split; vm_compute; reflexivity.
Qed.

(** A language without table gets the Spanish examples, the well-formed
    ones among the first three entries; and a table whose first entry
    has an answer that is not a string. *)
Lemma build_faq_text_spec_witness :
  _build_faq_text faq_with_gap "qu" = Normal (Some "- Pregunta: q1
  Respuesta: a1
- Pregunta: q2
  Respuesta: a2") /\
  _build_faq_text faq_not_text "es" = Exception.
Proof.
  split.
  - exact (proj1 (proj2 (build_faq_text_spec faq_with_gap "qu")) eq_refl).
  - exact (proj1 (proj2 (proj2 (build_faq_text_spec faq_not_text "es"))) eq_refl).
Defined.

(** C5 as stated fails: with an ill-formed first entry the block holds
    two pairs, not the first three well-formed ones; and with Quechua as
    the default language of the settings, a language without table gets
    the examples of Spanish, not those of Quechua. *)
Lemma build_faq_text_not_first_three :
  _build_faq_text faq_with_gap "es" =
    Normal (example_block [pair "q1" "a1"; pair "q2" "a2"]) /\
  first_three_well_formed (default [] (faq_with_gap !! "es")) =
    [pair "q1" "a1"; pair "q2" "a2"; pair "q3" "a3"] /\
  _build_faq_text faq_with_gap "es" <>
    Normal (example_block (first_three_well_formed (default [] (faq_with_gap !! "es")))) /\
  (exists s, Environment.load_settings ascii_lower sample_environ = Environment.Ready s /\
             Environment.default_language s = "qu") /\
  faq_es_qu !! "shp" = None /\
  _build_faq_text faq_es_qu "shp" = Normal (example_block [pair "q1" "a1"]) /\
  _build_faq_text faq_es_qu "shp" <>
    Normal (example_block (first_three_well_formed (default [] (faq_es_qu !! "qu")))).
Proof.
  split; [vm_compute; reflexivity |]. split; [vm_compute; reflexivity |].
  split; [vm_compute; discriminate |].
  split; [eexists; split; [vm_compute; reflexivity | reflexivity] |].
  split; [vm_compute; reflexivity |]. split; [vm_compute; reflexivity |].
  vm_compute. discriminate.
Defined.

(** Two FAQ tables with the same examples, two backends, two states. *)
Lemma prompt_composition_deterministic_witness :
  let prompt :=
    contents_of (build_system_prompt "qu" true (Some "- Pregunta: q1
  Respuesta: a1")) "hola" "qu" [user_turn "antes"] in
  trace_of (generate_response faq_one raising "hola" "qu" true [user_turn "antes"] tt) =
    [InvokeBackend prompt] /\
  trace_of (generate_response faq_one_and_empty (answering "Bien.") "hola" "qu" true
              [user_turn "antes"] fresh_user_data) =
    [InvokeBackend prompt] /\
  state_of (generate_response faq_one raising "hola" "qu" true [user_turn "antes"] tt) = tt /\
  state_of (generate_response faq_one_and_empty (answering "Bien.") "hola" "qu" true
              [user_turn "antes"] fresh_user_data) = fresh_user_data.
Proof.
  cbv zeta.
  destruct (prompt_composition_deterministic faq_one faq_one_and_empty raising
              (answering "Bien.") tt fresh_user_data "hola" "qu" true [user_turn "antes"]
              eq_refl) as (_ & _ & Hs1 & Hs2 & Hprompt & _).
  destruct (Hprompt _ eq_refl) as [H1 H2].
  split; [exact H1 |]. split; [exact H2 |]. split; [exact Hs1 | exact Hs2].
Defined.

(** A first exchange in the history, and a tidy message. *)
Lemma history_block_in_prompt_witness :
  let history := [user_turn "Hola"; assistant_turn "Bien."] in
  let system_prompt := build_system_prompt "es" false (Some "- Pregunta: q1
  Respuesta: a1") in
  compose_contents faq_one "Tengo fiebre" "es" false history =
  Normal (blank_ws_lines system_prompt +:+ nl +:+ nl +:+
          history_and_message "es" ["Person: Hola"; "Piribot: Bien."] "Tengo fiebre").
Proof.
  cbv zeta.
  destruct (history_block_in_prompt faq_one ascii_lower spanish_default fever_alerts
              "es" false [user_turn "Hola"; assistant_turn "Bien."] "Tengo fiebre"
              (Some "- Pregunta: q1
  Respuesta: a1") eq_refl ltac:(repeat constructor))
    as (_ & _ & _ & Htidy & _).
  exact (Htidy eq_refl (fun _ => eq_refl) eq_refl eq_refl).
Defined.

(** C6 as stated fails: the first message of a session has three lines,
    the second a single space; the prompt handed to the backend does not
    end with the message, it ends with the message whose second line is
    emptied. *)
Lemma prompt_message_line_emptied :
  let m := message_with_blank_line in
  let r := handle_es fever_alerts ∅ raising (text_update m) fresh_user_data in
  user_text_of (text_update m) = Some m /\
  stored_history fresh_user_data = [] /\
  exists contents,
    compose_contents ∅ m "es" false [] = Normal contents /\
    backend_calls (trace_of r) = [contents] /\
    endswith (message_only "es" m) contents = false /\
    endswith m contents = false /\
    endswith ("a" +:+ nl +:+ nl +:+ "b") contents = true.
Proof.
  split; [vm_compute; reflexivity |]. split; [reflexivity |].
  eexists. split; [vm_compute; reflexivity |].
  split; [vm_compute; reflexivity |]. split; [vm_compute; reflexivity |].
  split; vm_compute; reflexivity.
Defined.

(** ** The further properties on sample inputs *)

(** *** Configuration *)

(** A language that is not offered gets the Spanish help text. *)
Lemma get_message_total_witness :
  get_message "fr" help = get_message "es" help.
Proof. exact (proj2 (get_message_total "fr" help) eq_refl). Defined.

(** The label of Quechua is not a language code. *)
Lemma labels_and_codes_inverse_witness :
  LANG_CODES_BY_LABEL "Quechua" = Some "qu" /\ is_language_code "Quechua" = false.
Proof.
  split.
  - apply (proj1 (proj1 (labels_and_codes_inverse "qu" "Quechua"))). reflexivity.
  - apply (proj2 (proj2 (labels_and_codes_inverse "qu" "Quechua"))). discriminate.
Defined.

(** The keyboard has a button for Shipibo-Konibo. *)
Lemma language_keyboard_buttons_witness :
  exists markup,
    _build_language_keyboard = Some markup /\ In ["Shipibo-Konibo"] (keyboard markup).
Proof.
  destruct language_keyboard_buttons as (markup & Hb & _ & Hl & _).
  exists markup. split; [exact Hb |]. apply Hl. discriminate.
Defined.

(** Both credentials set; and an empty environment. *)
Lemma load_settings_credentials_witness :
  (exists s, Environment.load_settings ascii_lower sample_environ = Environment.Ready s) /\
  Environment.load_settings ascii_lower ∅ =
  Environment.RuntimeError
    "La variable de entorno TELEGRAM_BOT_TOKEN es obligatoria pero no está definida.".
Proof.
  split.
  - apply (proj1 (proj2 (load_settings_credentials ascii_lower sample_environ)));
      reflexivity.
  - apply (proj1 (proj2 (proj2 (load_settings_credentials ascii_lower ∅)))).
    reflexivity.
Defined.

(** [PIRIBOT_DEFAULT_LANGUAGE=QU] gives Quechua. *)
Lemma load_settings_default_language_witness :
  let s := {| Environment.telegram_bot_token := "123:abc";
              Environment.gemini_api_key := "key";
              Environment.default_language := "qu" |} in
  Environment.load_settings ascii_lower sample_environ = Environment.Ready s /\
  is_language_code (Environment.default_language s) = true.
Proof.
  cbv zeta.
  assert (H : Environment.load_settings ascii_lower sample_environ =
              Environment.Ready {| Environment.telegram_bot_token := "123:abc";
                                   Environment.gemini_api_key := "key";
                                   Environment.default_language := "qu" |})
    by (vm_compute; reflexivity).
  split; [exact H |].
  exact (proj1 (load_settings_default_language ascii_lower sample_environ _ H)).
Defined.

(** *** Handlers *)

(** A store that holds a language the bot does not offer. *)
Lemma session_language_is_code_witness :
  is_language_code
    (session_language spanish_default
       {| ud_language := Some "fr"; ud_history := None; ud_alert_shown := None |}) = true.
Proof.
  exact (proj1 (proj1 (proj2 (session_language_is_code ascii_lower spanish_default
                                {| ud_language := Some "fr"; ud_history := None;
                                   ud_alert_shown := None |})) eq_refl)).
Defined.

(** [/start] after Quechua was chosen, with every send returning and
    with the second send raising. *)
Lemma start_resets_language_witness :
  let ud := {| ud_language := Some "qu"; ud_history := None; ud_alert_shown := Some true |} in
  trace_of (start spanish_default (text_update "/start") ud) =
  [SendText (get_message "es" welcome) language_keyboard;
   SendText (get_message "es" choose_language) language_keyboard;
   SendText (get_disclaimer "es") language_keyboard] /\
  trace_of (start spanish_default (text_update_failing 1 "/start") ud) =
  [SendText (get_message "es" welcome) language_keyboard;
   SendText (get_message "es" choose_language) language_keyboard].
Proof.
  cbv zeta. split.
  - apply (proj1 (proj2 (proj2 (proj2 (proj2 (proj2
             (start_resets_language spanish_default (text_update "/start")
                {| ud_language := Some "qu"; ud_history := None;
                   ud_alert_shown := Some true |}))))))).
    + discriminate.
    + reflexivity.
    + reflexivity.
  - apply (proj1 (proj2 (proj2 (proj2 (proj2
             (start_resets_language spanish_default (text_update_failing 1 "/start")
                {| ud_language := Some "qu"; ud_history := None;
                   ud_alert_shown := Some true |})))))).
    discriminate.
Defined.

(** [/help] in a Quechua session. *)
Lemma help_and_language_read_only_witness :
  let ud := {| ud_language := Some "qu"; ud_history := None; ud_alert_shown := None |} in
  trace_of (dispatch ascii_lower spanish_default fever_alerts ∅
              (Command_help (text_update "/help")) ud) =
  [SendText (get_message "qu" help) no_markup].
Proof.
  cbv zeta.
  apply (proj1 (proj1 (proj2 (proj2 (proj2 (proj2
           (help_and_language_read_only ascii_lower spanish_default fever_alerts ∅
              (text_update "/help")
              {| ud_language := Some "qu"; ud_history := None;
                 ud_alert_shown := None |}))))) ltac:(discriminate))).
Defined.

(** A text made of a space, a no-break space and an em space is
    dropped. *)
Lemma dropped_updates_witness :
  handle_text_message ascii_lower spanish_default fever_alerts ∅ raising
    (text_update (" " +:+ no_break_space +:+ em_space)) fresh_user_data =
  (Normal tt, fresh_user_data, []).
Proof.
  apply (proj2 (dropped_updates ascii_lower spanish_default fever_alerts ∅
                  (text_update (" " +:+ no_break_space +:+ em_space)))).
  reflexivity.
Defined.

(** A photo whose caption is a no-break space gets the placeholder. *)
Lemma user_text_normalised_witness :
  user_text_of photo_blank_caption = Some photo_text.
Proof.
  apply (proj1 (proj2 (proj2 (user_text_normalised photo_blank_caption
           {| msg_text := None; msg_caption := Some no_break_space; msg_photo := true;
              msg_replies := fun _ => true |} eq_refl))));
    reflexivity.
Defined.

(** A chat message while the backend is down, on an update whose every
    send returns. *)
Lemma step_output_bounds_witness :
  let r := dispatch ascii_lower spanish_default fever_alerts ∅
             (Text_or_photo (text_update "hola") raising) fresh_user_data in
  sent_texts (trace_of r) <> [] /\
  delivered (text_update "hola") (trace_of r) = sent_texts (trace_of r) /\
  result_of r = Normal tt.
Proof.
  cbv zeta.
  destruct (proj2 (proj2 (step_output_bounds ascii_lower spanish_default fever_alerts ∅
                            (Text_or_photo (text_update "hola") raising) fresh_user_data))
              (text_update "hola") raising eq_refl) as (_ & _ & H1 & _ & H2).
  split; [apply H1; discriminate |]. apply H2. reflexivity.
Defined.

(** Six chat messages on a fresh session. *)
Lemma history_in_pairs_witness :
  in_pairs (stored_history
              (state_of (run ascii_lower spanish_default fever_alerts ∅
                           six_messages fresh_user_data))) = true.
Proof.
  exact (proj1 (history_in_pairs ascii_lower spanish_default fever_alerts ∅
                  six_messages fresh_user_data eq_refl)).
Defined.

(** A chat message on a fresh session whose answer cannot be sent: the
    exchange is stored and the apology is what reaches the chat. *)
Lemma chat_appends_exchange_witness :
  let r := handle_text_message ascii_lower spanish_default fever_alerts ∅
             (answering "Bien.") (text_update_failing 0 "hola") fresh_user_data in
  let reply := "Bien." +:+ nl +:+ nl +:+ get_short_disclaimer "es" in
  stored_history (state_of r) = [user_turn "hola"; assistant_turn reply] /\
  sent_texts (trace_of r) = [reply; get_message "es" fallback_error] /\
  delivered (text_update_failing 0 "hola") (trace_of r) = [get_message "es" fallback_error].
Proof.
  cbv zeta.
  destruct (proj1 (proj2 (chat_appends_exchange ascii_lower spanish_default fever_alerts ∅
                            (answering "Bien.") (text_update_failing 0 "hola")
                            fresh_user_data "hola" eq_refl eq_refl))
              _ ltac:(discriminate) eq_refl)
    as (_ & _ & Hh & _ & _ & Hs & Hd).
  split; [exact Hh |]. split; [exact Hs | exact Hd].
Defined.

(** Quechua, then a chat message. *)
Lemma chosen_language_used_next_witness :
  let ud1 := state_of (handle_text_message ascii_lower spanish_default fever_alerts ∅
                         raising (text_update "Quechua") fresh_user_data) in
  session_language spanish_default ud1 = "qu" /\
  exists contents,
    compose_contents ∅ "hola" "qu" false [] = Normal contents /\
    backend_calls
      (trace_of (handle_text_message ascii_lower spanish_default fever_alerts ∅
                   raising (text_update "hola") ud1)) = [contents].
Proof.
  cbv zeta.
  destruct (chosen_language_used_next ascii_lower spanish_default fever_alerts ∅
              raising raising (text_update "Quechua") (text_update "hola") fresh_user_data
              "Quechua" "qu" "hola" eq_refl eq_refl eq_refl eq_refl)
    as (Hlang & _ & _ & Hcall).
  split; [exact Hlang |].
  eexists. split; [reflexivity |].
  exact (proj1 (Hcall _ ltac:(discriminate) eq_refl)).
Defined.


(** The backend answers with a no-break space only. *)
Lemma backend_failure_reply_witness :
  let r := handle_text_message ascii_lower spanish_default fever_alerts ∅
             unicode_blank_answer (text_update "hola") fresh_user_data in
  exists contents,
    backend_calls (trace_of r) = [contents] /\
    last (sent_texts (trace_of r)) = Some (fallback +:+ get_disclaimer "es").
Proof.
  cbv zeta. eexists.
  destruct (backend_failure_reply ascii_lower spanish_default fever_alerts ∅
              unicode_blank_answer (text_update "hola") fresh_user_data "hola" _
              eq_refl eq_refl ltac:(discriminate) eq_refl eq_refl)
    as (Hcall & _ & Hsent).
  split; [exact Hcall |]. exact (proj1 (Hsent eq_refl)).
Defined.

(** *** Detector, data files and prompt *)

(** The Quechua entry has no keywords: the Spanish ones are not used. *)
Lemma detect_without_keywords_witness :
  _detect_alert_message ascii_lower no_keyword_alerts "tengo fiebre" "es" =
    Some "Acude a un centro de salud." /\
  _detect_alert_message ascii_lower no_keyword_alerts "tengo fiebre" "qu" = None.
Proof.
  split; [vm_compute; reflexivity |].
  apply (detect_without_keywords ascii_lower no_keyword_alerts "qu"
           {| cfg_keywords := None; cfg_message := Some "Hampina wasiman riy.";
              cfg_other_keys := false |}); reflexivity.
Defined.

(** An empty keyword matches a greeting. *)
Lemma detect_empty_keyword_witness :
  _detect_alert_message ascii_lower catch_all_alerts "hola" "es" =
  Some "Acude a un centro de salud.".
Proof.
  apply (detect_empty_keyword ascii_lower catch_all_alerts "es"
           {| cfg_keywords := Some ["sangrado"; ""];
              cfg_message := Some "Acude a un centro de salud.";
              cfg_other_keys := false |} "").
  - split; [intros (H & _); discriminate H | left; reflexivity].
  - right. left. reflexivity.
  - reflexivity.
Defined.

(** The same keywords in another order. *)
Lemma detect_keyword_order_irrelevant_witness :
  _detect_alert_message ascii_lower fever_alerts "Tengo FIEBRE alta" "es" =
  _detect_alert_message ascii_lower fever_alerts_reordered "Tengo FIEBRE alta" "es".
Proof.
  apply (detect_keyword_order_irrelevant ascii_lower fever_alerts fever_alerts_reordered "es"
           {| cfg_keywords := Some ["fiebre"; "sangrado"];
              cfg_message := Some "Acude a un centro de salud.";
              cfg_other_keys := false |}
           {| cfg_keywords := Some ["sangrado"; "fiebre"; "sangrado"];
              cfg_message := Some "Acude a un centro de salud.";
              cfg_other_keys := true |}).
  - split; [intros (H & _); discriminate H | left; reflexivity].
  - split; [intros (H & _); discriminate H | left; reflexivity].
  - intros kw. cbn. tauto.
  - reflexivity.
Defined.

(** No [alerts.json]: a keyword of the usual table is not detected. *)
Lemma alerts_file_missing_witness :
  _detect_alert_message ascii_lower (_load_alerts_config Missing) "tengo fiebre" "es" = None.
Proof.
  exact (proj1 (alerts_file_missing ascii_lower Missing (or_introl eq_refl))
           "tengo fiebre" "es").
Defined.

(** A [faq.json] that cannot be parsed. *)
Lemma faq_file_missing_witness :
  _build_faq_text (_load_faq_examples Unreadable) "es" = Normal None.
Proof.
  exact (proj1 (faq_file_missing Unreadable (or_intror eq_refl) "es" false)).
Defined.

(** A language that is not offered gets the Spanish prompt. *)
Lemma system_prompt_language_witness :
  build_system_prompt "fr" false None = build_system_prompt "es" false None.
Proof.
  exact (proj2 (system_prompt_language "fr" false None) eq_refl).
Defined.

(** Four exchanges in the history: the oldest is not shown. *)
Lemma prompt_uses_last_six_witness :
  compose_contents faq_one "hola" "es" false (older_exchange ++ three_exchanges) =
  compose_contents faq_one "hola" "es" false three_exchanges.
Proof.
  exact (prompt_uses_last_six faq_one "hola" "es" false older_exchange three_exchanges
           eq_refl).
Defined.

(** An answer with the disclaimer appended goes through unchanged. *)
Lemma post_process_idempotent_witness :
  let reply := "Hola" +:+ nl +:+ nl +:+ get_short_disclaimer "es" in
  post_process "es" (Some " Hola ") = Some reply /\
  post_process "es" (Some reply) = Some reply.
Proof.
  cbv zeta.
  assert (H : post_process "es" (Some " Hola ") =
              Some ("Hola" +:+ nl +:+ nl +:+ get_short_disclaimer "es"))
    by (vm_compute; reflexivity).
  split; [exact H |].
  exact (post_process_idempotent "es" (Some " Hola ") _ H).
Defined.

(** An answer without the disclaimer, between a no-break space and a
    space. *)
Lemma short_disclaimer_post_processing_witness :
  result_of (generate_response ∅ (answering (no_break_space +:+ "Descansa. "))
               "hola" "qu" false [] tt) =
  Normal ("Descansa." +:+ nl +:+ nl +:+ get_short_disclaimer "qu").
Proof.
  assert (Hc : compose_contents ∅ "hola" "qu" false [] =
               Normal (contents_of (build_system_prompt "qu" false None) "hola" "qu" []))
    by reflexivity.
  destruct (short_disclaimer_post_processing ∅ (answering (no_break_space +:+ "Descansa. "))
              "hola" "qu" false [] _ (Some (no_break_space +:+ "Descansa. ")) tt
              Hc eq_refl eq_refl)
    as (reply & Hr & Happend & _).
  rewrite Hr. f_equal. exact (proj1 (Happend eq_refl)).
Defined.

End Instances.
